(** * AntiCheatsBP: moderation action pipeline

    A shallow embedding of the script modules
      - [scripts/core/actionManager.js]  (action profile engine),
      - [scripts/core/commandManager.js] (command dispatch gateway),
      - [scripts/commands/ban.js]        (the ban command),
      - [scripts/core/reportManager.js]  (report cache),
    together with the properties the specification states about them.

    Conventions.  JavaScript strings are Rocq strings; character classes
    (white space, letter case) are those of the ASCII range.  Numbers are
    integers ([Z]).  A plain object is the list of its own properties in
    creation order.  Calls into collaborators whose code lives outside these
    four modules are recorded, in order, in a trace of events, and what such
    a call returns is read from a [Host] record. *)

From stdpp Require Import base strings list pretty.
From Stdlib Require Import ZArith Ascii String Lia.

Local Open Scope string_scope.

(** ** JavaScript values occurring in violation details *)

Inductive prim : Type :=
| PUndefined
| PNull
| PBool (b : bool)
| PNum (z : Z)
| PStr (s : string).

(** A value handed over as [violationDetails]: a primitive, or a plain object
    given by its own enumerable properties in the order they were created. *)
Inductive jsval : Type :=
| VPrim (p : prim)
| VObj (props : list (string * prim)).

(** [String(value)] *)
Definition js_String (p : prim) : string :=
  match p with
  | PUndefined => "undefined"
  | PNull => "null"
  | PBool true => "true"
  | PBool false => "false"
  | PNum z => pretty z
  | PStr s => s
  end.

(** ToBoolean *)
Definition truthy_prim (p : prim) : bool :=
  match p with
  | PUndefined | PNull => false
  | PBool b => b
  | PNum z => negb (Z.eqb z 0)
  | PStr s => negb (String.eqb s "")
  end.

Definition truthy (v : jsval) : bool :=
  match v with
  | VPrim p => truthy_prim p
  | VObj _ => true
  end.

(** [typeof v === 'object'] *)
Definition typeof_is_object (v : jsval) : bool :=
  match v with
  | VPrim PNull => true
  | VPrim _ => false
  | VObj _ => true
  end.

(** *** Own-property order

    [Object.keys], [Object.entries] and [for ... in] list the own string keys
    of an ordinary object with the array-index keys first, in ascending
    numeric order, followed by all other keys in creation order. *)

Definition digit_value (a : ascii) : option N :=
  let n := N_of_ascii a in
  if (48 <=? n)%N && (n <=? 57)%N then Some (n - 48)%N else None.

Fixpoint digits_value (acc : N) (s : string) : option N :=
  match s with
  | EmptyString => Some acc
  | String a rest =>
      match digit_value a with
      | Some d => digits_value (10 * acc + d)%N rest
      | None => None
      end
  end.

(** The canonical numeric strings "0", "1", ..., "4294967294". *)
Definition array_index (k : string) : option N :=
  match k with
  | EmptyString => None
  | String a rest =>
      if Ascii.eqb a "0" && negb (String.eqb rest "") then None
      else
        match digits_value 0 k with
        | Some n => if (n <? 4294967295)%N then Some n else None
        | None => None
        end
  end.

Definition is_array_index (k : string) : bool :=
  match array_index k with Some _ => true | None => false end.

Fixpoint insert_by_index {A : Type} (n : N) (x : A) (l : list (N * A)) : list (N * A) :=
  match l with
  | [] => [(n, x)]
  | (m, y) :: rest =>
      if (n <? m)%N then (n, x) :: l else (m, y) :: insert_by_index n x rest
  end.

Fixpoint indexed_props {A : Type} (props : list (string * A)) : list (N * (string * A)) :=
  match props with
  | [] => []
  | (k, v) :: rest =>
      match array_index k with
      | Some n => insert_by_index n (k, v) (indexed_props rest)
      | None => indexed_props rest
      end
  end.

Definition named_props {A : Type} (props : list (string * A)) : list (string * A) :=
  List.filter (fun kv => negb (is_array_index kv.1)) props.

(** No key of the object is an array index. *)
Definition named_only {A : Type} (props : list (string * A)) : bool :=
  forallb (fun kv => negb (is_array_index kv.1)) props.

(** [Object.entries(o)] *)
Definition Object_entries {A : Type} (props : list (string * A)) : list (string * A) :=
  map snd (indexed_props props) ++ named_props props.

(** [Object.keys(o)] *)
Definition Object_keys {A : Type} (props : list (string * A)) : list string :=
  map fst (Object_entries props).

(** [o[k]] on own properties *)
Fixpoint get_prop {A : Type} (k : string) (props : list (string * A)) : option A :=
  match props with
  | [] => None
  | (k', v) :: rest => if String.eqb k k' then Some v else get_prop k rest
  end.

(** [o[k] = v]: an existing key keeps its place, a new key goes last. *)
Fixpoint set_prop {A : Type} (k : string) (v : A) (props : list (string * A)) : list (string * A) :=
  match props with
  | [] => [(k, v)]
  | (k', v') :: rest =>
      if String.eqb k k' then (k, v) :: rest else (k', v') :: set_prop k v rest
  end.

(** ** actionManager.js: message formatting *)

Definition render_detail (kv : string * prim) : string :=
  kv.1 +:+ ": " +:+ js_String kv.2.

(** The own properties of a value; the formatters only ask for them once the
    value is known to be a non-null object. *)
Definition own_props (v : jsval) : list (string * prim) :=
  match v with
  | VObj props => props
  | VPrim _ => []
  end.

(** [formatViolationDetails(violationDetails)], actionManager.js lines 16-23. *)
Definition formatViolationDetails (violationDetails : jsval) : string :=
  if negb (truthy violationDetails)
     || negb (typeof_is_object violationDetails)
     || (List.length (Object_keys (own_props violationDetails)) =? 0)%nat
  then "N/A"
  else String.concat ", " (map render_detail (Object_entries (own_props violationDetails))).

(** *** String helpers standing for the JavaScript built-ins used below *)

Definition is_space (a : ascii) : bool :=
  let n := N_of_ascii a in
  ((9 <=? n)%N && (n <=? 13)%N) || (n =? 32)%N.

Fixpoint trimStart (s : string) : string :=
  match s with
  | EmptyString => EmptyString
  | String a rest => if is_space a then trimStart rest else s
  end.

Fixpoint trimEnd (s : string) : string :=
  match s with
  | EmptyString => EmptyString
  | String a rest =>
      match trimEnd rest with
      | EmptyString => if is_space a then EmptyString else String a EmptyString
      | rest' => String a rest'
      end
  end.

(** [s.trim()] *)
Definition trim (s : string) : string := trimEnd (trimStart s).

(** [strip_prefix p s = Some r] exactly when [s = p +:+ r]. *)
Fixpoint strip_prefix (p s : string) : option string :=
  match p, s with
  | EmptyString, _ => Some s
  | String a p', String b s' => if Ascii.eqb a b then strip_prefix p' s' else None
  | String _ _, EmptyString => None
  end.

(** The replacement text of [String.prototype.replace] for a pattern without
    capture groups: [$$] is a dollar sign, [$&] the match, [$`] the text
    before the match, [$'] the text after it; any other [$] stands for
    itself. *)
Fixpoint get_substitution (matched before after replacement : string) : string :=
  match replacement with
  | EmptyString => EmptyString
  | String a rest =>
      if Ascii.eqb a "$" then
        match rest with
        | String c r =>
            if Ascii.eqb c "$" then String "$" (get_substitution matched before after r)
            else if Ascii.eqb c "&" then matched +:+ get_substitution matched before after r
            else if Ascii.eqb c "`" then before +:+ get_substitution matched before after r
            else if Ascii.eqb c "'" then after +:+ get_substitution matched before after r
            else String "$" (get_substitution matched before after rest)
        | EmptyString => String "$" EmptyString
        end
      else String a (get_substitution matched before after rest)
  end.

Fixpoint replace_from (pat replacement before s : string) (skip : nat) : string :=
  match s with
  | EmptyString => EmptyString
  | String a rest =>
      match skip with
      | S k => replace_from pat replacement (before +:+ String a EmptyString) rest k
      | O =>
          match strip_prefix pat s with
          | Some after =>
              get_substitution pat before after replacement
              +:+ replace_from pat replacement (before +:+ String a EmptyString) rest
                    (String.length pat - 1)
          | None =>
              String a (replace_from pat replacement (before +:+ String a EmptyString) rest 0)
          end
      end
  end.

(** [s.replace(/pat/g, replacement)] for a pattern [pat] that is a non-empty
    run of literal characters, which is what [{playerName}], [{checkType}],
    [{detailsString}] and [{key}] for an identifier-like key are. *)
Definition replace_all (pat replacement s : string) : string :=
  replace_from pat replacement EmptyString s 0.

Definition placeholder (key : string) : string := "{" +:+ key +:+ "}".

(** The [for (const key in violationDetails)] loop of [formatActionMessage]. *)
Fixpoint replace_detail_keys (entries : list (string * prim)) (message : string) : string :=
  match entries with
  | [] => message
  | (key, value) :: rest =>
      replace_detail_keys rest (replace_all (placeholder key) (js_String value) message)
  end.

(** [formatActionMessage(template, playerName, checkType, violationDetails)],
    actionManager.js lines 36-55.  The template is a string; the empty
    template is the falsy one. *)
Definition formatActionMessage (template playerName checkType : string)
    (violationDetails : jsval) : string :=
  if String.eqb template "" then ""
  else
    let message := template in
    let message := replace_all "{playerName}" playerName message in
    let message := replace_all "{checkType}" checkType message in
    let message :=
      replace_all "{detailsString}" (formatViolationDetails violationDetails) message in
    if truthy violationDetails && typeof_is_object violationDetails
    then replace_detail_keys (Object_entries (own_props violationDetails)) message
    else message.

(** ** Players, thrown values, events and the effect monad *)

(** The members of a [Player] these modules read. *)
Record Player : Type := mkPlayer {
  player_id : string;
  player_nameTag : string;
  player_name : string }.

(** What a [throw] (or a rejected promise) carries: an [Error] object, or any
    other value. *)
Inductive Thrown : Type :=
| ErrorObject (errName message : string) (stack : option string)
| ThrownValue (p : prim).

Definition TypeError (message : string) : Thrown := ErrorObject "TypeError" message None.
Definition ReferenceError (ident : string) : Thrown :=
  ErrorObject "ReferenceError" (ident +:+ " is not defined") None.

(** [String(error)], i.e. [Error.prototype.toString] for error objects. *)
Definition Thrown_toString (e : Thrown) : string :=
  match e with
  | ErrorObject n m _ =>
      if String.eqb n "" then m
      else if String.eqb m "" then n
      else n +:+ ": " +:+ m
  | ThrownValue p => js_String p
  end.

(** A ban length as [parseDuration] reports it: milliseconds or [Infinity]. *)
Inductive Duration : Type :=
| Finite (ms : Z)
| Infinity.

Record LastViolation : Type := mkLastViolation {
  lv_itemTypeId : prim;
  lv_timestamp : Z }.

(** Modelled from the spec: the per-player moderation state kept by
    playerDataManager.js, reduced to the members read or written here
    ([isWatched], [lastViolationDetailsMap], [isDirtyForSave]); the flag
    counters stay with the manager. *)
Record PData : Type := mkPData {
  isWatched : bool;
  lastViolationDetailsMap : option (list (string * LastViolation));
  isDirtyForSave : bool }.

Record BanInfo : Type := mkBanInfo {
  ban_reason : string;
  ban_bannedBy : string;
  ban_unbanTime : Z }.

Inductive ConsoleLevel : Type := ConsoleLog | ConsoleWarn | ConsoleError.

(** The three shapes in which [addLog] is called. *)
Inductive AddLogArgs : Type :=
| LogDetection (adminName actionType targetName details reason : string)
| LogBan (timestamp : Z) (adminName actionType targetName duration reason : string)
         (isAutoMod : bool) (checkType : option string)
| LogText (actionType text : string).

(** Calls that leave the four modules, in the order they are made. *)
Inductive Event : Type :=
| EvSendMessage (p : Player) (msg : string)
| EvWarnPlayer (p : Player) (msg : string)
| EvConsole (lvl : ConsoleLevel) (msg : string)
| EvDebugLog (msg : string) (contextName : option string)
| EvAddFlag (p : Player) (flagType reason details : string)
| EvAddLog (entry : AddLogArgs)
| EvNotifyAdmins (msg : string) (p : option Player) (pData : option PData)
| EvAddBan (target : Player) (duration : Duration) (reason bannedBy : string)
           (isAutoModAction : bool) (autoModCheckType : option string)
| EvKick (target : Player) (msg : string).

(** The mutable surroundings: the calls made so far, the player-data objects
    by player id, and the [cancel] member of the chat event being handled. *)
Record World : Type := mkWorld {
  trace : list Event;
  pdata : list (string * PData);
  cancel : bool }.

Inductive Outcome (A : Type) : Type :=
| Return (a : A)
| Throw (e : Thrown).
Arguments Return {A} a.
Arguments Throw {A} e.

(** Code that reads and writes a state [S] and either returns or throws. *)
Definition Eff (S A : Type) : Type := S -> Outcome A * S.

Definition ret {S A : Type} (a : A) : Eff S A := fun w => (Return a, w).

Definition bind {S A B : Type} (c : Eff S A) (k : A -> Eff S B) : Eff S B :=
  fun w =>
    match c w with
    | (Return a, w') => k a w'
    | (Throw e, w') => (Throw e, w')
    end.

Definition throw {S A : Type} (e : Thrown) : Eff S A := fun w => (Throw e, w).

(** [try { body } catch (error) { handler }] *)
Definition try_catch {S A : Type} (body : Eff S A) (handler : Thrown -> Eff S A) : Eff S A :=
  fun w =>
    match body w with
    | (Return a, w') => (Return a, w')
    | (Throw e, w') => handler e w'
    end.

Definition liftOutcome {S A : Type} (o : Outcome A) : Eff S A := fun w => (o, w).

Definition when {S : Type} (b : bool) (c : Eff S unit) : Eff S unit :=
  if b then c else ret tt.

(** The action engine, the gateway and the commands run over a [World]. *)
Definition M (A : Type) : Type := Eff World A.

Definition emit (e : Event) : M unit :=
  fun w => (Return tt, mkWorld (trace w ++ [e]) (pdata w) (cancel w)).

Definition read_pdata (pid : string) : M (option PData) :=
  fun w => (Return (get_prop pid (pdata w)), w).

Definition write_pdata (pid : string) (d : PData) : M unit :=
  fun w => (Return tt, mkWorld (trace w) (set_prop pid d (pdata w)) (cancel w)).

Definition set_cancel (b : bool) : M unit :=
  fun w => (Return tt, mkWorld (trace w) (pdata w) b).

Declare Scope js_scope.
Delimit Scope js_scope with js.
Notation "x <- c ;; k" := (bind c (fun x => k))
  (at level 100, c at next level, right associativity) : js_scope.
Notation "c ;; k" := (bind c (fun _ => k))
  (at level 100, right associativity) : js_scope.
Local Open Scope js_scope.

(** [for (let i = 0; i < n; i++) { body }] *)
Fixpoint repeatM (n : nat) (body : M unit) : M unit :=
  match n with
  | O => ret tt
  | S k => body ;; repeatM k body
  end.

(** ** actionManager.js: the action profile engine *)

Record FlagProfile : Type := mkFlagProfile {
  flag_type : option string;
  flag_increment : option Z;
  flag_reason : option string }.

Record LogProfile : Type := mkLogProfile {
  log_actionType : option string;
  log_detailsPrefix : option string;
  log_includeViolationDetails : option bool }.

Record NotifyProfile : Type := mkNotifyProfile {
  notify_message : option string }.

Record ActionProfile : Type := mkActionProfile {
  enabled : bool;
  flag : option FlagProfile;
  log : option LogProfile;
  notifyAdmins : option NotifyProfile }.

(** Which members a collaborator object offers; the engine tests for them
    before each call. *)
Record PlayerDataManagerCaps : Type := mkPdmCaps {
  has_addFlag : bool;
  has_getPlayerData : bool }.

Record PlayerUtilsCaps : Type := mkPuCaps {
  has_debugLog : bool;
  has_notifyAdmins : bool }.

Record LogManagerCaps : Type := mkLmCaps {
  has_addLog : bool }.

Record ActionConfig : Type := mkActionConfig {
  checkActionProfiles : option (list (string * ActionProfile)) }.

Record ActionManagerDependencies : Type := mkAmDeps {
  am_config : option ActionConfig;
  am_playerDataManager : option PlayerDataManagerCaps;
  am_playerUtils : option PlayerUtilsCaps;
  am_logManager : option LogManagerCaps }.

(** [playerUtils?.debugLog?.(msg)] *)
Definition debugLog_opt (pu : option PlayerUtilsCaps) (msg : string) : M unit :=
  match pu with
  | Some u => when (has_debugLog u) (emit (EvDebugLog msg None))
  | None => ret tt
  end.

(** [x || d] on an optional string ([undefined] and [""] are falsy). *)
Definition or_default (x : option string) (d : string) : string :=
  match x with
  | Some s => if String.eqb s "" then d else s
  | None => d
  end.

(** [violationDetails?.itemTypeId] *)
Definition details_itemTypeId (violationDetails : jsval) : prim :=
  match violationDetails with
  | VObj props =>
      match get_prop "itemTypeId" props with
      | Some p => p
      | None => PUndefined
      end
  | VPrim _ => PUndefined
  end.

Record PermissionLevels : Type := mkPermissionLevels {
  owner : Z;
  admin : Z }.

(** What the surroundings answer when asked: the clock and date formatting,
    the localisation table of i18n.js, the permission levels of
    rankManager.js, the helpers of playerUtils.js, the ban store of
    playerDataManager.js, the identifiers the global object binds, and the
    error, if any, with which disconnecting a player fails. *)
Record Host : Type := mkHost {
  Date_now : Z;
  Date_toISOString : string;
  Date_toLocaleString : Z -> string;
  getString : string -> list (string * string) -> string;
  permissionLevels : PermissionLevels;
  getPlayerPermissionLevel : Player -> Z;
  findPlayer : string -> option Player;
  parseDuration : string -> option Duration;
  isAdmin : Player -> bool;
  addBan : Player -> Duration -> string -> string -> bool -> option string -> bool;
  getBanInfo : Player -> option BanInfo;
  global_scope : list string;
  kick_error : Player -> option Thrown }.

(** A double quote, for messages that contain one. *)
Definition dquote : string := String (ascii_of_nat 34) EmptyString.

Definition playerNameForLog (player : option Player) : string :=
  match player with
  | Some p => player_nameTag p
  | None => "System"
  end.

Section ActionManager.
Context (host : Host).

(** Step 1 of [executeCheckAction], lines 106-118. *)
Definition handleFlagging (player : option Player) (checkType : string)
    (violationDetails : jsval) (deps : ActionManagerDependencies)
    (profile : ActionProfile) (flagReasonMessage : string) : M unit :=
  let pdm_addFlag :=
    match am_playerDataManager deps with
    | Some m => has_addFlag m
    | None => false
    end in
  match player, flag profile with
  | Some p, Some f =>
      if pdm_addFlag then
        let flagType := or_default (flag_type f) checkType in
        let increment := match flag_increment f with Some n => n | None => 1%Z end in
        let flagDetailsForAdminNotify := formatViolationDetails violationDetails in
        repeatM (Z.to_nat increment)
          (emit (EvAddFlag p flagType flagReasonMessage flagDetailsForAdminNotify)) ;;
        debugLog_opt (am_playerUtils deps)
          ("[ActionManager] Flagged " +:+ playerNameForLog player +:+ " for " +:+ flagType
           +:+ " (x" +:+ pretty increment +:+ "). Reason: " +:+ dquote
           +:+ flagReasonMessage +:+ dquote)
      else ret tt
  | None, Some _ =>
      debugLog_opt (am_playerUtils deps)
        ("[ActionManager] Skipping flagging for checkType " +:+ dquote +:+ checkType
         +:+ dquote +:+ " because player is null. Profile had flagging enabled.")
  | _, None => ret tt
  end.

(** Step 2, lines 120-136. *)
Definition handleLogging (player : option Player) (checkType : string)
    (violationDetails : jsval) (deps : ActionManagerDependencies)
    (profile : ActionProfile) (flagReasonMessage : string) : M unit :=
  let lm_addLog :=
    match am_logManager deps with
    | Some m => has_addLog m
    | None => false
    end in
  match log profile with
  | Some l =>
      if lm_addLog then
        let logActionType := or_default (log_actionType l) ("detected_" +:+ checkType) in
        let logDetailsString := or_default (log_detailsPrefix l) "" in
        let logDetailsString :=
          match log_includeViolationDetails l with
          | Some false => logDetailsString
          | _ => logDetailsString +:+ formatViolationDetails violationDetails
          end in
        emit (EvAddLog (LogDetection "System" logActionType (playerNameForLog player)
                          (trim logDetailsString) flagReasonMessage))
      else ret tt
  | None => ret tt
  end.

(** Step 3, lines 138-149. *)
Definition handleNotification (player : option Player) (checkType : string)
    (violationDetails : jsval) (deps : ActionManagerDependencies)
    (profile : ActionProfile) : M unit :=
  let pu_notifyAdmins :=
    match am_playerUtils deps with
    | Some u => has_notifyAdmins u
    | None => false
    end in
  let message :=
    match notifyAdmins profile with
    | Some n => or_default (notify_message n) ""
    | None => ""
    end in
  if negb (String.eqb message "") && pu_notifyAdmins then
    let notifyMsg :=
      formatActionMessage message (playerNameForLog player) checkType violationDetails in
    pData <- match player, am_playerDataManager deps with
             | Some p, Some m =>
                 if has_getPlayerData m then read_pdata (player_id p) else ret None
             | _, _ => ret None
             end ;;
    emit (EvNotifyAdmins notifyMsg player pData)
  else ret tt.

(** The item-context step, lines 151-169. *)
Definition storeItemContext (player : option Player) (checkType : string)
    (violationDetails : jsval) (deps : ActionManagerDependencies) : M unit :=
  let itemTypeId := details_itemTypeId violationDetails in
  match player, am_playerDataManager deps with
  | Some p, Some m =>
      if truthy_prim itemTypeId then
        pData <- (if has_getPlayerData m then read_pdata (player_id p) else ret None) ;;
        match pData with
        | Some d =>
            let lastMap :=
              match lastViolationDetailsMap d with
              | Some lm => lm
              | None => []
              end in
            write_pdata (player_id p)
              (mkPData (isWatched d)
                 (Some (set_prop checkType (mkLastViolation itemTypeId (Date_now host)) lastMap))
                 true) ;;
            debugLog_opt (am_playerUtils deps)
              ("[ActionManager] Stored itemTypeId '" +:+ js_String itemTypeId
               +:+ "' for check '" +:+ checkType
               +:+ "' in pData.lastViolationDetailsMap for " +:+ playerNameForLog player
               +:+ ".")
        | None =>
            debugLog_opt (am_playerUtils deps)
              ("[ActionManager] Could not store itemTypeId for check '" +:+ checkType
               +:+ "' because pData could not be retrieved for "
               +:+ playerNameForLog player +:+ ".")
        end
      else ret tt
  | Some _, None => ret tt
  | None, _ =>
      if truthy_prim itemTypeId then
        debugLog_opt (am_playerUtils deps)
          ("[ActionManager] Skipping storage of itemTypeId for check '" +:+ checkType
           +:+ "' because player is null.")
      else ret tt
  end.

(** [executeCheckAction(player, checkType, violationDetails, dependencies)],
    actionManager.js lines 73-170. *)
Definition executeCheckAction (player : option Player) (checkType : string)
    (violationDetails : jsval) (dependencies : ActionManagerDependencies) : M unit :=
  let playerUtils := am_playerUtils dependencies in
  match am_config dependencies with
  | Some {| checkActionProfiles := Some profiles |} =>
      match get_prop checkType profiles with
      | None =>
          debugLog_opt playerUtils
            ("[ActionManager] No action profile found for checkType: " +:+ dquote
             +:+ checkType +:+ dquote +:+ ". Context: " +:+ playerNameForLog player)
      | Some profile =>
          if negb (enabled profile) then
            debugLog_opt playerUtils
              ("[ActionManager] Actions for checkType " +:+ dquote +:+ checkType +:+ dquote
               +:+ " are disabled in its profile. Context: " +:+ playerNameForLog player)
          else
            let baseReasonTemplate :=
              or_default (match flag profile with Some f => flag_reason f | None => None end)
                ("Triggered " +:+ checkType) in
            let flagReasonMessage :=
              formatActionMessage baseReasonTemplate (playerNameForLog player) checkType
                violationDetails in
            handleFlagging player checkType violationDetails dependencies profile
              flagReasonMessage ;;
            handleLogging player checkType violationDetails dependencies profile
              flagReasonMessage ;;
            handleNotification player checkType violationDetails dependencies profile ;;
            storeItemContext player checkType violationDetails dependencies
      end
  | _ =>
      debugLog_opt playerUtils
        ("[ActionManager] checkActionProfiles not found in config. Cannot process action for "
         +:+ checkType +:+ ". Context: " +:+ playerNameForLog player)
  end.

End ActionManager.

(** ** commandManager.js: the command dispatch gateway *)

Definition lower_ascii (a : ascii) : ascii :=
  let n := N_of_ascii a in
  if (65 <=? n)%N && (n <=? 90)%N then ascii_of_N (n + 32) else a.

(** [s.toLowerCase()] *)
Fixpoint toLowerCase (s : string) : string :=
  match s with
  | EmptyString => EmptyString
  | String a rest => String (lower_ascii a) (toLowerCase rest)
  end.

(** [s.substring(n)] *)
Fixpoint substring_from (n : nat) (s : string) : string :=
  match n, s with
  | O, _ => s
  | S k, String _ rest => substring_from k rest
  | S _, EmptyString => EmptyString
  end.

Fixpoint split_go (cur : string) (in_space : bool) (s : string) : list string :=
  match s with
  | EmptyString => [cur]
  | String a rest =>
      if is_space a then
        if in_space then split_go cur true rest else cur :: split_go EmptyString true rest
      else split_go (cur +:+ String a EmptyString) false rest
  end.

(** [s.split(/\s+/)] *)
Definition split_spaces (s : string) : list string := split_go EmptyString false s.

Record CommandDefinition : Type := mkCommandDefinition {
  cmd_name : string;
  cmd_syntax : string;
  cmd_description : string;
  cmd_permissionLevel : Z;
  cmd_enabled : bool }.

Record CommandSetting : Type := mkCommandSetting {
  setting_enabled : option bool }.

(** The members of the editable configuration read by the gateway and by
    the ban command. *)
Record Config : Type := mkConfig {
  prefix : string;
  commandAliases : option (list (string * string));
  commandSettings : option (list (string * CommandSetting));
  enableDebugLogging : bool }.

(** A value the commands only pass along: an imported module or constructor,
    the UI manager, or whatever the global object binds to an identifier. *)
Inductive Opaque : Type :=
| Imported (what : string)
| Argument (what : string)
| GlobalBinding (ident : string).

(** The dependency object handed to a command's [execute]: the keys written
    by [handleChatCommand] (lines 133-149) followed by the further keys the
    ban command reads from it; [None] is a missing key. *)
Record CommandDependencies : Type := mkCommandDependencies {
  dep_mc : option Opaque;
  dep_playerDataManager : option PlayerDataManagerCaps;
  dep_uiManager : option Opaque;
  dep_config : option Config;
  dep_configModule : option Opaque;
  dep_playerUtils : option PlayerUtilsCaps;
  dep_logManager : option Opaque;
  dep_permissionLevels : option PermissionLevels;
  dep_ActionFormData : option Opaque;
  dep_MessageFormData : option Opaque;
  dep_ModalFormData : option Opaque;
  dep_reportManager : option Opaque;
  dep_allCommands : option (list CommandDefinition);
  dep_commandDefinitionMap : option (list (string * CommandDefinition));
  dep_ItemComponentTypes : option Opaque;
  dep_addLog : bool;
  dep_findPlayer : option (string -> option Player);
  dep_parseDuration : option (string -> option Duration);
  dep_getPlayerPermissionLevel : option (Player -> Z) }.

(** A command's [execute] as the gateway calls it. *)
Definition Executor : Type := Player -> list string -> CommandDependencies -> M unit.

Record CommandModule : Type := mkCommandModule {
  mod_definition : option CommandDefinition;
  mod_execute : option Executor }.

(** The two lookup tables, as JavaScript [Map]s: keys in insertion order. *)
Record Registry : Type := mkRegistry {
  commandDefinitionMap : list (string * CommandDefinition);
  commandExecutionMap : list (string * Executor);
  loadLog : list Event }.

Definition emptyRegistry : Registry := mkRegistry [] [] [].

(** One turn of the registration loop, lines 36-46. *)
Definition registerModule (r : Registry) (cmdModule : option CommandModule) : Registry :=
  match cmdModule with
  | Some {| mod_definition := Some definition; mod_execute := Some execute |} =>
      let cmdName := toLowerCase (cmd_name definition) in
      let warned :=
        match get_prop cmdName (commandDefinitionMap r) with
        | Some _ =>
            [EvConsole ConsoleWarn
               ("[CommandManager] Duplicate command name detected and overwritten: "
                +:+ cmdName)]
        | None => []
        end in
      mkRegistry (set_prop cmdName definition (commandDefinitionMap r))
                 (set_prop cmdName execute (commandExecutionMap r))
                 (loadLog r ++ warned)
  | _ => r
  end.

(** Module initialisation, lines 35-50; [None] is a [commandModules] that is
    not an array. *)
Definition loadCommands (commandModules : option (list (option CommandModule))) : Registry :=
  match commandModules with
  | Some modules =>
      let r := fold_left registerModule modules emptyRegistry in
      mkRegistry (commandDefinitionMap r) (commandExecutionMap r)
        (loadLog r ++
         [EvConsole ConsoleLog
            ("[CommandManager] Dynamically loaded "
             +:+ pretty (List.length (commandDefinitionMap r))
             +:+ " command definitions.")])
  | None =>
      mkRegistry [] []
        [EvConsole ConsoleError
           "[CommandManager] commandModules is not an array or is undefined. No commands loaded."]
  end.

Record ChatSendBeforeEvent : Type := mkChatEvent {
  sender : Player;
  message : string }.

(** The reply of line 89, to a name that is not in the tables. *)
Definition unknownCommandMessage (config : Config) (finalCommandName : string) : string :=
  "§cUnknown command: " +:+ prefix config +:+ finalCommandName +:+ "§r. Type "
  +:+ prefix config +:+ "help for assistance.".

(** [message.substring(config.prefix.length).trim().split(/\s+/)] *)
Definition parseArgs (config : Config) (message : string) : list string :=
  split_spaces (trim (substring_from (String.length (prefix config)) message)).

(** [args.shift()?.toLowerCase()] together with what is left in [args]. *)
Definition shiftCommandName (args : list string) : option string * list string :=
  match args with
  | [] => (None, [])
  | first :: rest => (Some (toLowerCase first), rest)
  end.

(** [error.stack || error] inside a template literal; reading a member of
    [null] or [undefined] throws. *)
Definition error_stack_or_error (error : Thrown) : Outcome string :=
  match error with
  | ErrorObject _ _ (Some s) =>
      if String.eqb s "" then Return (Thrown_toString error) else Return s
  | ErrorObject _ _ None => Return (Thrown_toString error)
  | ThrownValue PNull => Throw (TypeError "Cannot read properties of null (reading 'stack')")
  | ThrownValue PUndefined =>
      Throw (TypeError "Cannot read properties of undefined (reading 'stack')")
  | ThrownValue _ => Return (Thrown_toString error)
  end.

(** [error.message] inside a template literal. *)
Definition error_message (error : Thrown) : Outcome string :=
  match error with
  | ErrorObject _ m _ => Return m
  | ThrownValue PNull => Throw (TypeError "Cannot read properties of null (reading 'message')")
  | ThrownValue PUndefined =>
      Throw (TypeError "Cannot read properties of undefined (reading 'message')")
  | ThrownValue _ => Return "undefined"
  end.

(** Unguarded member calls: a missing member makes the call throw. *)
Definition getPlayerData (playerDataManager : PlayerDataManagerCaps) (pid : string)
  : M (option PData) :=
  if has_getPlayerData playerDataManager then read_pdata pid
  else throw (TypeError "playerDataManager.getPlayerData is not a function").

Definition debugLog (playerUtils : PlayerUtilsCaps) (msg : string) (contextName : option string)
  : M unit :=
  if has_debugLog playerUtils then emit (EvDebugLog msg contextName)
  else throw (TypeError "playerUtils.debugLog is not a function").

Definition watchedName (pData : option PData) (player : Player) : option string :=
  match pData with
  | Some d => if isWatched d then Some (player_nameTag player) else None
  | None => None
  end.

(** [args.shift()?.toLowerCase()], with [undefined] read as the empty (falsy)
    string, and the arguments left behind. *)
Definition commandNameInput (config : Config) (message : string) : string :=
  or_default (shiftCommandName (parseArgs config message)).1 "".

Definition commandArgs (config : Config) (message : string) : list string :=
  (shiftCommandName (parseArgs config message)).2.

(** The names of the properties that every ordinary object inherits from
    [Object.prototype]: the methods, the constructor and the [__proto__]
    accessor. *)
Definition Object_prototype_keys : list string :=
  ["constructor"; "__defineGetter__"; "__defineSetter__"; "hasOwnProperty";
   "__lookupGetter__"; "__lookupSetter__"; "isPrototypeOf"; "propertyIsEnumerable";
   "toString"; "valueOf"; "__proto__"; "toLocaleString"].

(** What a property read on the alias table yields, when it yields
    something: the string stored under an own key, or the member of
    [Object.prototype] (a function, or for [__proto__] the prototype object)
    that the table inherits under that name. *)
Inductive AliasValue : Type :=
| AliasString (target : string)
| InheritedMember (key : string).

(** [config.commandAliases?.[commandNameInput]], line 78.  The alias table,
    when there is one, is an ordinary object: a read goes to the own keys
    first and then to the prototype. *)
Definition aliasTarget (config : Config) (commandNameInput : string) : option AliasValue :=
  match commandAliases config with
  | Some aliases =>
      match get_prop commandNameInput aliases with
      | Some target => Some (AliasString target)
      | None =>
          if existsb (String.eqb commandNameInput) Object_prototype_keys
          then Some (InheritedMember commandNameInput)
          else None
      end
  | None => None
  end.

(** ToBoolean of what the alias read yielded. *)
Definition aliasTruthy (aliasTarget : option AliasValue) : bool :=
  match aliasTarget with
  | Some (AliasString target) => negb (String.eqb target "")
  | Some (InheritedMember _) => true
  | None => false
  end.

(** Line 79, [aliasTarget ? aliasTarget.toLowerCase() : commandNameInput]: a
    truthy value that is not a string has no [toLowerCase] to call. *)
Definition finalCommandName (config : Config) (commandNameInput : string) : Outcome string :=
  match aliasTarget config commandNameInput with
  | Some (AliasString target) =>
      if String.eqb target "" then Return commandNameInput
      else Return (toLowerCase target)
  | Some (InheritedMember _) =>
      Throw (TypeError "aliasTarget.toLowerCase is not a function")
  | None => Return commandNameInput
  end.

(** Lines 94-97: the override of the installation, when it is a boolean,
    wins over the default of the definition. *)
Definition isEffectivelyEnabled (config : Config) (finalCommandName : string)
    (commandDef : CommandDefinition) : bool :=
  match commandSettings config with
  | Some settings =>
      match get_prop finalCommandName settings with
      | Some {| setting_enabled := Some b |} => b
      | _ => cmd_enabled commandDef
      end
  | None => cmd_enabled commandDef
  end.

(** The [debugLog] lines of lines 69, 82 and 103. *)
Definition attemptLine (player : Player) (commandNameInput : string) (args : list string)
    (senderPDataForLog : option PData) : Event :=
  EvDebugLog ("Player " +:+ player_nameTag player +:+ " issued command attempt: "
              +:+ dquote +:+ commandNameInput +:+ dquote +:+ " with args: ["
              +:+ String.concat ", " args +:+ "]")
    (watchedName senderPDataForLog player).

Definition aliasLine (player : Player) (commandNameInput finalCommandName : string) : Event :=
  EvDebugLog ("Command alias '" +:+ commandNameInput +:+ "' resolved to '"
              +:+ finalCommandName +:+ "'.")
    (Some (player_nameTag player)).

Definition disabledLine (player : Player) (finalCommandName : string) : Event :=
  EvDebugLog ("Command '" +:+ finalCommandName +:+ "' is disabled. Access denied for "
              +:+ player_nameTag player +:+ ".")
    (Some (player_nameTag player)).

Section CommandManager.
Context (host : Host) (registry : Registry).

(** Reading an identifier that neither the function, nor the module, nor
    the global object binds throws a [ReferenceError]. *)
Definition resolve_global (ident : string) : M Opaque :=
  if existsb (String.eqb ident) (global_scope host) then ret (GlobalBinding ident)
  else throw (ReferenceError ident).

(** The object literal of lines 133-149.  Every name in it is a parameter
    of [handleChatCommand] or an import of the module, except [logManager],
    which the module never binds. *)
Definition dependencies (playerDataManager : PlayerDataManagerCaps) (uiManager : Opaque)
    (config : Config) (playerUtils : PlayerUtilsCaps) : M CommandDependencies :=
  logManager <- resolve_global "logManager" ;;
  ret {| dep_mc := Some (Imported "@minecraft/server");
         dep_playerDataManager := Some playerDataManager;
         dep_uiManager := Some uiManager;
         dep_config := Some config;
         dep_configModule := Some (Imported "../config.js");
         dep_playerUtils := Some playerUtils;
         dep_logManager := Some logManager;
         dep_permissionLevels := Some (permissionLevels host);
         dep_ActionFormData := Some (Imported "ActionFormData");
         dep_MessageFormData := Some (Imported "MessageFormData");
         dep_ModalFormData := Some (Imported "ModalFormData");
         dep_reportManager := Some (Imported "./reportManager.js");
         dep_allCommands := Some (map snd (commandDefinitionMap registry));
         dep_commandDefinitionMap := Some (commandDefinitionMap registry);
         dep_ItemComponentTypes := Some (Imported "ItemComponentTypes");
         dep_addLog := false;
         dep_findPlayer := None;
         dep_parseDuration := None;
         dep_getPlayerPermissionLevel := None |}.

(** The [catch (error)] block, lines 156-164. *)
Definition commandErrorHandler (player : Player) (finalCommandName : string)
    (args : list string) (playerUtils : PlayerUtilsCaps) (error : Thrown) : M unit :=
  emit (EvSendMessage player
          ("§cAn error occurred while executing command '" +:+ finalCommandName
           +:+ "'. Please report this.")) ;;
  detail <- liftOutcome (error_stack_or_error error) ;;
  emit (EvConsole ConsoleError
          ("[CommandManager] Error executing command " +:+ finalCommandName
           +:+ " for player " +:+ player_nameTag player +:+ ": " +:+ detail)) ;;
  when (has_debugLog playerUtils)
    (emit (EvDebugLog ("Error executing command " +:+ finalCommandName +:+ " for "
                       +:+ player_nameTag player +:+ ": " +:+ Thrown_toString error)
             None)) ;;
  errorMessage <- liftOutcome (error_message error) ;;
  emit (EvAddLog (LogText "command_error"
          ("Cmd: " +:+ finalCommandName +:+ ", Player: " +:+ player_nameTag player
           +:+ ", Args: [" +:+ String.concat ", " args +:+ "], Error: " +:+ errorMessage))).

(** Lines 118-164: the part of [handleChatCommand] after the permission
    check. *)
Definition dispatch (eventData : ChatSendBeforeEvent)
    (playerDataManager : PlayerDataManagerCaps) (uiManager : Opaque) (config : Config)
    (playerUtils : PlayerUtilsCaps) (args : list string) (finalCommandName : string)
    (commandExecute : Executor) (userPermissionLevel : Z)
    (senderPDataForLog : option PData) : M unit :=
  let player := sender eventData in
  set_cancel true ;;
  when (userPermissionLevel <=? admin (permissionLevels host))%Z
    (emit (EvConsole ConsoleWarn
             ("[AdminCommandLog] " +:+ Date_toISOString host +:+ " - Player: "
              +:+ player_name player +:+ " - Command: " +:+ message eventData))) ;;
  pDataForAdminLog <- getPlayerData playerDataManager (player_id player) ;;
  (match pDataForAdminLog with
   | Some d =>
       if isWatched d && isAdmin host player then
         debugLog playerUtils
           ("Watched admin " +:+ player_nameTag player +:+ " is executing command: "
            +:+ message eventData)
           (Some (player_nameTag player))
       else ret tt
   | None => ret tt
   end) ;;
  deps <- dependencies playerDataManager uiManager config playerUtils ;;
  try_catch
    (commandExecute player args deps ;;
     when (has_debugLog playerUtils)
       (emit (EvDebugLog ("Successfully executed command '" +:+ finalCommandName
                          +:+ "' for " +:+ player_nameTag player +:+ ".")
                (watchedName senderPDataForLog player))))
    (commandErrorHandler player finalCommandName args playerUtils).

(** [handleChatCommand(eventData, playerDataManager, uiManager, config,
    playerUtils)], commandManager.js lines 62-165. *)
Definition handleChatCommand (eventData : ChatSendBeforeEvent)
    (playerDataManager : PlayerDataManagerCaps) (uiManager : Opaque) (config : Config)
    (playerUtils : PlayerUtilsCaps) : M unit :=
  let player := sender eventData in
  let args := commandArgs config (message eventData) in
  let commandNameInput := commandNameInput config (message eventData) in
  senderPDataForLog <- getPlayerData playerDataManager (player_id player) ;;
  when (has_debugLog playerUtils)
    (emit (attemptLine player commandNameInput args senderPDataForLog)) ;;
  if String.eqb commandNameInput "" then
    emit (EvSendMessage player
            ("§cPlease enter a command after the prefix. Type " +:+ prefix config
             +:+ "help for a list of commands.")) ;;
    set_cancel true
  else
    let aliasTarget := aliasTarget config commandNameInput in
    finalCommandName <- liftOutcome (finalCommandName config commandNameInput) ;;
    when (aliasTruthy aliasTarget && has_debugLog playerUtils)
      (emit (aliasLine player commandNameInput finalCommandName)) ;;
    match get_prop finalCommandName (commandDefinitionMap registry),
          get_prop finalCommandName (commandExecutionMap registry) with
    | Some commandDef, Some commandExecute =>
        if negb (isEffectivelyEnabled config finalCommandName commandDef) then
          emit (EvSendMessage player
                  ("§cUnknown command: " +:+ prefix config +:+ finalCommandName
                   +:+ "§r. Type " +:+ prefix config +:+ "help for assistance.")) ;;
          set_cancel true ;;
          when (has_debugLog playerUtils) (emit (disabledLine player finalCommandName))
        else
          let userPermissionLevel := getPlayerPermissionLevel host player in
          if (cmd_permissionLevel commandDef <? userPermissionLevel)%Z then
            emit (EvWarnPlayer player "You do not have permission to use this command.") ;;
            when (has_debugLog playerUtils)
              (emit (EvDebugLog ("Command '" +:+ cmd_name commandDef +:+ "' denied for "
                                 +:+ player_nameTag player
                                 +:+ " due to insufficient permissions. Required: "
                                 +:+ pretty (cmd_permissionLevel commandDef)
                                 +:+ ", Player has: " +:+ pretty userPermissionLevel)
                       (Some (player_nameTag player)))) ;;
            set_cancel true
          else
            dispatch eventData playerDataManager uiManager config playerUtils args
              finalCommandName commandExecute userPermissionLevel senderPDataForLog
    | _, _ =>
        emit (EvSendMessage player (unknownCommandMessage config finalCommandName)) ;;
        set_cancel true
    end.

End CommandManager.

(** ** ban.js: the ban command *)

Definition is_color_code (a : ascii) : bool :=
  let n := N_of_ascii a in
  ((97 <=? n)%N && (n <=? 102)%N) || ((48 <=? n)%N && (n <=? 57)%N).

Fixpoint strip_colors_from (s : string) (skip : nat) : string :=
  match s with
  | EmptyString => EmptyString
  | String a rest =>
      match skip with
      | S k => strip_colors_from rest k
      | O =>
          match strip_prefix "§" s with
          | Some (String c _) =>
              if is_color_code c then strip_colors_from rest (String.length "§")
              else String a (strip_colors_from rest 0)
          | _ => String a (strip_colors_from rest 0)
          end
      end
  end.

(** [s.replace(/§[a-f0-9]/g, '')] *)
Definition strip_colors (s : string) : string := strip_colors_from s 0.

Definition newline : string := String (ascii_of_nat 10) EmptyString.

Module Ban.
Section BanCommand.
Context (host : Host).

Definition definition : CommandDefinition :=
{| cmd_name := "ban";
   cmd_syntax := "!ban <playername> [duration] [reason]";
   cmd_description := "Bans a player for a specified duration (e.g., 7d, 2h, perm).";
   cmd_permissionLevel := admin (permissionLevels host);
   cmd_enabled := true |}.

(** [if (player) player.sendMessage(forPlayer) else console.<lvl>(forConsole)] *)
Definition tell (player : option Player) (forPlayer : string) (lvl : ConsoleLevel)
  (forConsole : string) : M unit :=
match player with
| Some p => emit (EvSendMessage p forPlayer)
| None => emit (EvConsole lvl forConsole)
end.

Definition member {A : Type} (x : option A) (what : string) : M A :=
match x with
| Some a => ret a
| None => throw (TypeError what)
end.

Definition autoModReason (autoModCheckType : option string) : string :=
"AutoMod action for " +:+ or_default autoModCheckType "violations" +:+ ".".

(** Lines 51-56. *)
Definition banReason (args : list string) (invokedBy : string)
  (autoModCheckType : option string) : string :=
if String.eqb invokedBy "AutoMod" && (List.length args <=? 2)%nat
then autoModReason autoModCheckType
else
  let joined := String.concat " " (drop 2 args) in
  if String.eqb joined "" then
    if String.eqb invokedBy "AutoMod" then autoModReason autoModCheckType
    else "Banned by an administrator."
  else joined.

(** [args[1] || "perm"], line 49. *)
Definition durationStringOf (args : list string) : string :=
  or_default (nth_error args 1) "perm".

(** [durationMs === null || (durationMs <= 0 && durationMs !== Infinity)] *)
Definition invalidDuration (durationMs : option Duration) : bool :=
match durationMs with
| None => true
| Some (Finite ms) => (ms <=? 0)%Z
| Some Infinity => false
end.

(** The hierarchy checks, lines 75-91; [true] when one of them denies. *)
Definition hierarchyDenies (player : option Player) (foundPlayer : Player)
  (dependencies : CommandDependencies) (invokedBy : string) : M bool :=
match player with
| Some p =>
    if String.eqb invokedBy "PlayerCommand" then
      levelOf <- member (dep_getPlayerPermissionLevel dependencies)
                   "dependencies.getPlayerPermissionLevel is not a function" ;;
      let targetPermissionLevel := levelOf foundPlayer in
      let issuerPermissionLevel := levelOf p in
      let levels := permissionLevels host in
      if (targetPermissionLevel <=? admin levels)%Z
         && (owner levels <? issuerPermissionLevel)%Z then
        emit (EvSendMessage p (getString host "command.ban.permissionInsufficient" [])) ;;
        ret true
      else if (targetPermissionLevel <=? owner levels)%Z
              && (owner levels <? issuerPermissionLevel)%Z then
        emit (EvSendMessage p (getString host "command.ban.ownerByNonOwner" [])) ;;
        ret true
      else if (targetPermissionLevel =? owner levels)%Z
              && (issuerPermissionLevel =? owner levels)%Z
              && negb (String.eqb (player_id p) (player_id foundPlayer)) then
        emit (EvSendMessage p (getString host "command.ban.ownerByOwner" [])) ;;
        ret true
      else ret false
    else ret false
| None => ret false
end.

(** Lines 115-156: what follows a ban that was added. *)
Definition afterBanAdded (player : option Player) (foundPlayer : Player)
  (dependencies : CommandDependencies) (durationString : string) (durationMs : Duration)
  (reason bannedBy : string) (isAutoModAction : bool) (autoModCheckType : option string)
: M unit :=
let banInfo := getBanInfo host foundPlayer in
let actualReason := match banInfo with Some b => ban_reason b | None => reason end in
let actualBannedBy := match banInfo with Some b => ban_bannedBy b | None => bannedBy end in
let kickMessageParts :=
  [ getString host "command.ban.kickMessagePrefix" [];
    getString host "command.ban.kickMessageReason" [("reason", actualReason)];
    getString host "command.ban.kickMessageBannedBy" [("bannedBy", actualBannedBy)] ] in
let kickMessageParts :=
  match durationMs with
  | Infinity =>
      (kickMessageParts ++ [getString host "command.ban.kickMessagePermanent" []])%list
  | Finite ms =>
      let unbanTimeDisplay :=
        match banInfo with
        | Some b => ban_unbanTime b
        | None => (Date_now host + ms)%Z
        end in
      (kickMessageParts ++
       [getString host "command.ban.kickMessageExpires"
          [("expiryDate", Date_toLocaleString host unbanTimeDisplay)]])%list
  end in
let kickMessage := String.concat newline kickMessageParts in
try_catch
  (emit (EvKick foundPlayer kickMessage) ;;
   match kick_error host foundPlayer with
   | Some e => throw e
   | None => ret tt
   end)
  (fun e =>
     config <- member (dep_config dependencies)
                 "Cannot read properties of undefined (reading 'enableDebugLogging')" ;;
     if enableDebugLogging config then
       playerUtils <- member (dep_playerUtils dependencies)
                        "Cannot read properties of undefined (reading 'debugLog')" ;;
       debugLog playerUtils
         ("Attempted to kick banned player " +:+ player_nameTag foundPlayer
          +:+ " but they might have already disconnected: " +:+ Thrown_toString e)
         (Some (playerNameForLog player))
     else ret tt) ;;
let successMessage :=
  getString host "command.ban.success"
    [("targetName", player_nameTag foundPlayer); ("durationString", durationString);
     ("reason", actualReason)] in
tell player successMessage ConsoleLog (strip_colors successMessage) ;;
playerUtils <- member (dep_playerUtils dependencies)
                 "Cannot read properties of undefined (reading 'notifyAdmins')" ;;
(if has_notifyAdmins playerUtils then
   playerDataManager <- member (dep_playerDataManager dependencies)
                          "Cannot read properties of undefined (reading 'getPlayerData')" ;;
   targetPData <- getPlayerData playerDataManager (player_id foundPlayer) ;;
   emit (EvNotifyAdmins
           (getString host "command.ban.adminNotification"
              [("targetName", player_nameTag foundPlayer); ("bannedBy", actualBannedBy);
               ("durationString", durationString); ("reason", actualReason)])
           player targetPData)
 else ret tt) ;;
when (dep_addLog dependencies)
  (emit (EvAddLog (LogBan (Date_now host) actualBannedBy "ban"
                     (player_nameTag foundPlayer) durationString actualReason
                     isAutoModAction autoModCheckType))).

(** [execute(player, args, dependencies, invokedBy, isAutoModAction,
  autoModCheckType)], ban.js lines 29-165.  An argument given as [None]
  is one the caller left out, so that its default applies. *)
Definition execute (player : option Player) (args : list string)
  (dependencies : CommandDependencies) (invokedBy : option string)
  (isAutoModAction : option bool) (autoModCheckType : option string) : M unit :=
let invokedBy := match invokedBy with Some s => s | None => "PlayerCommand" end in
let isAutoModAction := match isAutoModAction with Some b => b | None => false end in
match args with
| [] =>
    config <- member (dep_config dependencies)
                "Cannot read properties of undefined (reading 'prefix')" ;;
    tell player (getString host "command.ban.usage" [("prefix", prefix config)])
      ConsoleWarn "Ban command called without player and insufficient args by system."
| targetPlayerName :: _ =>
    let durationString := durationStringOf args in
    let reason := banReason args invokedBy autoModCheckType in
    find <- member (dep_findPlayer dependencies) "findPlayer is not a function" ;;
    match find targetPlayerName with
    | None =>
        let message :=
          getString host "command.ban.notFoundOffline" [("targetName", targetPlayerName)] in
        tell player message ConsoleWarn message
    | Some foundPlayer =>
        let self :=
          match player with
          | Some p => if String.eqb (player_id foundPlayer) (player_id p) then Some p else None
          | None => None
          end in
        match self with
        | Some p => emit (EvSendMessage p (getString host "command.ban.self" []))
        | None =>
          denied <- hierarchyDenies player foundPlayer dependencies invokedBy ;;
          if denied then ret tt
          else
            parse <- member (dep_parseDuration dependencies)
                       "parseDuration is not a function" ;;
            let durationMs := parse durationString in
            match (if invalidDuration durationMs then None else durationMs) with
            | None =>
                let message := getString host "command.ban.invalidDuration" [] in
                tell player message ConsoleWarn
                  (message +:+ " (Invoked by " +:+ invokedBy +:+ ")")
            | Some durationMs =>
                let bannedBy :=
                  if String.eqb invokedBy "AutoMod" then "AutoMod"
                  else playerNameForLog player in
                _ <- member (dep_playerDataManager dependencies)
                       "Cannot read properties of undefined (reading 'addBan')" ;;
                emit (EvAddBan foundPlayer durationMs reason bannedBy isAutoModAction
                        autoModCheckType) ;;
                if addBan host foundPlayer durationMs reason bannedBy isAutoModAction
                     autoModCheckType
                then
                  afterBanAdded player foundPlayer dependencies durationString durationMs
                    reason bannedBy isAutoModAction autoModCheckType
                else
                  let failureMessage :=
                    getString host "command.ban.fail"
                      [("targetName", player_nameTag foundPlayer)] in
                  tell player failureMessage ConsoleWarn (strip_colors failureMessage)
            end
        end
    end
end.

End BanCommand.
End Ban.

(** ** reportManager.js: the report cache *)

Definition hex_digit (n : N) : ascii :=
  if (n <? 10)%N then ascii_of_N (48 + n) else ascii_of_N (87 + n).

(** One character inside a JSON string literal. *)
Definition json_escape (a : ascii) : string :=
  let n := N_of_ascii a in
  if (n =? 34)%N then "\" +:+ dquote
  else if (n =? 92)%N then "\\"
  else if (n =? 8)%N then "\b"
  else if (n =? 9)%N then "\t"
  else if (n =? 10)%N then "\n"
  else if (n =? 12)%N then "\f"
  else if (n =? 13)%N then "\r"
  else if (n <? 32)%N then
    "\u00" +:+ String (hex_digit (n / 16)) (String (hex_digit (n mod 16)) EmptyString)
  else String a EmptyString.

Fixpoint json_escape_all (s : string) : string :=
  match s with
  | EmptyString => EmptyString
  | String a rest => json_escape a +:+ json_escape_all rest
  end.

Definition json_string (s : string) : string := dquote +:+ json_escape_all s +:+ dquote.

Definition json_member (key value : string) : string := json_string key +:+ ":" +:+ value.

Fixpoint toString36_digits (fuel : nat) (n : N) (acc : string) : string :=
  match fuel with
  | O => acc
  | S k =>
      let d := (n mod 36)%N in
      let c := if (d <? 10)%N then ascii_of_N (48 + d) else ascii_of_N (87 + d) in
      if (n <? 36)%N then String c acc
      else toString36_digits k (n / 36)%N (String c acc)
  end.

(** [n.toString(36)] for an integer [n]. *)
Definition toString36 (z : Z) : string :=
  let digits := toString36_digits (S (N.to_nat (N.log2 (Z.to_N (Z.abs z))))) (Z.to_N (Z.abs z))
                  EmptyString in
  if (z <? 0)%Z then "-" +:+ digits else digits.

Module ReportManager.

Definition reportsPropertyKeyName : string := "anticheat:reports_v1".

Definition maxReportsCount : nat := 100.

Record ReportEntry : Type := mkReportEntry {
  id : string;
  timestamp : Z;
  reporterId : string;
  reporterName : string;
  reportedId : string;
  reportedName : string;
  reason : string }.

(** The module's two variables, the world's dynamic properties, and the
    console lines written so far. *)
Record State : Type := mkState {
  reportsInMemory : list ReportEntry;
  reportsAreDirty : bool;
  dynamicProperties : list (string * string);
  console : list (ConsoleLevel * string) }.

(** What one call reads from outside: the clock, and [Math.random()]
    written in base 36. *)
Record Entropy : Type := mkEntropy {
  now : Z;
  random36 : string }.

Definition consoleWrite (lvl : ConsoleLevel) (msg : string) : Eff State unit :=
  fun s => (Return tt,
            mkState (reportsInMemory s) (reportsAreDirty s) (dynamicProperties s)
              (console s ++ [(lvl, msg)])).

Definition setReports (l : list ReportEntry) : Eff State unit :=
  fun s => (Return tt, mkState l (reportsAreDirty s) (dynamicProperties s) (console s)).

Definition setDirty (b : bool) : Eff State unit :=
  fun s => (Return tt, mkState (reportsInMemory s) b (dynamicProperties s) (console s)).

Definition getState : Eff State State := fun s => (Return s, s).

(** [JSON.stringify(reportsInMemory)] *)
Definition stringifyReport (r : ReportEntry) : string :=
  "{" +:+ String.concat ","
    [ json_member "id" (json_string (id r));
      json_member "timestamp" (pretty (timestamp r));
      json_member "reporterId" (json_string (reporterId r));
      json_member "reporterName" (json_string (reporterName r));
      json_member "reportedId" (json_string (reportedId r));
      json_member "reportedName" (json_string (reportedName r));
      json_member "reason" (json_string (reason r)) ] +:+ "}".

Definition JSON_stringify (reports : list ReportEntry) : string :=
  "[" +:+ String.concat "," (map stringifyReport reports) +:+ "]".

(** [generateReportId()], lines 213-215. *)
Definition generateReportId (e : Entropy) : string :=
  toString36 (now e) +:+ String.substring 2 5 (random36 e).

Section Store.
(** The error object (name, message, stack), if any, with which the world
    refuses to write a value under a key, given the properties it holds. *)
Context (setDynamicProperty_error :
           list (string * string) -> string -> string -> option (string * string * option string)).

(** [world.setDynamicProperty(key, value)] *)
Definition setDynamicProperty (key value : string) : Eff State unit :=
  fun s =>
    match setDynamicProperty_error (dynamicProperties s) key value with
    | Some (errName, errMessage, errStack) =>
        (Throw (ErrorObject errName errMessage errStack), s)
    | None =>
        (Return tt,
         mkState (reportsInMemory s) (reportsAreDirty s)
           (set_prop key value (dynamicProperties s)) (console s))
    end.

(** [persistReportsToDisk()], lines 251-265. *)
Definition persistReportsToDisk : Eff State bool :=
  s <- getState ;;
  if negb (reportsAreDirty s)
     && match get_prop reportsPropertyKeyName (dynamicProperties s) with
        | Some _ => true
        | None => false
        end
  then ret true
  else
    try_catch
      (setDynamicProperty reportsPropertyKeyName (JSON_stringify (reportsInMemory s)) ;;
       setDirty false ;;
       consoleWrite ConsoleLog
         ("[ReportManager] Successfully persisted "
          +:+ pretty (List.length (reportsInMemory s))
          +:+ " reports to dynamic property.") ;;
       ret true)
      (fun error =>
         detail <- liftOutcome (error_stack_or_error error) ;;
         consoleWrite ConsoleError
           ("[ReportManager] Error saving reports to dynamic property: " +:+ detail) ;;
         ret false).

(** [clearAllReports()], lines 319-324. *)
Definition clearAllReports : Eff State bool :=
  setReports [] ;;
  setDirty true ;;
  consoleWrite ConsoleLog
    "[ReportManager] All reports cleared from memory. Attempting to persist change." ;;
  persistReportsToDisk.

(** [clearReportById(reportId)], lines 332-343. *)
Definition clearReportById (reportId : string) : Eff State bool :=
  s <- getState ;;
  let initialCount := List.length (reportsInMemory s) in
  let kept :=
    List.filter (fun report => negb (String.eqb (id report) reportId)) (reportsInMemory s) in
  setReports kept ;;
  if (List.length kept <? initialCount)%nat then
    setDirty true ;;
    consoleWrite ConsoleLog
      ("[ReportManager] Cleared report with ID: " +:+ reportId
       +:+ " from memory. Attempting to persist.") ;;
    persistReportsToDisk
  else
    consoleWrite ConsoleLog
      ("[ReportManager] Report with ID: " +:+ reportId +:+ " not found for clearing.") ;;
    ret false.

End Store.

(** [getReports()], lines 271-274. *)
Definition getReports : Eff State (list ReportEntry) :=
  s <- getState ;; ret (reportsInMemory s).

(** [!p?.id || !p?.nameTag] *)
Definition lacksIdentity (p : option Player) : bool :=
  match p with
  | Some q => String.eqb (player_id q) "" || String.eqb (player_nameTag q) ""
  | None => true
  end.

(** The object literal of lines 292-300, for arguments that passed the
    check of lines 286-287. *)
Definition newReport (e : Entropy) (reporterPlayer reportedPlayer : Player)
    (reason : string) : ReportEntry :=
  {| id := generateReportId e;
     timestamp := now e;
     reporterId := player_id reporterPlayer;
     reporterName := player_nameTag reporterPlayer;
     reportedId := player_id reportedPlayer;
     reportedName := player_nameTag reportedPlayer;
     reason := trim reason |}.

(** [reportsInMemory.unshift(newReport)] followed by the truncation of
    lines 304-306. *)
Definition unshiftCapped (r : ReportEntry) (reports : list ReportEntry) : list ReportEntry :=
  let reports := r :: reports in
  if (maxReportsCount <? List.length reports)%nat then take maxReportsCount reports
  else reports.

(** [addReport(reporterPlayer, reportedPlayer, reason)], lines 285-313. *)
Definition addReport (e : Entropy) (reporterPlayer reportedPlayer : option Player)
    (reason : string) : Eff State (option ReportEntry) :=
  match reporterPlayer, reportedPlayer with
  | Some reporter, Some reported =>
      if lacksIdentity reporterPlayer || lacksIdentity reportedPlayer
         || String.eqb reason ""
      then
        consoleWrite ConsoleWarn
          "[ReportManager] addReport called with invalid arguments (player objects or reason missing/invalid)." ;;
        ret None
      else
        let newReport := newReport e reporter reported reason in
        s <- getState ;;
        setReports (unshiftCapped newReport (reportsInMemory s)) ;;
        setDirty true ;;
        s' <- getState ;;
        consoleWrite ConsoleLog
          ("[ReportManager] Added report by " +:+ reporterName newReport +:+ " against "
           +:+ reportedName newReport +:+ ". Cache size: "
           +:+ pretty (List.length (reportsInMemory s')) +:+ ".") ;;
        ret (Some newReport)
  | _, _ =>
      consoleWrite ConsoleWarn
        "[ReportManager] addReport called with invalid arguments (player objects or reason missing/invalid)." ;;
      ret None
  end.

(** One [addReport] call with everything it is given. *)
Record Call : Type := mkCall {
  call_entropy : Entropy;
  call_reporter : option Player;
  call_reported : option Player;
  call_reason : string }.

Definition validCall (c : Call) : bool :=
  negb (lacksIdentity (call_reporter c) || lacksIdentity (call_reported c)
        || String.eqb (call_reason c) "").

Definition runCall (s : State) (c : Call) : State :=
  (addReport (call_entropy c) (call_reporter c) (call_reported c) (call_reason c) s).2.

(** A sequence of [addReport] calls, first call first. *)
Definition runCalls (calls : list Call) (s : State) : State := fold_left runCall calls s.

(** The entry a valid call creates. *)
Definition entryOf (c : Call) : option ReportEntry :=
  match call_reporter c, call_reported c with
  | Some reporter, Some reported =>
      Some (newReport (call_entropy c) reporter reported (call_reason c))
  | _, _ => None
  end.

End ReportManager.

(** ** Observations on traces, and sample inputs *)

(** A [debugLog] line, as opposed to a call with a consequence. *)
Definition isDiagnostic (e : Event) : bool :=
  match e with
  | EvDebugLog _ _ => true
  | _ => false
  end.

(** [playerUtils?.debugLog] is there to be called. *)
Definition offersDebugLog (playerUtils : option PlayerUtilsCaps) : bool :=
  match playerUtils with
  | Some u => has_debugLog u
  | None => false
  end.

Definition alice : Player := mkPlayer "-4294967295" "Alice" "Alice".
Definition bob : Player := mkPlayer "-8589934591" "Bob" "Bob".
Definition carol : Player := mkPlayer "-12884901887" "Carol" "Carol".

(** A localisation table that shows the key and the parameters it was given. *)
Definition sampleGetString (key : string) (params : list (string * string)) : string :=
  key +:+ "(" +:+ String.concat "," (map (fun kv => kv.1 +:+ "=" +:+ kv.2) params) +:+ ")".

(** A host in which Carol is the owner, Bob an admin and Alice an ordinary
    member, all three are online, and the global object binds the
    identifiers [globals]. *)
Definition sampleHost (globals : list string) : Host :=
  {| Date_now := 1700000000000;
     Date_toISOString := "2023-11-14T22:13:20.000Z";
     Date_toLocaleString := fun t => pretty t;
     getString := sampleGetString;
     permissionLevels := mkPermissionLevels 0 1;
     getPlayerPermissionLevel :=
       fun p => if String.eqb (player_id p) (player_id carol) then 0%Z
                else if String.eqb (player_id p) (player_id bob) then 1%Z else 1024%Z;
     findPlayer :=
       fun n => if String.eqb n "Alice" then Some alice
                else if String.eqb n "Bob" then Some bob
                else if String.eqb n "Carol" then Some carol else None;
     parseDuration :=
       fun d => if String.eqb d "perm" then Some Infinity
                else if String.eqb d "7d" then Some (Finite 604800000) else None;
     isAdmin := fun p => String.eqb (player_id p) (player_id bob);
     addBan := fun _ _ _ _ _ _ => true;
     getBanInfo := fun _ => None;
     global_scope := globals;
     kick_error := fun _ => None |}.

(** The ban module as commandRegistry.js lists it. *)
Definition banModule (host : Host) : CommandModule :=
  {| mod_definition := Some (Ban.definition host);
     mod_execute := Some (fun player args deps =>
                            Ban.execute host (Some player) args deps None None None) |}.

Definition sampleRegistry (host : Host) : Registry := loadCommands (Some [Some (banModule host)]).

Definition sampleConfig : Config :=
  {| prefix := "!"; commandAliases := None; commandSettings := None;
     enableDebugLogging := false |}.

Definition samplePlayerDataManager : PlayerDataManagerCaps := mkPdmCaps true true.
Definition samplePlayerUtils : PlayerUtilsCaps := mkPuCaps true true.
Definition emptyWorld : World := mkWorld [] [] false.

(** A dependency object that does carry what the ban command reads. *)
Definition banDependencies (host : Host) : CommandDependencies :=
  {| dep_mc := None;
     dep_playerDataManager := Some samplePlayerDataManager;
     dep_uiManager := None;
     dep_config := Some sampleConfig;
     dep_configModule := None;
     dep_playerUtils := Some samplePlayerUtils;
     dep_logManager := None;
     dep_permissionLevels := Some (permissionLevels host);
     dep_ActionFormData := None;
     dep_MessageFormData := None;
     dep_ModalFormData := None;
     dep_reportManager := None;
     dep_allCommands := None;
     dep_commandDefinitionMap := None;
     dep_ItemComponentTypes := None;
     dep_addLog := true;
     dep_findPlayer := Some (findPlayer host);
     dep_parseDuration := Some (parseDuration host);
     dep_getPlayerPermissionLevel := Some (getPlayerPermissionLevel host) |}.

(** [config.checkActionProfiles[checkType]], when there is one. *)
Definition configuredProfile (dependencies : ActionManagerDependencies) (checkType : string)
  : option ActionProfile :=
  match am_config dependencies with
  | Some {| checkActionProfiles := Some profiles |} => get_prop checkType profiles
  | _ => None
  end.

(** A profile with every consequence configured, switched off. *)
Definition disabledProfile : ActionProfile :=
  {| enabled := false;
     flag := Some (mkFlagProfile (Some "movement") (Some 3%Z) (Some "{playerName} hovered"));
     log := Some (mkLogProfile None (Some "Hover: ") None);
     notifyAdmins := Some (mkNotifyProfile (Some "{playerName} failed {checkType}")) |}.

Definition sampleActionDependencies (profile : ActionProfile) : ActionManagerDependencies :=
  {| am_config := Some (mkActionConfig (Some [("fly_hover", profile)]));
     am_playerDataManager := Some samplePlayerDataManager;
     am_playerUtils := Some samplePlayerUtils;
     am_logManager := Some (mkLmCaps true) |}.

(** A report cache that is full, and one more valid call. *)
Definition oldReport : ReportManager.ReportEntry :=
  ReportManager.mkReportEntry "lnvk1h00abcde" 1697000000000 (player_id bob) "Bob"
    (player_id alice) "Alice" "spam".

Definition fullState : ReportManager.State :=
  ReportManager.mkState (repeat oldReport 100) false [] [].

Definition sampleCall : ReportManager.Call :=
  ReportManager.mkCall (ReportManager.mkEntropy 1700000000000 "0.4fzyo82mvyr")
    (Some alice) (Some bob) "  flying in spawn ".

(** A world that refuses every write. *)
Definition refusingStore (props : list (string * string)) (key value : string)
  : option (string * string * option string) :=
  Some ("Error", "Failed to set property", Some "Error: Failed to set property").

(** A cache with one report, saved. *)
Definition savedState : ReportManager.State :=
  ReportManager.mkState [oldReport] false
    [(ReportManager.reportsPropertyKeyName, ReportManager.JSON_stringify [oldReport])] [].

(** An installation whose alias table is an ordinary object with one
    entry, and which switches the ban command off. *)
Definition aliasedConfig : Config :=
  {| prefix := "!"; commandAliases := Some [("b", "ban")];
     commandSettings := Some [("ban", mkCommandSetting (Some false))];
     enableDebugLogging := false |}.

(** A command registered under the name [constructor] and switched off by
    its own definition. *)
Definition constructorModule : CommandModule :=
  {| mod_definition :=
       Some (mkCommandDefinition "constructor" "!constructor" "Builds." 1024 false);
     mod_execute := Some (fun _ _ _ => ret tt) |}.

(** The admin Bob types a ban command. *)
Definition banAliceEvent : ChatSendBeforeEvent := mkChatEvent bob "!ban Alice 7d griefing".

Definition sampleUiManager : Opaque := Argument "uiManager".

(** A command whose executor throws [null]. *)
Definition throwingModule : CommandModule :=
  {| mod_definition := Some (mkCommandDefinition "boom" "!boom" "Throws null." 1024 true);
     mod_execute := Some (fun _ _ _ => throw (ThrownValue PNull)) |}.

Definition adminLogLine (command : string) : Event :=
  EvConsole ConsoleWarn
    ("[AdminCommandLog] 2023-11-14T22:13:20.000Z - Player: Bob - Command: " +:+ command).

(** A world that accepts every write. *)
Definition acceptingStore (props : list (string * string)) (key value : string)
  : option (string * string * option string) := None.

(** A cache with one report that was never saved. *)
Definition unsavedState : ReportManager.State :=
  ReportManager.mkState [oldReport] true [] [].

(** The same host with another answer to whether a kick fails. *)
Definition withKickError (host : Host) (answer : Player -> option Thrown) : Host :=
  {| Date_now := Date_now host;
     Date_toISOString := Date_toISOString host;
     Date_toLocaleString := Date_toLocaleString host;
     getString := getString host;
     permissionLevels := permissionLevels host;
     getPlayerPermissionLevel := getPlayerPermissionLevel host;
     findPlayer := findPlayer host;
     parseDuration := parseDuration host;
     isAdmin := isAdmin host;
     addBan := addBan host;
     getBanInfo := getBanInfo host;
     global_scope := global_scope host;
     kick_error := answer |}.

(** The same host with another answer to whether a ban can be added. *)
Definition withAddBan (host : Host)
    (answer : Player -> Duration -> string -> string -> bool -> option string -> bool) : Host :=
  {| Date_now := Date_now host;
     Date_toISOString := Date_toISOString host;
     Date_toLocaleString := Date_toLocaleString host;
     getString := getString host;
     permissionLevels := permissionLevels host;
     getPlayerPermissionLevel := getPlayerPermissionLevel host;
     findPlayer := findPlayer host;
     parseDuration := parseDuration host;
     isAdmin := isAdmin host;
     addBan := answer;
     getBanInfo := getBanInfo host;
     global_scope := global_scope host;
     kick_error := kick_error host |}.

(** A call of [addBan], as opposed to every other call. *)
Definition isAddBan (e : Event) : bool :=
  match e with
  | EvAddBan _ _ _ _ _ _ => true
  | _ => false
  end.

(** The dependency object of [banDependencies] in a world where everybody
    is at owner level. *)
Definition allOwnersDependencies (host : Host) : CommandDependencies :=
  {| dep_mc := None;
     dep_playerDataManager := Some samplePlayerDataManager;
     dep_uiManager := None;
     dep_config := Some sampleConfig;
     dep_configModule := None;
     dep_playerUtils := Some samplePlayerUtils;
     dep_logManager := None;
     dep_permissionLevels := Some (permissionLevels host);
     dep_ActionFormData := None;
     dep_MessageFormData := None;
     dep_ModalFormData := None;
     dep_reportManager := None;
     dep_allCommands := None;
     dep_commandDefinitionMap := None;
     dep_ItemComponentTypes := None;
     dep_addLog := true;
     dep_findPlayer := Some (findPlayer host);
     dep_parseDuration := Some (parseDuration host);
     dep_getPlayerPermissionLevel := Some (fun _ => owner (permissionLevels host)) |}.

(** A second ban module, registered under the name in capitals. *)
Definition shoutedBanDefinition : CommandDefinition :=
  mkCommandDefinition "BAN" "!BAN <playername>" "Bans a player, loudly." 0 true.

Definition shoutedBanModule : CommandModule :=
  {| mod_definition := Some shoutedBanDefinition;
     mod_execute := Some (fun _ _ _ => ret tt) |}.

(** A command whose executor throws an error object with a stack. *)
Definition failingError : Thrown :=
  ErrorObject "RangeError" "out of range" (Some "RangeError: out of range at execute").

(** A command that sends its issuer a line and then throws. *)
Definition failingModule : CommandModule :=
  {| mod_definition := Some (mkCommandDefinition "fail" "!fail" "Fails." 1024 true);
     mod_execute :=
       Some (fun player args _ =>
               emit (EvSendMessage player ("Working on " +:+ String.concat " " args)) ;;
               throw failingError) |}.

(** An installation whose alias table is an ordinary object with one
    entry. *)
Definition aliasEnabledConfig : Config :=
  {| prefix := "!"; commandAliases := Some [("b", "ban")]; commandSettings := None;
     enableDebugLogging := false |}.

(** A profile with every consequence configured, switched on. *)
Definition enabledProfile : ActionProfile :=
  {| enabled := true;
     flag := flag disabledProfile;
     log := log disabledProfile;
     notifyAdmins := notifyAdmins disabledProfile |}.

(** A world in which Alice has a player-data object. *)
Definition aliceWorld : World :=
  mkWorld [] [(player_id alice, mkPData true None false)] false.

(** Strings without an opening brace, and strings without a dollar sign. *)
(** Identifier-like keys: a letter or an underscore, then letters, digits
    and underscores.  For such a key the pattern that
    [new RegExp(`{${key}}`, 'g')] compiles is the literal text [{key}], which
    is how [replace_detail_keys] reads it; other keys can hold characters
    that are operators of the pattern language. *)
Definition is_identifier_start (a : ascii) : bool :=
  let n := N_of_ascii a in
  ((65 <=? n)%N && (n <=? 90)%N) || ((97 <=? n)%N && (n <=? 122)%N) || (n =? 95)%N.

Fixpoint is_identifier_rest (s : string) : bool :=
  match s with
  | EmptyString => true
  | String a rest =>
      (is_identifier_start a || match digit_value a with Some _ => true | None => false end)
      && is_identifier_rest rest
  end.

Definition identifierKey (key : string) : bool :=
  match key with
  | EmptyString => false
  | String a rest => is_identifier_start a && is_identifier_rest rest
  end.

Definition identifierKeys (violationDetails : jsval) : bool :=
  match violationDetails with
  | VPrim _ => true
  | VObj props => forallb (fun entry => identifierKey entry.1) props
  end.

Fixpoint braceFree (s : string) : bool :=
  match s with
  | EmptyString => true
  | String a rest => negb (Ascii.eqb a "{") && braceFree rest
  end.

Fixpoint dollarFree (s : string) : bool :=
  match s with
  | EmptyString => true
  | String a rest => negb (Ascii.eqb a "$") && dollarFree rest
  end.

(** * Properties *)

Local Open Scope list_scope.

(** ** formatViolationDetails *)

Lemma insert_by_index_length {A : Type} (n : N) (x : A) (l : list (N * A)) :
  List.length (insert_by_index n x l) = S (List.length l).
Proof.
  induction l as [|[m y] l IH]; simpl; [reflexivity|].
  destruct (n <? m)%N; simpl; [reflexivity|]. now rewrite IH.
Qed.

Lemma Object_entries_length {A : Type} (props : list (string * A)) :
  List.length (Object_entries props) = List.length props.
Proof.
  unfold Object_entries, named_props, is_array_index.
  rewrite length_app, length_map.
  induction props as [|[k v] props IH]; simpl; [reflexivity|].
  destruct (array_index k); simpl.
  - rewrite insert_by_index_length. simpl. now rewrite IH.
  - rewrite Nat.add_succ_r. now rewrite IH.
Qed.

Lemma indexed_props_named_only {A : Type} (props : list (string * A)) :
  named_only props = true -> indexed_props props = [] /\ named_props props = props.
Proof.
  unfold named_props, named_only, is_array_index.
  induction props as [|[k v] props IH]; simpl; [now split|].
  destruct (array_index k); simpl; [discriminate|].
  intros H. destruct (IH H) as [Hi Hn]. split; [exact Hi|]. now rewrite Hn.
Qed.

Lemma Object_entries_named_only {A : Type} (props : list (string * A)) :
  named_only props = true -> Object_entries props = props.
Proof.
  intros H. destruct (indexed_props_named_only props H) as [Hi Hn].
  unfold Object_entries. now rewrite Hi, Hn.
Qed.

(** C8 (as amended): [formatViolationDetails] answers "N/A" for every
    primitive (null, undefined, booleans, numbers, strings) and for the object
    without keys; for an object with keys it joins the "key: value" renderings
    with ", " in the order in which the object lists its own keys, that is the
    array-index keys in ascending numeric order followed by the other keys in
    insertion order; when no key is an array index this is insertion order. *)
Theorem formatViolationDetails_own_key_order (violationDetails : jsval) :
  formatViolationDetails violationDetails =
    match violationDetails with
    | VPrim _ => "N/A"
    | VObj [] => "N/A"
    | VObj props => String.concat ", " (map render_detail (Object_entries props))
    end
  /\ (named_only (own_props violationDetails) = true ->
      Object_entries (own_props violationDetails) = own_props violationDetails).
Proof.
  split; [|apply Object_entries_named_only].
  unfold formatViolationDetails.
  destruct violationDetails as [p|props].
  - destruct p as [| |[|]|z|s]; simpl; try reflexivity.
    + now rewrite orb_true_r.
    + now rewrite orb_true_r.
  - unfold Object_keys. rewrite length_map, Object_entries_length. simpl.
    destruct props; reflexivity.
Qed.

(** Witness for C8: a details object with two named keys. *)
Lemma formatViolationDetails_own_key_order_witness :
  named_only [("value", PNum 5); ("threshold", PNum 2)] = true
  /\ formatViolationDetails (VObj [("value", PNum 5); ("threshold", PNum 2)])
     = "value: 5, threshold: 2".
Proof.
  split; [reflexivity|].
  destruct (formatViolationDetails_own_key_order
              (VObj [("value", PNum 5); ("threshold", PNum 2)])) as [Hfmt Horder].
  rewrite Hfmt. simpl own_props in Horder. rewrite (Horder eq_refl). reflexivity.
Defined.

(** Counterexample to C8 as stated: a key that is an array index is listed
    before a key inserted earlier. *)
Lemma formatViolationDetails_not_insertion_order :
  formatViolationDetails (VObj [("b", PNum 1); ("1", PNum 2)]) = "1: 2, b: 1"
  /\ String.concat ", " (map render_detail [("b", PNum 1); ("1", PNum 2)]) = "b: 1, 1: 2"
  /\ formatViolationDetails (VObj [("b", PNum 1); ("1", PNum 2)])
     <> String.concat ", " (map render_detail [("b", PNum 1); ("1", PNum 2)]).
Proof.
  split; [reflexivity|split; [reflexivity|]]. vm_compute. discriminate.
Qed.

(** ** executeCheckAction *)

Lemma world_eta (w : World) : mkWorld (trace w) (pdata w) (cancel w) = w.
Proof. now destruct w. Qed.

Lemma debugLog_opt_diagnostic (pu : option PlayerUtilsCaps) (msg : string) (w : World) :
  exists diag,
    debugLog_opt pu msg w = (Return tt, mkWorld (trace w ++ diag) (pdata w) (cancel w))
    /\ forallb isDiagnostic diag = true
    /\ List.length diag = (if offersDebugLog pu then 1 else 0)%nat.
Proof.
  unfold debugLog_opt, when, offersDebugLog.
  destruct pu as [u|]; [destruct (has_debugLog u)|].
  - exists [EvDebugLog msg None]. repeat split.
  - exists []. rewrite app_nil_r, world_eta. repeat split.
  - exists []. rewrite app_nil_r, world_eta. repeat split.
Qed.

(** C6: when the profile of the check type has [enabled] false,
    [executeCheckAction] returns normally, for every player (null included)
    and every details value, having made no call but the one [debugLog] line
    (none where [debugLog] is not on offer): no flag is added, no log entry
    written, no admin notified, and the player-data objects are what they
    were. *)
Theorem executeCheckAction_disabled_profile (host : Host) (player : option Player)
    (checkType : string) (violationDetails : jsval) (dependencies : ActionManagerDependencies)
    (profile : ActionProfile) (w : World) :
  configuredProfile dependencies checkType = Some profile ->
  enabled profile = false ->
  exists diag,
    executeCheckAction host player checkType violationDetails dependencies w
    = (Return tt, mkWorld (trace w ++ diag) (pdata w) (cancel w))
    /\ forallb isDiagnostic diag = true
    /\ List.length diag
       = (if offersDebugLog (am_playerUtils dependencies) then 1 else 0)%nat.
Proof.
  unfold configuredProfile, executeCheckAction.
  destruct (am_config dependencies) as [[[profiles|]]|]; try discriminate.
  intros Hprofile Hdisabled. rewrite Hprofile, Hdisabled. simpl.
  apply debugLog_opt_diagnostic.
Qed.

(** Witness for C6: a switched-off profile that configures a flag, a log
    entry and a notification. *)
Lemma executeCheckAction_disabled_profile_witness :
  configuredProfile (sampleActionDependencies disabledProfile) "fly_hover" = Some disabledProfile
  /\ enabled disabledProfile = false
  /\ exists diag,
       executeCheckAction (sampleHost []) (Some alice) "fly_hover"
         (VObj [("itemTypeId", PStr "minecraft:elytra")])
         (sampleActionDependencies disabledProfile) emptyWorld
       = (Return tt, mkWorld (trace emptyWorld ++ diag) (pdata emptyWorld) (cancel emptyWorld))
       /\ forallb isDiagnostic diag = true /\ List.length diag = 1%nat.
Proof.
  split; [reflexivity|]. split; [reflexivity|].
  apply (executeCheckAction_disabled_profile (sampleHost []) (Some alice) "fly_hover"
           (VObj [("itemTypeId", PStr "minecraft:elytra")])
           (sampleActionDependencies disabledProfile) disabledProfile emptyWorld);
    reflexivity.
Defined.

(** ** reportManager.js *)

Module ReportManagerFacts.
Import ReportManager.

Lemma unshiftCapped_take (r : ReportEntry) (reports : list ReportEntry) :
unshiftCapped r reports = take maxReportsCount (r :: reports).
Proof.
unfold unshiftCapped.
destruct (maxReportsCount <? List.length (r :: reports))%nat eqn:E; [reflexivity|].
apply Nat.ltb_ge in E. symmetry. now apply take_ge.
Qed.

Lemma runCall_valid (s : State) (c : Call) :
validCall c = true ->
exists r, entryOf c = Some r
          /\ reportsInMemory (runCall s c) = unshiftCapped r (reportsInMemory s)
          /\ reportsAreDirty (runCall s c) = true.
Proof.
unfold validCall, runCall, entryOf, addReport.
destruct c as [e [reporter|] [reported|] why]; simpl; try discriminate.
- intros H. apply negb_true_iff in H. rewrite H. simpl. eexists. repeat split.
- rewrite orb_true_r. discriminate.
Qed.

Lemma take_app_take {A : Type} (n : nat) (l k : list A) :
take n (l ++ take n k) = take n (l ++ k).
Proof.
rewrite !take_app, take_take. f_equal. f_equal. lia.
Qed.

Lemma runCalls_closed_form (calls : list Call) :
forallb validCall calls = true ->
forall s, List.length (reportsInMemory s) <= maxReportsCount ->
exists entries,
  map entryOf calls = map Some entries
  /\ reportsInMemory (runCalls calls s)
     = take maxReportsCount (rev entries ++ reportsInMemory s).
Proof.
induction calls as [|c calls IH]; simpl; intros Hvalid s Hlen.
- exists []. split; [reflexivity|]. simpl. symmetry. now apply take_ge.
- apply andb_true_iff in Hvalid as [Hc Hcs].
  destruct (runCall_valid s c Hc) as (r & Hr & Hmem & _).
  destruct (IH Hcs (runCall s c)) as (entries & Hentries & Hrun).
  + rewrite Hmem, unshiftCapped_take, length_take. lia.
  + exists (r :: entries). split; [simpl; now rewrite Hr, Hentries|].
    unfold runCalls in *. rewrite Hrun, Hmem, unshiftCapped_take.
    rewrite take_app_take. simpl. now rewrite <- app_assoc.
Qed.

End ReportManagerFacts.

(** C5: from a cache of at most 100 reports, any sequence of valid
    [addReport] calls leaves the entries of the calls, latest call first,
    followed by the earlier content, cut after 100 entries; so the cache
    never holds more than 100 reports, and holds exactly 100 once the calls
    and the earlier content together reach that number. *)
Theorem addReport_newest_first_capped (calls : list ReportManager.Call)
    (s : ReportManager.State) :
  (List.length (ReportManager.reportsInMemory s) <= ReportManager.maxReportsCount)%nat ->
  forallb ReportManager.validCall calls = true ->
  exists entries,
    map ReportManager.entryOf calls = map Some entries
    /\ ReportManager.reportsInMemory (ReportManager.runCalls calls s)
       = take ReportManager.maxReportsCount (rev entries ++ ReportManager.reportsInMemory s)
    /\ (List.length (ReportManager.reportsInMemory (ReportManager.runCalls calls s))
        <= ReportManager.maxReportsCount)%nat
    /\ ((ReportManager.maxReportsCount
         <= List.length calls + List.length (ReportManager.reportsInMemory s))%nat ->
        List.length (ReportManager.reportsInMemory (ReportManager.runCalls calls s))
        = ReportManager.maxReportsCount).
Proof.
  intros Hlen Hvalid.
  destruct (ReportManagerFacts.runCalls_closed_form calls Hvalid s Hlen)
    as (entries & Hentries & Hrun).
  exists entries. split; [exact Hentries|]. split; [exact Hrun|].
  assert (Hn : List.length entries = List.length calls).
  { apply (f_equal (@List.length _)) in Hentries. now rewrite !length_map in Hentries. }
  rewrite Hrun, length_take, length_app, length_rev, Hn. split; lia.
Qed.

(** Witness for C5: one more report into a cache that already holds 100. *)
Lemma addReport_newest_first_capped_witness :
  (List.length (ReportManager.reportsInMemory fullState) <= ReportManager.maxReportsCount)%nat
  /\ forallb ReportManager.validCall [sampleCall] = true
  /\ exists entries,
       map ReportManager.entryOf [sampleCall] = map Some entries
       /\ ReportManager.reportsInMemory (ReportManager.runCalls [sampleCall] fullState)
          = take ReportManager.maxReportsCount
              (rev entries ++ ReportManager.reportsInMemory fullState)
       /\ (List.length (ReportManager.reportsInMemory
                          (ReportManager.runCalls [sampleCall] fullState))
           <= ReportManager.maxReportsCount)%nat
       /\ ((ReportManager.maxReportsCount
            <= List.length [sampleCall]
               + List.length (ReportManager.reportsInMemory fullState))%nat ->
           List.length (ReportManager.reportsInMemory
                          (ReportManager.runCalls [sampleCall] fullState))
           = ReportManager.maxReportsCount).
Proof.
  assert (Hlen : (List.length (ReportManager.reportsInMemory fullState)
                  <= ReportManager.maxReportsCount)%nat).
  { vm_compute. lia. }
  split; [exact Hlen|]. split; [reflexivity|].
  apply (addReport_newest_first_capped [sampleCall] fullState Hlen). reflexivity.
Defined.

(** C10: [clearAllReports] empties the cache and sets the dirty flag, and
    only then runs [persistReportsToDisk]; when the world refuses the write,
    the call returns [false], the cache stays empty, the dirty flag stays set
    and the stored properties are untouched. *)
Theorem clearAllReports_failed_write
    (setDynamicProperty_error :
       list (string * string) -> string -> string -> option (string * string * option string))
    (s : ReportManager.State) :
  ReportManager.clearAllReports setDynamicProperty_error s
  = ReportManager.persistReportsToDisk setDynamicProperty_error
      (ReportManager.mkState [] true (ReportManager.dynamicProperties s)
         (ReportManager.console s ++
          [(ConsoleLog,
            "[ReportManager] All reports cleared from memory. Attempting to persist change.")]))
  /\ (setDynamicProperty_error (ReportManager.dynamicProperties s)
        ReportManager.reportsPropertyKeyName (ReportManager.JSON_stringify []) <> None ->
      exists lines,
        ReportManager.clearAllReports setDynamicProperty_error s
        = (Return false,
           ReportManager.mkState [] true (ReportManager.dynamicProperties s)
             (ReportManager.console s ++ lines))).
Proof.
  split; [reflexivity|].
  destruct s as [reports dirty props lines0].
  cbn [ReportManager.dynamicProperties ReportManager.console].
  intros Hfail.
  destruct (setDynamicProperty_error props ReportManager.reportsPropertyKeyName
              (ReportManager.JSON_stringify []))
    as [[[errName errMessage] errStack]|] eqn:E; [|contradiction].
  cbv [ReportManager.clearAllReports ReportManager.persistReportsToDisk
       ReportManager.setDynamicProperty ReportManager.setReports ReportManager.setDirty
       ReportManager.consoleWrite ReportManager.getState bind try_catch ret liftOutcome
       ReportManager.reportsAreDirty ReportManager.reportsInMemory
       ReportManager.dynamicProperties ReportManager.console negb andb].
  rewrite E.
  destruct errStack as [stack|]; cbn [error_stack_or_error];
    [destruct (String.eqb stack "")|]; rewrite <- app_assoc; eexists; reflexivity.
Qed.

(** Witness for C10: clearing a saved cache in a world that refuses writes. *)
Lemma clearAllReports_failed_write_witness :
  refusingStore (ReportManager.dynamicProperties savedState)
    ReportManager.reportsPropertyKeyName (ReportManager.JSON_stringify []) <> None
  /\ exists lines,
       ReportManager.clearAllReports refusingStore savedState
       = (Return false,
          ReportManager.mkState [] true (ReportManager.dynamicProperties savedState)
            (ReportManager.console savedState ++ lines)).
Proof.
  assert (H : refusingStore (ReportManager.dynamicProperties savedState)
                ReportManager.reportsPropertyKeyName (ReportManager.JSON_stringify [])
              <> None) by discriminate.
  split; [exact H|].
  exact (proj2 (clearAllReports_failed_write refusingStore savedState) H).
Defined.

(** ** The ban command *)

(** A computation that only adds calls at the end of the trace. *)
Definition appends {A : Type} (c : M A) : Prop :=
  forall w, exists later, trace (c w).2 = trace w ++ later.

Lemma appends_ret {A : Type} (a : A) : appends (ret a).
Proof. intros w. exists []. simpl. now rewrite app_nil_r. Qed.

Lemma appends_throw {A : Type} (e : Thrown) : appends (@throw World A e).
Proof. intros w. exists []. simpl. now rewrite app_nil_r. Qed.

Lemma appends_emit (e : Event) : appends (emit e).
Proof. intros w. now exists [e]. Qed.

Lemma appends_bind {A B : Type} (c : M A) (k : A -> M B) :
  appends c -> (forall a, appends (k a)) -> appends (bind c k).
Proof.
  intros Hc Hk w. unfold bind. destruct (Hc w) as [l1 H1].
  destruct (c w) as [[a|e] w1]; simpl in *.
  - destruct (Hk a w1) as [l2 H2]. exists (l1 ++ l2). now rewrite H2, H1, app_assoc.
  - now exists l1.
Qed.

Lemma appends_try_catch {A : Type} (body : M A) (handler : Thrown -> M A) :
  appends body -> (forall e, appends (handler e)) -> appends (try_catch body handler).
Proof.
  intros Hb Hh w. unfold try_catch. destruct (Hb w) as [l1 H1].
  destruct (body w) as [[a|e] w1]; simpl in *.
  - now exists l1.
  - destruct (Hh e w1) as [l2 H2]. exists (l1 ++ l2). now rewrite H2, H1, app_assoc.
Qed.

Lemma appends_when (b : bool) (c : M unit) : appends c -> appends (when b c).
Proof. destruct b; simpl; [trivial|intros _; apply appends_ret]. Qed.

Lemma appends_member {A : Type} (x : option A) (what : string) : appends (Ban.member x what).
Proof. destruct x; [apply appends_ret|apply appends_throw]. Qed.

Lemma appends_getPlayerData (m : PlayerDataManagerCaps) (pid : string) :
  appends (getPlayerData m pid).
Proof.
  unfold getPlayerData. destruct (has_getPlayerData m); [|apply appends_throw].
  intros w. exists []. simpl. now rewrite app_nil_r.
Qed.

Lemma appends_debugLog (u : PlayerUtilsCaps) (msg : string) (ctx : option string) :
  appends (debugLog u msg ctx).
Proof.
  unfold debugLog. destruct (has_debugLog u); [apply appends_emit|apply appends_throw].
Qed.

Lemma appends_tell (player : option Player) (forPlayer : string) (lvl : ConsoleLevel)
    (forConsole : string) :
  appends (Ban.tell player forPlayer lvl forConsole).
Proof. destruct player; apply appends_emit. Qed.

Create HintDb appends.
#[local] Hint Resolve appends_ret appends_throw appends_emit appends_when appends_member
  appends_getPlayerData appends_debugLog appends_tell : appends.

Ltac appends_step :=
  first
    [ apply appends_bind; [|intros ?]
    | apply appends_try_catch; [|intros ?]
    | solve [auto with appends]
    | match goal with
      | |- appends (match ?x with _ => _ end) => destruct x
      end ].

Lemma appends_afterBanAdded (host : Host) (player : option Player) (foundPlayer : Player)
    (dependencies : CommandDependencies) (durationString : string) (durationMs : Duration)
    (reason bannedBy : string) (isAutoModAction : bool) (autoModCheckType : option string) :
  appends (Ban.afterBanAdded host player foundPlayer dependencies durationString durationMs
             reason bannedBy isAutoModAction autoModCheckType).
Proof. unfold Ban.afterBanAdded. repeat appends_step. Qed.

(** With no issuing player, [execute] goes from the lookup of the target to
    [addBan] without any check in between. *)
Lemma execute_null_issuer (host : Host) (targetPlayerName : string) (rest : list string)
    (dependencies : CommandDependencies) (find : string -> option Player)
    (foundPlayer : Player) (parse : string -> option Duration) (durationMs : Duration)
    (playerDataManager : PlayerDataManagerCaps) (invokedBy : option string)
    (isAutoModAction : option bool) (autoModCheckType : option string) (w : World) :
  let args := targetPlayerName :: rest in
  let invoker := match invokedBy with Some s => s | None => "PlayerCommand" end in
  dep_findPlayer dependencies = Some find ->
  find targetPlayerName = Some foundPlayer ->
  dep_parseDuration dependencies = Some parse ->
  parse (Ban.durationStringOf args) = Some durationMs ->
  Ban.invalidDuration (Some durationMs) = false ->
  dep_playerDataManager dependencies = Some playerDataManager ->
  exists later,
    trace (Ban.execute host None args dependencies invokedBy isAutoModAction
             autoModCheckType w).2
    = trace w ++
      EvAddBan foundPlayer durationMs (Ban.banReason args invoker autoModCheckType)
        (if String.eqb invoker "AutoMod" then "AutoMod" else "System")
        (match isAutoModAction with Some b => b | None => false end) autoModCheckType
      :: later.
Proof.
  intros args invoker Hfind Hfound Hparse Hduration Hvalid Hpdm.
  unfold Ban.execute. fold invoker. subst args.
  rewrite Hfind. cbn [Ban.member bind ret]. rewrite Hfound.
  cbn [Ban.hierarchyDenies bind ret]. rewrite Hparse. cbn [Ban.member bind ret].
  rewrite Hduration, Hvalid, Hpdm. cbn [Ban.member bind ret emit playerNameForLog].
  match goal with
  | |- context [if addBan ?h ?a ?b ?c ?d ?e ?f then ?yes else ?no] =>
      assert (Hrest : appends (if addBan h a b c d e f then yes else no))
        by (destruct (addBan h a b c d e f);
            [apply appends_afterBanAdded|apply appends_tell])
  end.
  match goal with
  | |- context [trace (?k ?w1).2] =>
      destruct (Hrest w1) as [later Hlater]; exists later;
      transitivity (trace w1 ++ later); [exact Hlater|]
  end.
  cbn [trace]. now rewrite <- app_assoc.
Qed.

(** C7: called by the automation with no issuing player, [invokedBy] equal
    to "AutoMod" and [isAutoModAction] true, for a target that is found and a
    duration that is valid, [execute] applies no hierarchy check (the
    hierarchy stage denies nothing and adds no call, whether or not the
    dependencies know how to read permission levels), and the next call it
    makes is [addBan] with [bannedBy] equal to "AutoMod". *)
Theorem execute_automod_bannedBy (host : Host) (targetPlayerName : string)
    (rest : list string) (dependencies : CommandDependencies)
    (find : string -> option Player) (foundPlayer : Player)
    (parse : string -> option Duration) (durationMs : Duration)
    (playerDataManager : PlayerDataManagerCaps) (autoModCheckType : option string)
    (w : World) :
  let args := targetPlayerName :: rest in
  dep_findPlayer dependencies = Some find ->
  find targetPlayerName = Some foundPlayer ->
  dep_parseDuration dependencies = Some parse ->
  parse (Ban.durationStringOf args) = Some durationMs ->
  Ban.invalidDuration (Some durationMs) = false ->
  dep_playerDataManager dependencies = Some playerDataManager ->
  Ban.hierarchyDenies host None foundPlayer dependencies "AutoMod" w = (Return false, w)
  /\ exists later,
       trace (Ban.execute host None args dependencies (Some "AutoMod") (Some true)
                autoModCheckType w).2
       = trace w ++
         EvAddBan foundPlayer durationMs (Ban.banReason args "AutoMod" autoModCheckType)
           "AutoMod" true autoModCheckType
         :: later.
Proof.
  intros args Hfind Hfound Hparse Hduration Hvalid Hpdm.
  split; [reflexivity|].
  exact (execute_null_issuer host targetPlayerName rest dependencies find foundPlayer parse
           durationMs playerDataManager (Some "AutoMod") (Some true) autoModCheckType w
           Hfind Hfound Hparse Hduration Hvalid Hpdm).
Qed.

(** Witness for C7: the automation bans Alice for the fly check. *)
Lemma execute_automod_bannedBy_witness :
  exists later,
    trace (Ban.execute (sampleHost []) None ["Alice"] (banDependencies (sampleHost []))
             (Some "AutoMod") (Some true) (Some "fly_hover") emptyWorld).2
    = trace emptyWorld ++
      EvAddBan alice Infinity "AutoMod action for fly_hover." "AutoMod" true
        (Some "fly_hover")
      :: later.
Proof.
  exact (proj2 (execute_automod_bannedBy (sampleHost []) "Alice" []
                  (banDependencies (sampleHost [])) (findPlayer (sampleHost [])) alice
                  (parseDuration (sampleHost [])) Infinity samplePlayerDataManager
                  (Some "fly_hover") emptyWorld
                  eq_refl eq_refl eq_refl eq_refl eq_refl eq_refl)).
Defined.

(** C9: called with no issuing player while [invokedBy] is left at its
    default "PlayerCommand", [execute] skips the self-ban check and the three
    hierarchy checks (the hierarchy stage denies nothing and adds no call),
    and for a target that is found and a duration that is valid the next call
    it makes is [addBan] with [bannedBy] equal to "System". *)
Theorem execute_null_player_default_invoker (host : Host) (targetPlayerName : string)
    (rest : list string) (dependencies : CommandDependencies)
    (find : string -> option Player) (foundPlayer : Player)
    (parse : string -> option Duration) (durationMs : Duration)
    (playerDataManager : PlayerDataManagerCaps) (isAutoModAction : option bool)
    (autoModCheckType : option string) (w : World) :
  let args := targetPlayerName :: rest in
  dep_findPlayer dependencies = Some find ->
  find targetPlayerName = Some foundPlayer ->
  dep_parseDuration dependencies = Some parse ->
  parse (Ban.durationStringOf args) = Some durationMs ->
  Ban.invalidDuration (Some durationMs) = false ->
  dep_playerDataManager dependencies = Some playerDataManager ->
  Ban.hierarchyDenies host None foundPlayer dependencies "PlayerCommand" w = (Return false, w)
  /\ exists later,
       trace (Ban.execute host None args dependencies None isAutoModAction
                autoModCheckType w).2
       = trace w ++
         EvAddBan foundPlayer durationMs
           (Ban.banReason args "PlayerCommand" autoModCheckType) "System"
           (match isAutoModAction with Some b => b | None => false end) autoModCheckType
         :: later.
Proof.
  intros args Hfind Hfound Hparse Hduration Hvalid Hpdm.
  split; [reflexivity|].
  exact (execute_null_issuer host targetPlayerName rest dependencies find foundPlayer parse
           durationMs playerDataManager None isAutoModAction autoModCheckType w
           Hfind Hfound Hparse Hduration Hvalid Hpdm).
Qed.

(** Witness for C9: a call without player and without invoker bans the owner
    for seven days. *)
Lemma execute_null_player_default_invoker_witness :
  exists later,
    trace (Ban.execute (sampleHost []) None ["Carol"; "7d"; "no"; "reason"]
             (banDependencies (sampleHost [])) None None None emptyWorld).2
    = trace emptyWorld ++
      EvAddBan carol (Finite 604800000) "no reason" "System" false None :: later.
Proof.
  exact (proj2 (execute_null_player_default_invoker (sampleHost []) "Carol"
                  ["7d"; "no"; "reason"] (banDependencies (sampleHost []))
                  (findPlayer (sampleHost [])) carol (parseDuration (sampleHost []))
                  (Finite 604800000) samplePlayerDataManager None None emptyWorld
                  eq_refl eq_refl eq_refl eq_refl eq_refl eq_refl)).
Defined.

(** C3: when a player issues the ban command, the issuer's permission level
    is numerically greater than owner and the level of the target that was
    found is numerically at most admin, [execute] returns normally after
    exactly one call, a denial sent to the issuer (the self-ban message when
    the target is the issuer, the insufficient-permission message
    otherwise): [addBan] is not called. *)
Theorem execute_denies_ban_of_admin (host : Host) (issuer : Player)
    (targetPlayerName : string) (rest : list string) (dependencies : CommandDependencies)
    (find : string -> option Player) (foundPlayer : Player) (levelOf : Player -> Z)
    (invokedBy : option string) (isAutoModAction : option bool)
    (autoModCheckType : option string) (w : World) :
  invokedBy = None \/ invokedBy = Some "PlayerCommand" ->
  dep_findPlayer dependencies = Some find ->
  find targetPlayerName = Some foundPlayer ->
  dep_getPlayerPermissionLevel dependencies = Some levelOf ->
  (levelOf foundPlayer <= admin (permissionLevels host))%Z ->
  (owner (permissionLevels host) < levelOf issuer)%Z ->
  Ban.execute host (Some issuer) (targetPlayerName :: rest) dependencies invokedBy
    isAutoModAction autoModCheckType w
  = (Return tt,
     mkWorld
       (trace w ++
        [EvSendMessage issuer
           (getString host
              (if String.eqb (player_id foundPlayer) (player_id issuer)
               then "command.ban.self" else "command.ban.permissionInsufficient") [])])
       (pdata w) (cancel w)).
Proof.
  intros Hinvoker Hfind Hfound Hlevel Htarget Hissuer.
  apply Z.leb_le in Htarget. apply Z.ltb_lt in Hissuer.
  unfold Ban.execute.
  replace (match invokedBy with Some s => s | None => "PlayerCommand" end)
    with "PlayerCommand" by (destruct Hinvoker; subst; reflexivity).
  rewrite Hfind. cbn [Ban.member bind ret]. rewrite Hfound.
  destruct (String.eqb (player_id foundPlayer) (player_id issuer)); [reflexivity|].
  unfold Ban.hierarchyDenies.
  change (String.eqb "PlayerCommand" "PlayerCommand") with true. cbv beta iota.
  rewrite Hlevel. unfold Ban.member, bind, ret, emit.
  rewrite Htarget, Hissuer. reflexivity.
Qed.

(** Witness for C3: the admin Bob tries to ban the owner Carol. *)
Lemma execute_denies_ban_of_admin_witness :
  Ban.execute (sampleHost []) (Some bob) ["Carol"; "7d"; "griefing"]
    (banDependencies (sampleHost [])) None None None emptyWorld
  = (Return tt,
     mkWorld [EvSendMessage bob "command.ban.permissionInsufficient()"] [] false).
Proof.
  apply (execute_denies_ban_of_admin (sampleHost []) bob "Carol" ["7d"; "griefing"]
           (banDependencies (sampleHost [])) (findPlayer (sampleHost [])) carol
           (getPlayerPermissionLevel (sampleHost [])) None None None emptyWorld).
  - left. reflexivity.
  - reflexivity.
  - reflexivity.
  - reflexivity.
  - apply Z.leb_le. reflexivity.
  - apply Z.ltb_lt. reflexivity.
Defined.

(** ** The command dispatch gateway *)

(** For a message whose command name resolves (the alias read does not hit
    a member that the alias table inherits), the reply to a name that is
    registered but effectively disabled and the reply to a name that is not
    registered are the same [sendMessage] call with the same text; in both
    cases [handleChatCommand] returns normally with [cancel] set, and apart
    from that reply it makes only [debugLog] calls, which do not depend on
    the tables: no executor is run. *)
Lemma disabled_command_replies_as_unknown (host : Host) (eventData : ChatSendBeforeEvent)
    (playerDataManager : PlayerDataManagerCaps) (uiManager : Opaque) (config : Config)
    (playerUtils : PlayerUtilsCaps) (name : string) (w : World) :
  let reply := EvSendMessage (sender eventData) (unknownCommandMessage config name) in
  has_getPlayerData playerDataManager = true ->
  commandNameInput config (message eventData) <> "" ->
  finalCommandName config (commandNameInput config (message eventData)) = Return name ->
  exists before after,
    forallb isDiagnostic before = true
    /\ forallb isDiagnostic after = true
    /\ (forall registry commandDef commandExecute,
          get_prop name (commandDefinitionMap registry) = Some commandDef ->
          get_prop name (commandExecutionMap registry) = Some commandExecute ->
          isEffectivelyEnabled config name commandDef = false ->
          handleChatCommand host registry eventData playerDataManager uiManager config
            playerUtils w
          = (Return tt, mkWorld (trace w ++ before ++ reply :: after) (pdata w) true))
    /\ (forall registry,
          get_prop name (commandDefinitionMap registry) = None
          \/ get_prop name (commandExecutionMap registry) = None ->
          handleChatCommand host registry eventData playerDataManager uiManager config
            playerUtils w
          = (Return tt, mkWorld (trace w ++ before ++ [reply]) (pdata w) true)).
Proof.
  intros reply Hpdm Hname Hfinal.
  apply String.eqb_neq in Hname.
  set (player := sender eventData).
  set (input := commandNameInput config (message eventData)) in *.
  set (attempt := attemptLine player input (commandArgs config (message eventData))
                    (get_prop (player_id player) (pdata w))).
  exists ((if has_debugLog playerUtils then [attempt] else [])
          ++ (if aliasTruthy (aliasTarget config input) && has_debugLog playerUtils
              then [aliasLine player input name] else [])).
  exists (if has_debugLog playerUtils then [disabledLine player name] else []).
  split; [|split; [|split]].
  - destruct (has_debugLog playerUtils), (aliasTruthy (aliasTarget config input));
      reflexivity.
  - destruct (has_debugLog playerUtils); reflexivity.
  - intros registry commandDef commandExecute Hdef Hexec Hoff.
    unfold handleChatCommand, getPlayerData.
    fold player. fold input. rewrite Hpdm, Hname, Hfinal.
    unfold liftOutcome. cbv beta iota zeta delta [bind].
    rewrite Hdef, Hexec, Hoff.
    unfold when, emit, ret, set_cancel, read_pdata. cbn [trace pdata cancel negb].
    fold attempt. fold reply.
    destruct (has_debugLog playerUtils), (aliasTruthy (aliasTarget config input));
      cbn [andb trace pdata cancel]; rewrite <- ?app_assoc; reflexivity.
  - intros registry Hmissing.
    unfold handleChatCommand, getPlayerData.
    fold player. fold input. rewrite Hpdm, Hname, Hfinal.
    unfold liftOutcome. cbv beta iota zeta delta [bind].
    assert (Hlookup :
              match get_prop name (commandDefinitionMap registry),
                    get_prop name (commandExecutionMap registry) with
              | Some _, Some _ => False
              | _, _ => True
              end).
    { destruct Hmissing as [H|H]; rewrite H; [exact I|].
      now destruct (get_prop name (commandDefinitionMap registry)). }
    destruct (get_prop name (commandDefinitionMap registry)) as [d|];
      [destruct (get_prop name (commandExecutionMap registry)) as [x|];
       [contradiction|]|].
    all: unfold when, emit, ret, set_cancel, read_pdata;
      cbn [trace pdata cancel negb]; fold attempt; fold reply;
      destruct (has_debugLog playerUtils),
               (aliasTruthy (aliasTarget config input));
      cbn [andb trace pdata cancel]; rewrite <- ?app_assoc; reflexivity.
Qed.

(** When the command name typed is [constructor] or [__proto__] and the
    alias table is an ordinary object without an own entry for it, the alias
    read of line 78 yields a member inherited from [Object.prototype], and
    line 79 throws: whatever the tables hold, [handleChatCommand] ends with
    a [TypeError] after at most the [debugLog] line of the attempt, with
    nothing sent to the player and [cancel] as it was. *)
Lemma handleChatCommand_inherited_alias_name (host : Host) (registry : Registry)
    (eventData : ChatSendBeforeEvent) (playerDataManager : PlayerDataManagerCaps)
    (uiManager : Opaque) (config : Config) (playerUtils : PlayerUtilsCaps)
    (aliases : list (string * string)) (w : World) :
  let input := commandNameInput config (message eventData) in
  has_getPlayerData playerDataManager = true ->
  commandAliases config = Some aliases ->
  input = "constructor" \/ input = "__proto__" ->
  get_prop input aliases = None ->
  handleChatCommand host registry eventData playerDataManager uiManager config playerUtils w
  = (Throw (TypeError "aliasTarget.toLowerCase is not a function"),
     mkWorld
       (trace w ++
        if has_debugLog playerUtils
        then [attemptLine (sender eventData) input (commandArgs config (message eventData))
                (get_prop (player_id (sender eventData)) (pdata w))]
        else [])
       (pdata w) (cancel w)).
Proof.
  intros input Hpdm Haliases Hinherited Hown.
  assert (Hfinal : finalCommandName config input
                   = Throw (TypeError "aliasTarget.toLowerCase is not a function")).
  { unfold finalCommandName, aliasTarget. rewrite Haliases, Hown.
    now destruct Hinherited as [-> | ->]. }
  assert (Hname : String.eqb input "" = false).
  { now destruct Hinherited as [-> | ->]. }
  unfold handleChatCommand, getPlayerData. fold input. rewrite Hpdm, Hname, Hfinal.
  unfold liftOutcome, bind, when, emit, ret, read_pdata. cbn [trace pdata cancel].
  destruct (has_debugLog playerUtils); cbn [trace pdata cancel].
  - reflexivity.
  - now rewrite app_nil_r, world_eta.
Qed.

(** C4, the code at a failing input.  With an alias table that is an
    ordinary object, the admin Bob's [!ban] while the ban command is switched
    off is answered as an unknown command and cancelled; but the unregistered
    names [constructor] and [__proto__] are not answered that way: the
    gateway ends with a [TypeError] before any reply, and the chat message
    is not cancelled.  A registered command that is switched off under such
    a name ends the same way. *)
Theorem unknown_reply_misses_inherited_names :
  handleChatCommand (sampleHost []) (sampleRegistry (sampleHost [])) banAliceEvent
    samplePlayerDataManager sampleUiManager aliasedConfig samplePlayerUtils emptyWorld
  = (Return tt,
     mkWorld
       [attemptLine bob "ban" ["Alice"; "7d"; "griefing"] None;
        EvSendMessage bob "§cUnknown command: !ban§r. Type !help for assistance.";
        disabledLine bob "ban"]
       [] true)
  /\ handleChatCommand (sampleHost []) (sampleRegistry (sampleHost []))
       (mkChatEvent bob "!nosuch") samplePlayerDataManager sampleUiManager aliasedConfig
       samplePlayerUtils emptyWorld
     = (Return tt,
        mkWorld
          [attemptLine bob "nosuch" [] None;
           EvSendMessage bob "§cUnknown command: !nosuch§r. Type !help for assistance."]
          [] true)
  /\ handleChatCommand (sampleHost []) (sampleRegistry (sampleHost []))
       (mkChatEvent bob "!constructor") samplePlayerDataManager sampleUiManager aliasedConfig
       samplePlayerUtils emptyWorld
     = (Throw (TypeError "aliasTarget.toLowerCase is not a function"),
        mkWorld [attemptLine bob "constructor" [] None] [] false)
  /\ handleChatCommand (sampleHost []) (sampleRegistry (sampleHost []))
       (mkChatEvent bob "!__proto__ x") samplePlayerDataManager sampleUiManager aliasedConfig
       samplePlayerUtils emptyWorld
     = (Throw (TypeError "aliasTarget.toLowerCase is not a function"),
        mkWorld [attemptLine bob "__proto__" ["x"] None] [] false)
  /\ handleChatCommand (sampleHost []) (loadCommands (Some [Some constructorModule]))
       (mkChatEvent bob "!Constructor") samplePlayerDataManager sampleUiManager aliasedConfig
       samplePlayerUtils emptyWorld
     = (Throw (TypeError "aliasTarget.toLowerCase is not a function"),
        mkWorld [attemptLine bob "constructor" [] None] [] false).
Proof. split; [|split; [|split; [|split]]]; reflexivity. Qed.

(** Whatever the tables hold, the dependency object either cannot be built,
    because [logManager] is not bound, or it lacks the keys [findPlayer],
    [parseDuration], [addLog] and [getPlayerPermissionLevel]. *)
Lemma dependencies_without_helpers (host : Host) (registry : Registry)
    (playerDataManager : PlayerDataManagerCaps) (uiManager : Opaque) (config : Config)
    (playerUtils : PlayerUtilsCaps) (w : World) :
  match dependencies host registry playerDataManager uiManager config playerUtils w with
  | (Return deps, _) =>
      dep_findPlayer deps = None /\ dep_parseDuration deps = None
      /\ dep_addLog deps = false /\ dep_getPlayerPermissionLevel deps = None
  | (Throw e, _) => e = ReferenceError "logManager"
  end.
Proof.
  unfold dependencies, resolve_global, bind.
  destruct (existsb (String.eqb "logManager") (global_scope host)); simpl; auto.
Qed.

(** Where the global object does not bind [logManager], every invocation
    that passes the permission check ends with a thrown error, the same
    whatever executor was looked up: the executor is not called. *)
Lemma dispatch_throws_without_logManager (host : Host) (registry : Registry)
    (eventData : ChatSendBeforeEvent) (playerDataManager : PlayerDataManagerCaps)
    (uiManager : Opaque) (config : Config) (playerUtils : PlayerUtilsCaps)
    (args : list string) (finalCommandName : string) (userPermissionLevel : Z)
    (senderPDataForLog : option PData) (w : World) :
  existsb (String.eqb "logManager") (global_scope host) = false ->
  exists e w',
    forall commandExecute,
      dispatch host registry eventData playerDataManager uiManager config playerUtils args
        finalCommandName commandExecute userPermissionLevel senderPDataForLog w
      = (Throw e, w').
Proof.
  intros Hunbound.
  unfold dispatch, dependencies, resolve_global, getPlayerData, debugLog. rewrite Hunbound.
  unfold bind, when, set_cancel, read_pdata, emit, ret, throw. cbn [trace pdata cancel].
  destruct (userPermissionLevel <=? admin (permissionLevels host))%Z;
    destruct (has_getPlayerData playerDataManager); cbn [trace pdata cancel];
    try (eexists; eexists; intros; reflexivity).
  all: destruct (get_prop (player_id (sender eventData)) (pdata w)) as [d|];
    [destruct (isWatched d && isAdmin host (sender eventData));
     [destruct (has_debugLog playerUtils)|]|];
    eexists; eexists; intros; reflexivity.
Qed.

(** Where [logManager] is bound, an executor that throws an error object is
    caught: the issuer is told, the error is written to the console with its
    stack, a [command_error] entry is logged, and the gateway returns. *)
Lemma commandErrorHandler_error_object (host : Host) (player : Player)
    (finalCommandName : string) (args : list string) (playerUtils : PlayerUtilsCaps)
    (errName errMessage stack : string) (w : World) :
  stack <> "" ->
  exists diag,
    forallb isDiagnostic diag = true
    /\ commandErrorHandler player finalCommandName args playerUtils
         (ErrorObject errName errMessage (Some stack)) w
       = (Return tt,
          mkWorld
            (trace w ++
             [EvSendMessage player
                ("§cAn error occurred while executing command '" +:+ finalCommandName
                 +:+ "'. Please report this.");
              EvConsole ConsoleError
                ("[CommandManager] Error executing command " +:+ finalCommandName
                 +:+ " for player " +:+ player_nameTag player +:+ ": " +:+ stack)]
             ++ diag ++
             [EvAddLog (LogText "command_error"
                ("Cmd: " +:+ finalCommandName +:+ ", Player: " +:+ player_nameTag player
                 +:+ ", Args: [" +:+ String.concat ", " args +:+ "], Error: "
                 +:+ errMessage))])
            (pdata w) (cancel w)).
Proof.
  intros Hstack. apply String.eqb_neq in Hstack.
  unfold commandErrorHandler, error_stack_or_error, error_message, liftOutcome.
  rewrite Hstack.
  unfold bind, when, emit, ret. cbn [trace pdata cancel].
  destruct (has_debugLog playerUtils).
  - match goal with
    | |- context [EvDebugLog ?line None] => exists [EvDebugLog line None]
    end.
    split; [reflexivity|]. cbn [trace pdata cancel]. now rewrite <- !app_assoc.
  - exists []. split; [reflexivity|]. cbn [trace pdata cancel]. now rewrite <- !app_assoc.
Qed.

(** C1, the code at two failing inputs.  In a host whose global object does
    not bind [logManager], the admin Bob's ban command passes the permission
    check and [handleChatCommand] then ends with a [ReferenceError], outside
    its [try] block: no executor has run, the issuer was told nothing and
    nothing was logged.  And where [logManager] is bound, an executor that
    throws [null] makes the [catch] block itself throw, after the message to
    the issuer and before the console line and the log entry. *)
Theorem handleChatCommand_propagates_errors :
  handleChatCommand (sampleHost []) (sampleRegistry (sampleHost [])) banAliceEvent
    samplePlayerDataManager sampleUiManager sampleConfig samplePlayerUtils emptyWorld
  = (Throw (ReferenceError "logManager"),
     mkWorld
       [attemptLine bob "ban" ["Alice"; "7d"; "griefing"] None;
        adminLogLine "!ban Alice 7d griefing"]
       [] true)
  /\ handleChatCommand (sampleHost ["logManager"]) (loadCommands (Some [Some throwingModule]))
       (mkChatEvent bob "!boom") samplePlayerDataManager sampleUiManager sampleConfig
       samplePlayerUtils emptyWorld
     = (Throw (TypeError "Cannot read properties of null (reading 'stack')"),
        mkWorld
          [attemptLine bob "boom" [] None;
           adminLogLine "!boom";
           EvSendMessage bob
             "§cAn error occurred while executing command 'boom'. Please report this."]
          [] true).
Proof. split; reflexivity. Qed.

(** C2, the code at a failing input.  Where [logManager] is bound, the
    dependency object built for the admin Bob's ban command has no
    [findPlayer], no [parseDuration] and no [addLog]; the ban command, which
    reads them from that object, fails on its first use of [findPlayer], the
    gateway reports a command error, and no ban is added. *)
Theorem dependencies_miss_ban_helpers :
  (exists deps,
     dependencies (sampleHost ["logManager"]) (sampleRegistry (sampleHost ["logManager"]))
       samplePlayerDataManager sampleUiManager sampleConfig samplePlayerUtils emptyWorld
     = (Return deps, emptyWorld)
     /\ dep_findPlayer deps = None /\ dep_parseDuration deps = None
     /\ dep_addLog deps = false
     /\ dep_config deps = Some sampleConfig
     /\ dep_playerDataManager deps = Some samplePlayerDataManager
     /\ dep_ActionFormData deps = Some (Imported "ActionFormData"))
  /\ handleChatCommand (sampleHost ["logManager"])
       (sampleRegistry (sampleHost ["logManager"])) banAliceEvent samplePlayerDataManager
       sampleUiManager sampleConfig samplePlayerUtils emptyWorld
     = (Return tt,
        mkWorld
          [attemptLine bob "ban" ["Alice"; "7d"; "griefing"] None;
           adminLogLine "!ban Alice 7d griefing";
           EvSendMessage bob
             "§cAn error occurred while executing command 'ban'. Please report this.";
           EvConsole ConsoleError
             "[CommandManager] Error executing command ban for player Bob: TypeError: findPlayer is not a function";
           EvDebugLog
             "Error executing command ban for Bob: TypeError: findPlayer is not a function"
             None;
           EvAddLog
             (LogText "command_error"
                "Cmd: ban, Player: Bob, Args: [Alice, 7d, griefing], Error: findPlayer is not a function")]
          [] true).
Proof.
  split; [|reflexivity].
  eexists. split; [reflexivity|]. repeat split.
Qed.

(** * Further properties *)

(** ** reportManager.js: saving, adding and removing *)

Lemma get_prop_set_prop_same {A : Type} (k : string) (v : A) (l : list (string * A)) :
  get_prop k (set_prop k v l) = Some v.
Proof.
  induction l as [|[k' v'] l IH]; simpl.
  - now rewrite String.eqb_refl.
  - destruct (String.eqb k k') eqn:E; simpl; [now rewrite String.eqb_refl|].
    now rewrite E.
Qed.

Lemma get_prop_set_prop_other {A : Type} (k k' : string) (v : A) (l : list (string * A)) :
  k' <> k -> get_prop k' (set_prop k v l) = get_prop k' l.
Proof.
  intros Hne. apply String.eqb_neq in Hne.
  induction l as [|[k0 v0] l IH]; simpl.
  - now rewrite Hne.
  - destruct (String.eqb k k0) eqn:E; simpl.
    + apply String.eqb_eq in E. subst k0. now rewrite Hne.
    + destruct (String.eqb k' k0); [reflexivity|exact IH].
Qed.

Lemma persist_nothing_to_save
    (setDynamicProperty_error :
       list (string * string) -> string -> string -> option (string * string * option string))
    (s : ReportManager.State) (stored : string) :
  ReportManager.reportsAreDirty s = false ->
  get_prop ReportManager.reportsPropertyKeyName (ReportManager.dynamicProperties s)
  = Some stored ->
  ReportManager.persistReportsToDisk setDynamicProperty_error s = (Return true, s).
Proof.
  intros Hclean Hkey.
  unfold ReportManager.persistReportsToDisk, ReportManager.getState, bind.
  now rewrite Hclean, Hkey.
Qed.

(** X1: with the dirty flag clear and the reports key present in the store,
    [persistReportsToDisk] returns [true] without touching anything: it does
    not even ask the store to write. *)
Theorem persistReportsToDisk_clean_is_noop
    (setDynamicProperty_error :
       list (string * string) -> string -> string -> option (string * string * option string))
    (s : ReportManager.State) (stored : string) :
  ReportManager.reportsAreDirty s = false ->
  get_prop ReportManager.reportsPropertyKeyName (ReportManager.dynamicProperties s)
  = Some stored ->
  ReportManager.persistReportsToDisk setDynamicProperty_error s = (Return true, s).
Proof. apply persist_nothing_to_save. Qed.

(** Witness for X1: a saved cache in a world that would refuse the write. *)
Lemma persistReportsToDisk_clean_is_noop_witness :
  ReportManager.persistReportsToDisk refusingStore savedState = (Return true, savedState).
Proof.
  apply (persistReportsToDisk_clean_is_noop refusingStore savedState
           (ReportManager.JSON_stringify [oldReport])); reflexivity.
Defined.

(** X2: when there is something to save (the dirty flag is set, or the
    reports key is missing) and the store accepts the write,
    [persistReportsToDisk] returns [true], leaves the cache as it is, clears
    the dirty flag, stores the serialised cache under the reports key and
    leaves every other key alone; a second call is then a no-op that returns
    [true] whatever the store would do. *)
Theorem persistReportsToDisk_saves_once
    (setDynamicProperty_error later_error :
       list (string * string) -> string -> string -> option (string * string * option string))
    (s : ReportManager.State) :
  ReportManager.reportsAreDirty s = true
  \/ get_prop ReportManager.reportsPropertyKeyName (ReportManager.dynamicProperties s)
     = None ->
  setDynamicProperty_error (ReportManager.dynamicProperties s)
    ReportManager.reportsPropertyKeyName
    (ReportManager.JSON_stringify (ReportManager.reportsInMemory s)) = None ->
  exists s',
    ReportManager.persistReportsToDisk setDynamicProperty_error s = (Return true, s')
    /\ ReportManager.reportsInMemory s' = ReportManager.reportsInMemory s
    /\ ReportManager.reportsAreDirty s' = false
    /\ get_prop ReportManager.reportsPropertyKeyName (ReportManager.dynamicProperties s')
       = Some (ReportManager.JSON_stringify (ReportManager.reportsInMemory s))
    /\ (forall key, key <> ReportManager.reportsPropertyKeyName ->
        get_prop key (ReportManager.dynamicProperties s')
        = get_prop key (ReportManager.dynamicProperties s))
    /\ ReportManager.persistReportsToDisk later_error s' = (Return true, s').
Proof.
  intros Hneeded Haccepts.
  destruct s as [reports dirty props lines]. cbn [ReportManager.reportsAreDirty
    ReportManager.dynamicProperties ReportManager.reportsInMemory] in *.
  assert (Hguard :
            negb dirty
            && match get_prop ReportManager.reportsPropertyKeyName props with
               | Some _ => true
               | None => false
               end = false).
  { destruct Hneeded as [H|H]; rewrite H; [reflexivity|apply andb_false_r]. }
  eexists. split.
  - cbv [ReportManager.persistReportsToDisk ReportManager.getState bind
         ReportManager.reportsAreDirty ReportManager.dynamicProperties
         ReportManager.reportsInMemory].
    rewrite Hguard.
    cbv [try_catch ReportManager.setDynamicProperty bind ReportManager.dynamicProperties
         ReportManager.reportsInMemory ReportManager.reportsAreDirty ReportManager.console
         ReportManager.setDirty ReportManager.consoleWrite ret].
    rewrite Haccepts. reflexivity.
  - cbn [ReportManager.reportsInMemory ReportManager.reportsAreDirty
         ReportManager.dynamicProperties].
    repeat split.
    + apply get_prop_set_prop_same.
    + intros key Hkey. now apply get_prop_set_prop_other.
    + eapply persist_nothing_to_save; [reflexivity|].
      cbn [ReportManager.dynamicProperties]. apply get_prop_set_prop_same.
Qed.

(** Witness for X2: the first save of a cache that was never saved. *)
Lemma persistReportsToDisk_saves_once_witness :
  exists s',
    ReportManager.persistReportsToDisk acceptingStore unsavedState = (Return true, s')
    /\ ReportManager.reportsAreDirty s' = false
    /\ get_prop ReportManager.reportsPropertyKeyName (ReportManager.dynamicProperties s')
       = Some (ReportManager.JSON_stringify [oldReport])
    /\ ReportManager.persistReportsToDisk refusingStore s' = (Return true, s').
Proof.
  destruct (persistReportsToDisk_saves_once acceptingStore refusingStore unsavedState
              (or_introl eq_refl) eq_refl)
    as (s' & Hrun & _ & Hdirty & Hstored & _ & Hagain).
  exists s'. repeat split; assumption.
Defined.

(** X3: when the store refuses the write, [persistReportsToDisk] returns
    [false] and changes nothing but the console: cache and stored
    properties are as before, and the dirty flag is left as it was, so it
    stays clear when the only reason to write was a missing reports key. *)
Theorem persistReportsToDisk_refused_changes_nothing
    (setDynamicProperty_error :
       list (string * string) -> string -> string -> option (string * string * option string))
    (s : ReportManager.State) :
  ReportManager.reportsAreDirty s = true
  \/ get_prop ReportManager.reportsPropertyKeyName (ReportManager.dynamicProperties s)
     = None ->
  setDynamicProperty_error (ReportManager.dynamicProperties s)
    ReportManager.reportsPropertyKeyName
    (ReportManager.JSON_stringify (ReportManager.reportsInMemory s)) <> None ->
  exists lines,
    ReportManager.persistReportsToDisk setDynamicProperty_error s
    = (Return false,
       ReportManager.mkState (ReportManager.reportsInMemory s)
         (ReportManager.reportsAreDirty s) (ReportManager.dynamicProperties s)
         (ReportManager.console s ++ lines)).
Proof.
  intros Hneeded Hrefused.
  destruct s as [reports dirty props lines0]. cbn [ReportManager.reportsAreDirty
    ReportManager.dynamicProperties ReportManager.reportsInMemory ReportManager.console] in *.
  assert (Hguard :
            negb dirty
            && match get_prop ReportManager.reportsPropertyKeyName props with
               | Some _ => true
               | None => false
               end = false).
  { destruct Hneeded as [H|H]; rewrite H; [reflexivity|apply andb_false_r]. }
  destruct (setDynamicProperty_error props ReportManager.reportsPropertyKeyName
              (ReportManager.JSON_stringify reports))
    as [[[errName errMessage] errStack]|] eqn:E; [|contradiction].
  cbv [ReportManager.persistReportsToDisk ReportManager.getState bind
       ReportManager.reportsAreDirty ReportManager.dynamicProperties
       ReportManager.reportsInMemory].
  rewrite Hguard.
  cbv [try_catch ReportManager.setDynamicProperty bind ReportManager.dynamicProperties
       ReportManager.reportsInMemory ReportManager.reportsAreDirty ReportManager.console
       ReportManager.setDirty ReportManager.consoleWrite ret liftOutcome].
  rewrite E.
  destruct errStack as [stack|]; cbn [error_stack_or_error];
    [destruct (String.eqb stack "")|]; eexists; reflexivity.
Qed.

(** Witness for X3: a cache marked clean whose key is missing from a store
    that refuses writes; the flag is still clear afterwards. *)
Lemma persistReportsToDisk_refused_changes_nothing_witness :
  exists lines,
    ReportManager.persistReportsToDisk refusingStore
      (ReportManager.mkState [oldReport] false [] [])
    = (Return false, ReportManager.mkState [oldReport] false [] lines).
Proof.
  destruct (persistReportsToDisk_refused_changes_nothing refusingStore
              (ReportManager.mkState [oldReport] false [] []) (or_intror eq_refl)
              ltac:(discriminate)) as [lines H].
  exists lines. exact H.
Defined.

(** X4: [addReport] with a missing player, a player without id or name tag,
    or an empty reason returns [null] and changes nothing but the console,
    to which it adds one warning. *)
Theorem addReport_invalid_arguments (e : ReportManager.Entropy)
    (reporterPlayer reportedPlayer : option Player) (reason : string)
    (s : ReportManager.State) :
  ReportManager.validCall (ReportManager.mkCall e reporterPlayer reportedPlayer reason)
  = false ->
  ReportManager.addReport e reporterPlayer reportedPlayer reason s
  = (Return None,
     ReportManager.mkState (ReportManager.reportsInMemory s)
       (ReportManager.reportsAreDirty s) (ReportManager.dynamicProperties s)
       (ReportManager.console s ++
        [(ConsoleWarn,
          "[ReportManager] addReport called with invalid arguments (player objects or reason missing/invalid).")])).
Proof.
  unfold ReportManager.validCall, ReportManager.addReport. cbn [ReportManager.call_reporter
    ReportManager.call_reported ReportManager.call_reason].
  intros Hinvalid. apply negb_false_iff in Hinvalid.
  destruct reporterPlayer as [reporter|], reportedPlayer as [reported|];
    try reflexivity.
  now rewrite Hinvalid.
Qed.

(** Witness for X4: a report whose reason is empty. *)
Lemma addReport_invalid_arguments_witness :
  ReportManager.addReport (ReportManager.mkEntropy 1700000000000 "0.4fzyo82mvyr")
    (Some alice) (Some bob) "" fullState
  = (Return None,
     ReportManager.mkState (ReportManager.reportsInMemory fullState) false [] 
       [(ConsoleWarn,
         "[ReportManager] addReport called with invalid arguments (player objects or reason missing/invalid).")]).
Proof.
  apply (addReport_invalid_arguments (ReportManager.mkEntropy 1700000000000 "0.4fzyo82mvyr")
           (Some alice) (Some bob) "" fullState).
  reflexivity.
Defined.

(** X5: a valid [addReport] returns the new entry, which carries the ids and
    name tags of the two players, the clock's time and the trimmed reason;
    the entry is then the first of the cache, the dirty flag is set, and the
    store is not written: the report is saved only by a later
    [persistReportsToDisk]. *)
Theorem addReport_valid_call (e : ReportManager.Entropy) (reporter reported : Player)
    (reason : string) (s : ReportManager.State) :
  ReportManager.validCall (ReportManager.mkCall e (Some reporter) (Some reported) reason)
  = true ->
  exists r s',
    ReportManager.addReport e (Some reporter) (Some reported) reason s = (Return (Some r), s')
    /\ ReportManager.reportsInMemory s'
       = take ReportManager.maxReportsCount (r :: ReportManager.reportsInMemory s)
    /\ hd_error (ReportManager.reportsInMemory s') = Some r
    /\ ReportManager.reportsAreDirty s' = true
    /\ ReportManager.dynamicProperties s' = ReportManager.dynamicProperties s
    /\ ReportManager.timestamp r = ReportManager.now e
    /\ ReportManager.reporterId r = player_id reporter
    /\ ReportManager.reportedId r = player_id reported
    /\ ReportManager.reporterName r = player_nameTag reporter
    /\ ReportManager.reportedName r = player_nameTag reported
    /\ ReportManager.reason r = trim reason.
Proof.
  unfold ReportManager.validCall, ReportManager.addReport. cbn [ReportManager.call_reporter
    ReportManager.call_reported ReportManager.call_reason].
  intros Hvalid. apply negb_true_iff in Hvalid. rewrite Hvalid.
  destruct s as [reports dirty props lines].
  eexists. eexists. split; [reflexivity|].
  cbn [ReportManager.reportsInMemory ReportManager.reportsAreDirty
       ReportManager.dynamicProperties].
  rewrite ReportManagerFacts.unshiftCapped_take.
  repeat split.
Qed.

(** Witness for X5: one more report into the full cache. *)
Lemma addReport_valid_call_witness :
  exists r s',
    ReportManager.addReport (ReportManager.mkEntropy 1700000000000 "0.4fzyo82mvyr")
      (Some alice) (Some bob) "  flying in spawn " fullState = (Return (Some r), s')
    /\ ReportManager.reason r = "flying in spawn"
    /\ ReportManager.dynamicProperties s' = [].
Proof.
  destruct (addReport_valid_call (ReportManager.mkEntropy 1700000000000 "0.4fzyo82mvyr")
              alice bob "  flying in spawn " fullState eq_refl)
    as (r & s' & Hrun & _ & _ & _ & Hprops & _ & _ & _ & _ & _ & Hreason).
  exists r, s'. repeat split; assumption.
Defined.

Lemma filter_keeps_all {A : Type} (f : A -> bool) (l : list A) :
  forallb f l = true -> List.filter f l = l.
Proof.
  induction l as [|a l IH]; simpl; [reflexivity|].
  intros H. apply andb_true_iff in H as [Ha Hl]. rewrite Ha. now rewrite IH.
Qed.

Lemma filter_drops_one {A : Type} (f : A -> bool) (l : list A) :
  existsb f l = true ->
  (List.length (List.filter (fun a => negb (f a)) l) < List.length l)%nat.
Proof.
  induction l as [|a l IH]; simpl; [discriminate|].
  pose proof (filter_length_le (fun a => negb (f a)) l) as Hle.
  destruct (f a); simpl; [lia|]. intros H. specialize (IH H). lia.
Qed.

Lemma filter_none_left {A : Type} (f : A -> bool) (l : list A) :
  forallb (fun a => negb (f a)) (List.filter (fun a => negb (f a)) l) = true.
Proof.
  induction l as [|a l IH]; simpl; [reflexivity|].
  destruct (f a) eqn:E; simpl; [exact IH|]. now rewrite E.
Qed.

(** X6: [clearReportById] with an id that no cached report carries returns
    [false] and changes nothing but the console: the cache, the dirty flag
    and the store are as before, and no write is attempted. *)
Theorem clearReportById_unknown_id
    (setDynamicProperty_error :
       list (string * string) -> string -> string -> option (string * string * option string))
    (reportId : string) (s : ReportManager.State) :
  forallb (fun report => negb (String.eqb (ReportManager.id report) reportId))
    (ReportManager.reportsInMemory s) = true ->
  ReportManager.clearReportById setDynamicProperty_error reportId s
  = (Return false,
     ReportManager.mkState (ReportManager.reportsInMemory s)
       (ReportManager.reportsAreDirty s) (ReportManager.dynamicProperties s)
       (ReportManager.console s ++
        [(ConsoleLog,
          "[ReportManager] Report with ID: " +:+ reportId +:+ " not found for clearing.")])).
Proof.
  intros Habsent. destruct s as [reports dirty props lines].
  cbn [ReportManager.reportsInMemory] in Habsent.
  cbv [ReportManager.clearReportById ReportManager.getState bind
       ReportManager.reportsInMemory ReportManager.setReports].
  rewrite (filter_keeps_all _ _ Habsent), Nat.ltb_irrefl. reflexivity.
Qed.

(** Witness for X6: an id that is not in the full cache. *)
Lemma clearReportById_unknown_id_witness :
  (ReportManager.clearReportById refusingStore "zzz" fullState).1 = Return false
  /\ ReportManager.reportsInMemory
       (ReportManager.clearReportById refusingStore "zzz" fullState).2
     = ReportManager.reportsInMemory fullState.
Proof.
  rewrite (clearReportById_unknown_id refusingStore "zzz" fullState eq_refl).
  split; reflexivity.
Defined.

(** X7: [clearReportById] with an id that some cached report carries removes
    every report with that id and keeps the others in their order.  When the
    store accepts the write it returns [true] with the dirty flag clear and
    the remaining reports stored; when the store refuses it returns [false],
    the reports stay removed from the cache and the dirty flag stays set. *)
Theorem clearReportById_removes
    (setDynamicProperty_error :
       list (string * string) -> string -> string -> option (string * string * option string))
    (reportId : string) (s : ReportManager.State) :
  existsb (fun report => String.eqb (ReportManager.id report) reportId)
    (ReportManager.reportsInMemory s) = true ->
  let kept :=
    List.filter (fun report => negb (String.eqb (ReportManager.id report) reportId))
      (ReportManager.reportsInMemory s) in
  exists ok s',
    ReportManager.clearReportById setDynamicProperty_error reportId s = (Return ok, s')
    /\ ReportManager.reportsInMemory s' = kept
    /\ forallb (fun report => negb (String.eqb (ReportManager.id report) reportId))
         (ReportManager.reportsInMemory s') = true
    /\ (setDynamicProperty_error (ReportManager.dynamicProperties s)
          ReportManager.reportsPropertyKeyName (ReportManager.JSON_stringify kept) = None ->
        ok = true /\ ReportManager.reportsAreDirty s' = false
        /\ get_prop ReportManager.reportsPropertyKeyName (ReportManager.dynamicProperties s')
           = Some (ReportManager.JSON_stringify kept))
    /\ (setDynamicProperty_error (ReportManager.dynamicProperties s)
          ReportManager.reportsPropertyKeyName (ReportManager.JSON_stringify kept) <> None ->
        ok = false /\ ReportManager.reportsAreDirty s' = true
        /\ ReportManager.dynamicProperties s' = ReportManager.dynamicProperties s).
Proof.
  intros Hpresent kept. destruct s as [reports dirty props lines].
  cbn [ReportManager.reportsInMemory ReportManager.dynamicProperties] in *.
  pose proof (filter_drops_one _ _ Hpresent) as Hshorter.
  apply Nat.ltb_lt in Hshorter. fold kept in Hshorter.
  cbv [ReportManager.clearReportById ReportManager.getState bind
       ReportManager.reportsInMemory ReportManager.setReports].
  fold kept. rewrite Hshorter.
  cbv [ReportManager.setDirty ReportManager.consoleWrite ReportManager.persistReportsToDisk
       ReportManager.getState bind ReportManager.reportsAreDirty
       ReportManager.dynamicProperties ReportManager.reportsInMemory ReportManager.console
       negb andb try_catch ReportManager.setDynamicProperty ret liftOutcome].
  destruct (setDynamicProperty_error props ReportManager.reportsPropertyKeyName
              (ReportManager.JSON_stringify kept))
    as [[[errName errMessage] errStack]|] eqn:E.
  - assert (Hdetail : exists detail,
              error_stack_or_error (ErrorObject errName errMessage errStack) = Return detail).
    { destruct errStack as [stack|]; cbn [error_stack_or_error];
        [destruct (String.eqb stack "")|]; eexists; reflexivity. }
    destruct Hdetail as [detail Hdetail]. rewrite Hdetail.
    eexists. eexists. split; [reflexivity|].
    split; [reflexivity|]. split; [apply filter_none_left|].
    split; [discriminate|]. intros _. repeat split.
  - eexists. eexists. split; [reflexivity|].
    split; [reflexivity|]. split; [apply filter_none_left|].
    split; [|intros H; now contradiction H].
    intros _. split; [reflexivity|]. split; [reflexivity|].
    apply get_prop_set_prop_same.
Qed.

(** Witness for X7: removing the report of a saved cache, in a world that
    accepts the write. *)
Lemma clearReportById_removes_witness :
  exists s',
    ReportManager.clearReportById acceptingStore (ReportManager.id oldReport) savedState
    = (Return true, s')
    /\ ReportManager.reportsInMemory s' = []
    /\ get_prop ReportManager.reportsPropertyKeyName (ReportManager.dynamicProperties s')
       = Some "[]".
Proof.
  destruct (clearReportById_removes acceptingStore (ReportManager.id oldReport) savedState
              eq_refl) as (ok & s' & Hrun & Hkept & _ & Haccepted & _).
  destruct (Haccepted eq_refl) as (Hok & _ & Hstored). subst ok.
  exists s'. repeat split; assumption.
Defined.

(** ** ban.js: the paths of [execute] *)

(** A computation all of whose calls, added at the end of the trace, satisfy
    [P]. *)
Definition emitsOnly {A : Type} (P : Event -> Prop) (c : M A) : Prop :=
  forall w, exists later, trace (c w).2 = trace w ++ later /\ Forall P later.

Section EmitsOnly.
Context (P : Event -> Prop).

Lemma emitsOnly_ret {A : Type} (a : A) : emitsOnly P (ret a).
Proof. intros w. exists []. simpl. now rewrite app_nil_r. Qed.

Lemma emitsOnly_throw {A : Type} (e : Thrown) : emitsOnly P (@throw World A e).
Proof. intros w. exists []. simpl. now rewrite app_nil_r. Qed.

Lemma emitsOnly_emit (e : Event) : P e -> emitsOnly P (emit e).
Proof. intros He w. exists [e]. split; [reflexivity|]. now constructor. Qed.

Lemma emitsOnly_bind {A B : Type} (c : M A) (k : A -> M B) :
  emitsOnly P c -> (forall a, emitsOnly P (k a)) -> emitsOnly P (bind c k).
Proof.
  intros Hc Hk w. unfold bind. destruct (Hc w) as (l1 & H1 & F1).
  destruct (c w) as [[a|e] w1]; simpl in *.
  - destruct (Hk a w1) as (l2 & H2 & F2). exists (l1 ++ l2).
    split; [now rewrite H2, H1, app_assoc|]. now apply Forall_app.
  - now exists l1.
Qed.

Lemma emitsOnly_try_catch {A : Type} (body : M A) (handler : Thrown -> M A) :
  emitsOnly P body -> (forall e, emitsOnly P (handler e)) ->
  emitsOnly P (try_catch body handler).
Proof.
  intros Hb Hh w. unfold try_catch. destruct (Hb w) as (l1 & H1 & F1).
  destruct (body w) as [[a|e] w1]; simpl in *.
  - now exists l1.
  - destruct (Hh e w1) as (l2 & H2 & F2). exists (l1 ++ l2).
    split; [now rewrite H2, H1, app_assoc|]. now apply Forall_app.
Qed.

Lemma emitsOnly_when (b : bool) (c : M unit) : emitsOnly P c -> emitsOnly P (when b c).
Proof. destruct b; simpl; [trivial|intros _; apply emitsOnly_ret]. Qed.

Lemma emitsOnly_member {A : Type} (x : option A) (what : string) :
  emitsOnly P (Ban.member x what).
Proof. destruct x; [apply emitsOnly_ret|apply emitsOnly_throw]. Qed.

Lemma emitsOnly_liftOutcome {A : Type} (o : Outcome A) : emitsOnly P (liftOutcome o).
Proof. intros w. exists []. simpl. now rewrite app_nil_r. Qed.

Lemma emitsOnly_getPlayerData (m : PlayerDataManagerCaps) (pid : string) :
  emitsOnly P (getPlayerData m pid).
Proof.
  unfold getPlayerData. destruct (has_getPlayerData m); [|apply emitsOnly_throw].
  intros w. exists []. simpl. now rewrite app_nil_r.
Qed.

Lemma emitsOnly_read_pdata (pid : string) : emitsOnly P (read_pdata pid).
Proof. intros w. exists []. simpl. now rewrite app_nil_r. Qed.

Lemma emitsOnly_write_pdata (pid : string) (d : PData) : emitsOnly P (write_pdata pid d).
Proof. intros w. exists []. simpl. now rewrite app_nil_r. Qed.

Lemma emitsOnly_set_cancel (b : bool) : emitsOnly P (set_cancel b).
Proof. intros w. exists []. simpl. now rewrite app_nil_r. Qed.

End EmitsOnly.

Lemma emitsOnly_weaken {A : Type} (P Q : Event -> Prop) (c : M A) :
  (forall e, P e -> Q e) -> emitsOnly P c -> emitsOnly Q c.
Proof.
  intros HPQ Hc w. destruct (Hc w) as (later & H & F). exists later.
  split; [exact H|]. eapply Forall_impl; eauto.
Qed.

Ltac emitsOnly_step :=
  first
    [ apply emitsOnly_ret | apply emitsOnly_throw | apply emitsOnly_member
    | apply emitsOnly_liftOutcome | apply emitsOnly_getPlayerData
    | apply emitsOnly_read_pdata | apply emitsOnly_write_pdata | apply emitsOnly_set_cancel
    | apply emitsOnly_emit; solve [simpl; auto]
    | apply emitsOnly_when
    | apply emitsOnly_bind; [|intros ?]
    | apply emitsOnly_try_catch; [|intros ?]
    | match goal with
      | |- emitsOnly _ (match ?x with _ => _ end) => destruct x
      end ].

Ltac emitsOnly_auto :=
  unfold debugLog, debugLog_opt, Ban.tell; repeat emitsOnly_step.

Lemma afterBanAdded_adds_no_ban (host : Host) (player : option Player) (foundPlayer : Player)
    (dependencies : CommandDependencies) (durationString : string) (durationMs : Duration)
    (reason bannedBy : string) (isAutoModAction : bool) (autoModCheckType : option string) :
  emitsOnly (fun e => isAddBan e = false)
    (Ban.afterBanAdded host player foundPlayer dependencies durationString durationMs
       reason bannedBy isAutoModAction autoModCheckType).
Proof. unfold Ban.afterBanAdded. emitsOnly_auto. Qed.

Lemma emitsOnly_bind_ret {A B : Type} (P : Event -> Prop) (a : A) (k : A -> M B) :
  emitsOnly P (k a) -> emitsOnly P (bind (ret a) k).
Proof. intros H w. apply H. Qed.

Lemma emitsOnly_bind_result {A B : Type} (P : Event -> Prop) (R : A -> Prop) (c : M A)
    (k : A -> M B) :
  (forall w, exists later,
      trace (c w).2 = trace w ++ later /\ Forall P later
      /\ forall a, (c w).1 = Return a -> R a) ->
  (forall a, R a -> emitsOnly P (k a)) ->
  emitsOnly P (bind c k).
Proof.
  intros Hc Hk w. unfold bind. destruct (Hc w) as (l1 & H1 & F1 & HR).
  destruct (c w) as [[a|e] w1]; simpl in *.
  - destruct (Hk a (HR a eq_refl) w1) as (l2 & H2 & F2). exists (l1 ++ l2).
    split; [now rewrite H2, H1, app_assoc|]. now apply Forall_app.
  - now exists l1.
Qed.

(** What the hierarchy stage has established when it lets a call pass. *)
Definition hierarchyRespected (host : Host) (player : option Player) (foundPlayer : Player)
    (dependencies : CommandDependencies) (invoker : string) : Prop :=
  forall issuer levelOf,
    player = Some issuer ->
    invoker = "PlayerCommand" ->
    dep_getPlayerPermissionLevel dependencies = Some levelOf ->
    ((owner (permissionLevels host) < levelOf issuer)%Z ->
     (admin (permissionLevels host) < levelOf foundPlayer)%Z
     /\ (owner (permissionLevels host) < levelOf foundPlayer)%Z)
    /\ (levelOf issuer = owner (permissionLevels host) ->
        levelOf foundPlayer = owner (permissionLevels host) ->
        player_id issuer = player_id foundPlayer).

Lemma hierarchyDenies_result (host : Host) (player : option Player) (foundPlayer : Player)
    (dependencies : CommandDependencies) (invoker : string) (w : World) :
  exists later,
    trace (Ban.hierarchyDenies host player foundPlayer dependencies invoker w).2
    = trace w ++ later
    /\ Forall (fun e => isAddBan e = false) later
    /\ forall denied,
        (Ban.hierarchyDenies host player foundPlayer dependencies invoker w).1
        = Return denied ->
        denied = false ->
        hierarchyRespected host player foundPlayer dependencies invoker.
Proof.
  unfold Ban.hierarchyDenies, hierarchyRespected.
  destruct player as [p|].
  2:{ exists []. simpl. rewrite app_nil_r. split; [reflexivity|split; [constructor|]].
      intros _ _ _ issuer levelOf Hissuer. discriminate. }
  destruct (String.eqb invoker "PlayerCommand") eqn:Hinv.
  2:{ exists []. simpl. rewrite app_nil_r. split; [reflexivity|split; [constructor|]].
      intros _ _ _ issuer levelOf _ Hpc _. apply String.eqb_neq in Hinv. contradiction. }
  destruct (dep_getPlayerPermissionLevel dependencies) as [levelOf|].
  2:{ exists []. simpl. rewrite app_nil_r. split; [reflexivity|split; [constructor|]].
      intros _ _ _ issuer levelOf _ _ Hlevel. discriminate. }
  unfold Ban.member, bind, ret, emit. cbn [trace pdata cancel].
  destruct ((levelOf foundPlayer <=? admin (permissionLevels host))%Z
            && (owner (permissionLevels host) <? levelOf p)%Z) eqn:C1.
  { eexists. cbn [fst snd trace]. split; [reflexivity|split; [repeat constructor|]].
    intros denied Hd Hf. congruence. }
  destruct ((levelOf foundPlayer <=? owner (permissionLevels host))%Z
            && (owner (permissionLevels host) <? levelOf p)%Z) eqn:C2.
  { eexists. cbn [fst snd trace]. split; [reflexivity|split; [repeat constructor|]].
    intros denied Hd Hf. congruence. }
  destruct ((levelOf foundPlayer =? owner (permissionLevels host))%Z
            && (levelOf p =? owner (permissionLevels host))%Z
            && negb (String.eqb (player_id p) (player_id foundPlayer))) eqn:C3.
  { eexists. cbn [fst snd trace]. split; [reflexivity|split; [repeat constructor|]].
    intros denied Hd Hf. congruence. }
  exists []. cbn [fst snd]. rewrite app_nil_r. split; [reflexivity|split; [constructor|]].
  intros denied _ _ issuer levelOf' Hissuer _ Hlevel.
  injection Hissuer as <-. injection Hlevel as <-.
  apply andb_false_iff in C1, C2. apply andb_false_iff in C3.
  split.
  - intros Hlow. apply Z.ltb_lt in Hlow.
    destruct C1 as [C1|C1]; [|congruence]. destruct C2 as [C2|C2]; [|congruence].
    apply Z.leb_gt in C1, C2. lia.
  - intros Hi Ht. destruct C3 as [C3|C3].
    + apply andb_false_iff in C3. destruct C3 as [C3|C3]; apply Z.eqb_neq in C3; contradiction.
    + apply negb_false_iff, String.eqb_eq in C3. exact C3.
Qed.

(** What holds of a call of [addBan] made by [execute] for the given
    arguments. *)
Definition banJustified (host : Host) (player : option Player) (args : list string)
    (dependencies : CommandDependencies) (invokedBy : option string)
    (isAutoModAction : option bool) (autoModCheckType : option string) (e : Event) : Prop :=
  let invoker := match invokedBy with Some s => s | None => "PlayerCommand" end in
  match e with
  | EvAddBan target durationMs reason bannedBy auto checkType =>
      (exists find, dep_findPlayer dependencies = Some find
                    /\ (nth_error args 0) ≫= find = Some target)
      /\ Ban.invalidDuration (Some durationMs) = false
      /\ (exists parse, dep_parseDuration dependencies = Some parse
                        /\ parse (Ban.durationStringOf args) = Some durationMs)
      /\ (forall issuer, player = Some issuer -> player_id target <> player_id issuer)
      /\ hierarchyRespected host player target dependencies invoker
      /\ reason = Ban.banReason args invoker autoModCheckType
      /\ bannedBy = (if String.eqb invoker "AutoMod" then "AutoMod"
                     else match player with Some p => player_nameTag p | None => "System" end)
      /\ auto = match isAutoModAction with Some b => b | None => false end
      /\ checkType = autoModCheckType
  | _ => True
  end.

(** X8: whatever its arguments, every [addBan] call that [execute] makes is
    for the player found under the first argument, with the duration parsed
    from the second one (or from "perm"), which is [Infinity] or positive;
    the target is not the issuing player; when a player issued the command,
    an issuer below owner has a target below both admin and owner, and an
    issuer at owner level has no other owner as target; the reason, the
    responsible identity ("AutoMod", the issuer's name tag, or "System") and
    the automation fields are those of the call. *)
Theorem execute_bans_only_when_justified (host : Host) (player : option Player)
    (args : list string) (dependencies : CommandDependencies) (invokedBy : option string)
    (isAutoModAction : option bool) (autoModCheckType : option string) (w : World) :
  exists later,
    trace (Ban.execute host player args dependencies invokedBy isAutoModAction
             autoModCheckType w).2
    = trace w ++ later
    /\ Forall (banJustified host player args dependencies invokedBy isAutoModAction
                 autoModCheckType) later.
Proof.
  revert w.
  change (emitsOnly (banJustified host player args dependencies invokedBy isAutoModAction
                       autoModCheckType)
            (Ban.execute host player args dependencies invokedBy isAutoModAction
               autoModCheckType)).
  set (P := banJustified host player args dependencies invokedBy isAutoModAction
              autoModCheckType).
  assert (Hother : forall e, isAddBan e = false -> P e).
  { intros [] He; try exact I. discriminate. }
  unfold Ban.execute.
  set (invoker := match invokedBy with Some s => s | None => "PlayerCommand" end).
  destruct args as [|targetPlayerName rest].
  { apply (emitsOnly_weaken (fun e => isAddBan e = false)); [exact Hother|]. emitsOnly_auto. }
  destruct (dep_findPlayer dependencies) as [find|] eqn:Hfind;
    [|apply (emitsOnly_weaken (fun e => isAddBan e = false)); [exact Hother|]; emitsOnly_auto].
  apply emitsOnly_bind_ret.
  destruct (find targetPlayerName) as [foundPlayer|] eqn:Hfound;
    [|apply (emitsOnly_weaken (fun e => isAddBan e = false)); [exact Hother|]; emitsOnly_auto].
  assert (Hself :
            match match player with
                  | Some p =>
                      if String.eqb (player_id foundPlayer) (player_id p) then Some p else None
                  | None => None
                  end with
            | Some _ => True
            | None => forall issuer, player = Some issuer ->
                                     player_id foundPlayer <> player_id issuer
            end).
  { destruct player as [p|]; [|discriminate].
    destruct (String.eqb (player_id foundPlayer) (player_id p)) eqn:E; [exact I|].
    intros issuer [= <-]. now apply String.eqb_neq. }
  destruct (match player with
            | Some p =>
                if String.eqb (player_id foundPlayer) (player_id p) then Some p else None
            | None => None
            end) as [self|].
  { apply (emitsOnly_weaken (fun e => isAddBan e = false)); [exact Hother|]. emitsOnly_auto. }
  apply (emitsOnly_bind_result P
           (fun denied => denied = false ->
                          hierarchyRespected host player foundPlayer dependencies invoker)).
  { intros w. destruct (hierarchyDenies_result host player foundPlayer dependencies invoker w)
      as (later & Ht & Hf & Hr).
    exists later. split; [exact Ht|]. split; [eapply Forall_impl; eauto|exact Hr]. }
  intros [|] Hrespected; [apply emitsOnly_ret|]. specialize (Hrespected eq_refl).
  destruct (dep_parseDuration dependencies) as [parse|] eqn:Hparse;
    [|apply (emitsOnly_weaken (fun e => isAddBan e = false)); [exact Hother|]; emitsOnly_auto].
  apply emitsOnly_bind_ret.
  destruct (Ban.invalidDuration (parse (Ban.durationStringOf (targetPlayerName :: rest))))
    eqn:Hvalid;
    [apply (emitsOnly_weaken (fun e => isAddBan e = false)); [exact Hother|]; emitsOnly_auto|].
  destruct (parse (Ban.durationStringOf (targetPlayerName :: rest))) as [durationMs|] eqn:Hd;
    [|discriminate].
  apply emitsOnly_bind; [apply emitsOnly_member|intros _].
  apply emitsOnly_bind.
  - apply emitsOnly_emit. unfold P, banJustified. fold invoker.
    refine (conj _ (conj Hvalid (conj _ (conj Hself (conj Hrespected
              (conj eq_refl (conj _ (conj eq_refl eq_refl)))))))).
    + exists find. split; [exact Hfind|exact Hfound].
    + exists parse. split; [exact Hparse|exact Hd].
    + destruct player; reflexivity.
  - intros _. apply (emitsOnly_weaken (fun e => isAddBan e = false)); [exact Hother|].
    match goal with
    | |- emitsOnly _ (if ?b then _ else _) => destruct b
    end; [apply afterBanAdded_adds_no_ban|emitsOnly_auto].
Qed.

(** X9: without a target, [execute] says so once and does nothing else.
    With no argument at all it sends the usage text to the issuing player,
    or writes a warning to the console when there is none; with a name under
    which no connected player is found it sends (or writes) the not-found
    text.  Nothing is parsed, banned, kicked or logged. *)
Theorem execute_without_target (host : Host) (player : option Player)
    (dependencies : CommandDependencies) (invokedBy : option string)
    (isAutoModAction : option bool) (autoModCheckType : option string) (w : World) :
  (forall config,
      dep_config dependencies = Some config ->
      Ban.execute host player [] dependencies invokedBy isAutoModAction autoModCheckType w
      = (Return tt,
         mkWorld
           (trace w ++
            [match player with
             | Some p =>
                 EvSendMessage p (getString host "command.ban.usage"
                                    [("prefix", prefix config)])
             | None =>
                 EvConsole ConsoleWarn
                   "Ban command called without player and insufficient args by system."
             end])
           (pdata w) (cancel w)))
  /\ (forall find targetPlayerName rest,
        dep_findPlayer dependencies = Some find ->
        find targetPlayerName = None ->
        Ban.execute host player (targetPlayerName :: rest) dependencies invokedBy
          isAutoModAction autoModCheckType w
        = (Return tt,
           mkWorld
             (trace w ++
              [let message := getString host "command.ban.notFoundOffline"
                                [("targetName", targetPlayerName)] in
               match player with
               | Some p => EvSendMessage p message
               | None => EvConsole ConsoleWarn message
               end])
             (pdata w) (cancel w))).
Proof.
  split.
  - intros config Hconfig. unfold Ban.execute. rewrite Hconfig.
    destruct player; reflexivity.
  - intros find targetPlayerName rest Hfind Hnone. unfold Ban.execute.
    rewrite Hfind. cbn [Ban.member bind ret]. rewrite Hnone.
    destruct player; reflexivity.
Qed.

(** Witness for X9: the automation names a player who is not connected. *)
Lemma execute_without_target_witness :
  Ban.execute (sampleHost []) None ["Dave"; "7d"] (banDependencies (sampleHost []))
    (Some "AutoMod") (Some true) (Some "fly_hover") emptyWorld
  = (Return tt,
     mkWorld [EvConsole ConsoleWarn "command.ban.notFoundOffline(targetName=Dave)"] [] false).
Proof.
  apply (proj2 (execute_without_target (sampleHost []) None (banDependencies (sampleHost []))
                  (Some "AutoMod") (Some true) (Some "fly_hover") emptyWorld)
           (findPlayer (sampleHost [])) "Dave" ["7d"]); reflexivity.
Defined.

(** X10: a player who names themselves as target is refused with the
    self-ban text and nothing else happens, whatever [invokedBy] says and
    whatever the permission levels are: the check comes before the hierarchy
    and does not look at them. *)
Theorem execute_refuses_self_ban (host : Host) (issuer : Player)
    (targetPlayerName : string) (rest : list string) (dependencies : CommandDependencies)
    (find : string -> option Player) (foundPlayer : Player) (invokedBy : option string)
    (isAutoModAction : option bool) (autoModCheckType : option string) (w : World) :
  dep_findPlayer dependencies = Some find ->
  find targetPlayerName = Some foundPlayer ->
  player_id foundPlayer = player_id issuer ->
  Ban.execute host (Some issuer) (targetPlayerName :: rest) dependencies invokedBy
    isAutoModAction autoModCheckType w
  = (Return tt,
     mkWorld (trace w ++ [EvSendMessage issuer (getString host "command.ban.self" [])])
       (pdata w) (cancel w)).
Proof.
  intros Hfind Hfound Hsame. unfold Ban.execute.
  rewrite Hfind. cbn [Ban.member bind ret]. rewrite Hfound, Hsame, String.eqb_refl.
  reflexivity.
Qed.

(** Witness for X10: the owner, invoked as automation, names herself. *)
Lemma execute_refuses_self_ban_witness :
  Ban.execute (sampleHost []) (Some carol) ["Carol"] (banDependencies (sampleHost []))
    (Some "AutoMod") (Some true) None emptyWorld
  = (Return tt, mkWorld [EvSendMessage carol "command.ban.self()"] [] false).
Proof.
  apply (execute_refuses_self_ban (sampleHost []) carol "Carol" []
           (banDependencies (sampleHost [])) (findPlayer (sampleHost [])) carol
           (Some "AutoMod") (Some true) None emptyWorld); reflexivity.
Defined.

(** X11: when a player at owner level issues the command against another
    player at owner level, [execute] refuses with the owner-by-owner text
    and does nothing else. *)
Theorem execute_refuses_owner_by_owner (host : Host) (issuer : Player)
    (targetPlayerName : string) (rest : list string) (dependencies : CommandDependencies)
    (find : string -> option Player) (foundPlayer : Player) (levelOf : Player -> Z)
    (invokedBy : option string) (isAutoModAction : option bool)
    (autoModCheckType : option string) (w : World) :
  invokedBy = None \/ invokedBy = Some "PlayerCommand" ->
  dep_findPlayer dependencies = Some find ->
  find targetPlayerName = Some foundPlayer ->
  player_id foundPlayer <> player_id issuer ->
  dep_getPlayerPermissionLevel dependencies = Some levelOf ->
  levelOf issuer = owner (permissionLevels host) ->
  levelOf foundPlayer = owner (permissionLevels host) ->
  Ban.execute host (Some issuer) (targetPlayerName :: rest) dependencies invokedBy
    isAutoModAction autoModCheckType w
  = (Return tt,
     mkWorld (trace w ++ [EvSendMessage issuer (getString host "command.ban.ownerByOwner" [])])
       (pdata w) (cancel w)).
Proof.
  intros Hinvoker Hfind Hfound Hother Hlevel Hissuer Htarget.
  unfold Ban.execute.
  replace (match invokedBy with Some s => s | None => "PlayerCommand" end)
    with "PlayerCommand" by (destruct Hinvoker; subst; reflexivity).
  rewrite Hfind. cbn [Ban.member bind ret]. rewrite Hfound.
  apply String.eqb_neq in Hother. rewrite Hother.
  unfold Ban.hierarchyDenies.
  change (String.eqb "PlayerCommand" "PlayerCommand") with true. cbv beta iota.
  rewrite Hlevel. unfold Ban.member, bind, ret, emit.
  rewrite Hissuer, Htarget, Z.ltb_irrefl, Z.eqb_refl, !andb_false_r.
  rewrite String.eqb_sym, Hother. reflexivity.
Qed.

(** Witness for X11: Bob against Carol where both are owners. *)
Lemma execute_refuses_owner_by_owner_witness :
  Ban.execute (sampleHost []) (Some bob) ["Carol"] (allOwnersDependencies (sampleHost []))
    None None None emptyWorld
  = (Return tt, mkWorld [EvSendMessage bob "command.ban.ownerByOwner()"] [] false).
Proof.
  apply (execute_refuses_owner_by_owner (sampleHost []) bob "Carol" []
           (allOwnersDependencies (sampleHost [])) (findPlayer (sampleHost [])) carol
           (fun _ => owner (permissionLevels (sampleHost []))) None None None emptyWorld).
  - left. reflexivity.
  - reflexivity.
  - reflexivity.
  - discriminate.
  - reflexivity.
  - reflexivity.
  - reflexivity.
Defined.

Lemma execute_after_hierarchy (host : Host) (player : option Player)
    (targetPlayerName : string) (rest : list string) (dependencies : CommandDependencies)
    (find : string -> option Player) (foundPlayer : Player)
    (parse : string -> option Duration) (durationMs : Duration)
    (playerDataManager : PlayerDataManagerCaps) (invokedBy : option string)
    (isAutoModAction : option bool) (autoModCheckType : option string) (w : World) :
  let args := targetPlayerName :: rest in
  let invoker := match invokedBy with Some s => s | None => "PlayerCommand" end in
  dep_findPlayer dependencies = Some find ->
  find targetPlayerName = Some foundPlayer ->
  (forall issuer, player = Some issuer -> player_id foundPlayer <> player_id issuer) ->
  Ban.hierarchyDenies host player foundPlayer dependencies invoker w = (Return false, w) ->
  dep_parseDuration dependencies = Some parse ->
  parse (Ban.durationStringOf args) = Some durationMs ->
  Ban.invalidDuration (Some durationMs) = false ->
  dep_playerDataManager dependencies = Some playerDataManager ->
  let bannedBy := if String.eqb invoker "AutoMod" then "AutoMod"
                  else playerNameForLog player in
  let reason := Ban.banReason args invoker autoModCheckType in
  let auto := match isAutoModAction with Some b => b | None => false end in
  Ban.execute host player args dependencies invokedBy isAutoModAction autoModCheckType w
  = (if addBan host foundPlayer durationMs reason bannedBy auto autoModCheckType
     then Ban.afterBanAdded host player foundPlayer dependencies (Ban.durationStringOf args)
            durationMs reason bannedBy auto autoModCheckType
     else
       let failureMessage :=
         getString host "command.ban.fail" [("targetName", player_nameTag foundPlayer)] in
       Ban.tell player failureMessage ConsoleWarn (strip_colors failureMessage))
      (mkWorld
         (trace w ++ [EvAddBan foundPlayer durationMs reason bannedBy auto autoModCheckType])
         (pdata w) (cancel w)).
Proof.
  intros args invoker Hfind Hfound Hself Hpass Hparse Hduration Hvalid Hpdm bannedBy reason
    auto.
  unfold Ban.execute. fold invoker. subst args.
  rewrite Hfind. cbn [Ban.member bind ret]. rewrite Hfound.
  assert (Hnotself :
            match player with
            | Some p =>
                if String.eqb (player_id foundPlayer) (player_id p) then Some p else None
            | None => None
            end = None).
  { destruct player as [p|]; [|reflexivity].
    specialize (Hself p eq_refl). apply String.eqb_neq in Hself. now rewrite Hself. }
  rewrite Hnotself. unfold bind at 1. rewrite Hpass.
  rewrite Hparse. cbn [Ban.member bind ret]. rewrite Hduration, Hvalid, Hpdm.
  cbn [Ban.member bind ret emit]. reflexivity.
Qed.

(** X12: the hierarchy stage lets every other call of a player pass.  When
    the target is another player, an issuer below owner level names a target
    below both admin and owner level, and an issuer at owner level names a
    target that is not at owner level, then, for a valid duration, the next
    call [execute] makes is [addBan] for that target, with the issuer's name
    tag as the responsible identity. *)
Theorem execute_passes_hierarchy (host : Host) (issuer : Player)
    (targetPlayerName : string) (rest : list string) (dependencies : CommandDependencies)
    (find : string -> option Player) (foundPlayer : Player) (levelOf : Player -> Z)
    (parse : string -> option Duration) (durationMs : Duration)
    (playerDataManager : PlayerDataManagerCaps) (invokedBy : option string)
    (isAutoModAction : option bool) (autoModCheckType : option string) (w : World) :
  let args := targetPlayerName :: rest in
  invokedBy = None \/ invokedBy = Some "PlayerCommand" ->
  dep_findPlayer dependencies = Some find ->
  find targetPlayerName = Some foundPlayer ->
  player_id foundPlayer <> player_id issuer ->
  dep_getPlayerPermissionLevel dependencies = Some levelOf ->
  ((owner (permissionLevels host) < levelOf issuer)%Z ->
   (admin (permissionLevels host) < levelOf foundPlayer)%Z
   /\ (owner (permissionLevels host) < levelOf foundPlayer)%Z) ->
  (levelOf issuer = owner (permissionLevels host) ->
   levelOf foundPlayer <> owner (permissionLevels host)) ->
  dep_parseDuration dependencies = Some parse ->
  parse (Ban.durationStringOf args) = Some durationMs ->
  Ban.invalidDuration (Some durationMs) = false ->
  dep_playerDataManager dependencies = Some playerDataManager ->
  exists later,
    trace (Ban.execute host (Some issuer) args dependencies invokedBy isAutoModAction
             autoModCheckType w).2
    = trace w ++
      EvAddBan foundPlayer durationMs (Ban.banReason args "PlayerCommand" autoModCheckType)
        (player_nameTag issuer)
        (match isAutoModAction with Some b => b | None => false end) autoModCheckType
      :: later.
Proof.
  intros args Hinvoker Hfind Hfound Hother Hlevel Hlow Howner Hparse Hduration Hvalid Hpdm.
  assert (Hinv : match invokedBy with Some s => s | None => "PlayerCommand" end
                 = "PlayerCommand") by (destruct Hinvoker; subst; reflexivity).
  assert (Hpass : Ban.hierarchyDenies host (Some issuer) foundPlayer dependencies
                    "PlayerCommand" w = (Return false, w)).
  { unfold Ban.hierarchyDenies.
    change (String.eqb "PlayerCommand" "PlayerCommand") with true. cbv beta iota.
    rewrite Hlevel. unfold Ban.member, bind, ret, emit.
    destruct (owner (permissionLevels host) <? levelOf issuer)%Z eqn:Hi.
    - apply Z.ltb_lt in Hi. destruct (Hlow Hi) as [Ha Ho].
      apply Z.leb_gt in Ha, Ho. rewrite Ha, Ho. cbn [andb].
      replace (levelOf foundPlayer =? owner (permissionLevels host))%Z with false
        by (symmetry; apply Z.eqb_neq; apply Z.leb_gt in Ho; lia).
      reflexivity.
    - rewrite !andb_false_r.
      destruct (levelOf issuer =? owner (permissionLevels host))%Z eqn:Hio.
      + apply Z.eqb_eq in Hio. apply Howner, Z.eqb_neq in Hio. now rewrite Hio.
      + now rewrite andb_false_r.
  }
  pose proof (execute_after_hierarchy host (Some issuer) targetPlayerName rest dependencies
                find foundPlayer parse durationMs playerDataManager invokedBy
                isAutoModAction autoModCheckType w Hfind Hfound) as Hrun.
  cbv zeta in Hrun. rewrite Hinv in Hrun.
  change (String.eqb "PlayerCommand" "AutoMod") with false in Hrun. cbv iota in Hrun.
  cbn [playerNameForLog] in Hrun.
  subst args. rewrite Hrun; try assumption.
  2:{ intros p [= <-]. exact Hother. }
  match goal with
  | |- context [(if ?b then ?yes else ?no) ?w1] =>
      assert (Hrest : appends (if b then yes else no))
        by (destruct b; [apply appends_afterBanAdded|apply appends_tell]);
      destruct (Hrest w1) as [later Hlater]; exists later;
      transitivity (trace w1 ++ later); [exact Hlater|]
  end.
  cbn [trace]. now rewrite <- app_assoc.
Qed.

(** Witness for X12: the admin Bob bans the member Alice for seven days. *)
Lemma execute_passes_hierarchy_witness :
  exists later,
    trace (Ban.execute (sampleHost []) (Some bob) ["Alice"; "7d"; "griefing"]
             (banDependencies (sampleHost [])) None None None emptyWorld).2
    = trace emptyWorld ++
      EvAddBan alice (Finite 604800000) "griefing" "Bob" false None :: later.
Proof.
  apply (execute_passes_hierarchy (sampleHost []) bob "Alice" ["7d"; "griefing"]
           (banDependencies (sampleHost [])) (findPlayer (sampleHost [])) alice
           (getPlayerPermissionLevel (sampleHost [])) (parseDuration (sampleHost []))
           (Finite 604800000) samplePlayerDataManager None None None emptyWorld).
  - left. reflexivity.
  - reflexivity.
  - reflexivity.
  - discriminate.
  - reflexivity.
  - intros _. split; reflexivity.
  - intros H. discriminate H.
  - reflexivity.
  - reflexivity.
  - reflexivity.
  - reflexivity.
Defined.

(** X13: on the automation path, when the ban store refuses to add the ban,
    [execute] reports the failure once (to the issuing player if there is
    one, else as a console warning with the colour codes stripped) and
    returns: the target is not kicked, no admin is notified and nothing is
    logged. *)
Theorem execute_reports_refused_ban (host : Host) (player : option Player)
    (targetPlayerName : string) (rest : list string) (dependencies : CommandDependencies)
    (find : string -> option Player) (foundPlayer : Player)
    (parse : string -> option Duration) (durationMs : Duration)
    (playerDataManager : PlayerDataManagerCaps) (isAutoModAction : option bool)
    (autoModCheckType : option string) (w : World) :
  let args := targetPlayerName :: rest in
  let reason := Ban.banReason args "AutoMod" autoModCheckType in
  let auto := match isAutoModAction with Some b => b | None => false end in
  let failureMessage :=
    getString host "command.ban.fail" [("targetName", player_nameTag foundPlayer)] in
  dep_findPlayer dependencies = Some find ->
  find targetPlayerName = Some foundPlayer ->
  (forall issuer, player = Some issuer -> player_id foundPlayer <> player_id issuer) ->
  dep_parseDuration dependencies = Some parse ->
  parse (Ban.durationStringOf args) = Some durationMs ->
  Ban.invalidDuration (Some durationMs) = false ->
  dep_playerDataManager dependencies = Some playerDataManager ->
  addBan host foundPlayer durationMs reason "AutoMod" auto autoModCheckType = false ->
  Ban.execute host player args dependencies (Some "AutoMod") isAutoModAction
    autoModCheckType w
  = (Return tt,
     mkWorld
       (trace w ++
        [EvAddBan foundPlayer durationMs reason "AutoMod" auto autoModCheckType;
         match player with
         | Some p => EvSendMessage p failureMessage
         | None => EvConsole ConsoleWarn (strip_colors failureMessage)
         end])
       (pdata w) (cancel w)).
Proof.
  intros args reason auto failureMessage Hfind Hfound Hself Hparse Hduration Hvalid Hpdm
    Hrefused.
  pose proof (execute_after_hierarchy host player targetPlayerName rest dependencies find
                foundPlayer parse durationMs playerDataManager (Some "AutoMod")
                isAutoModAction autoModCheckType w Hfind Hfound Hself) as Hrun.
  subst args reason auto failureMessage. cbv beta zeta iota in Hrun.
  change (String.eqb "AutoMod" "AutoMod") with true in Hrun. cbv iota in Hrun.
  rewrite Hrefused in Hrun.
  rewrite Hrun; try assumption.
  - unfold Ban.tell, emit.
    destruct player; cbn [trace pdata cancel]; now rewrite <- app_assoc.
  - unfold Ban.hierarchyDenies. destruct player; reflexivity.
Qed.

(** Witness for X13: the automation's ban of Alice is refused by the store. *)
Lemma execute_reports_refused_ban_witness :
  Ban.execute (withAddBan (sampleHost []) (fun _ _ _ _ _ _ => false)) None ["Alice"]
    (banDependencies (sampleHost [])) (Some "AutoMod") (Some true) (Some "fly_hover")
    emptyWorld
  = (Return tt,
     mkWorld
       [EvAddBan alice Infinity "AutoMod action for fly_hover." "AutoMod" true
          (Some "fly_hover");
        EvConsole ConsoleWarn "command.ban.fail(targetName=Alice)"]
       [] false).
Proof.
  apply (execute_reports_refused_ban (withAddBan (sampleHost []) (fun _ _ _ _ _ _ => false))
           None "Alice" [] (banDependencies (sampleHost [])) (findPlayer (sampleHost []))
           alice (parseDuration (sampleHost [])) Infinity samplePlayerDataManager
           (Some true) (Some "fly_hover") emptyWorld); try reflexivity.
  intros issuer H. discriminate H.
Defined.

Lemma bind_ext {A B : Type} (c c' : M A) (k k' : A -> M B) (w : World) :
  c w = c' w -> (forall a w1, k a w1 = k' a w1) -> bind c k w = bind c' k' w.
Proof.
  intros Hc Hk. unfold bind. rewrite Hc. destruct (c' w) as [[a|e] w1]; [apply Hk|reflexivity].
Qed.

Lemma afterBanAdded_ignores_kick_failure (host : Host) (answer : Player -> option Thrown)
    (player : option Player) (foundPlayer : Player) (dependencies : CommandDependencies)
    (config : Config) (durationString : string) (durationMs : Duration)
    (reason bannedBy : string) (isAutoModAction : bool) (autoModCheckType : option string)
    (w : World) :
  dep_config dependencies = Some config ->
  enableDebugLogging config = false ->
  Ban.afterBanAdded (withKickError host answer) player foundPlayer dependencies durationString
    durationMs reason bannedBy isAutoModAction autoModCheckType w
  = Ban.afterBanAdded (withKickError host (fun _ => None)) player foundPlayer dependencies
      durationString durationMs reason bannedBy isAutoModAction autoModCheckType w.
Proof.
  intros Hconfig Hquiet. unfold Ban.afterBanAdded.
  cbn [withKickError getBanInfo getString Date_now Date_toLocaleString kick_error].
  apply bind_ext; [|reflexivity].
  unfold try_catch, bind, emit. cbn [trace pdata cancel].
  destruct (answer foundPlayer) as [e|]; [|reflexivity].
  unfold throw. rewrite Hconfig. cbn [Ban.member ret]. now rewrite Hquiet.
Qed.

(** X14: with debug logging switched off in the configuration, a kick that
    fails changes nothing: [execute] returns the same outcome and makes the
    same calls as when the kick succeeds, so the success message, the admin
    notification and the log entry still follow. *)
Theorem execute_ignores_kick_failure (host : Host) (answer : Player -> option Thrown)
    (player : option Player) (args : list string) (dependencies : CommandDependencies)
    (config : Config) (invokedBy : option string) (isAutoModAction : option bool)
    (autoModCheckType : option string) (w : World) :
  dep_config dependencies = Some config ->
  enableDebugLogging config = false ->
  Ban.execute (withKickError host answer) player args dependencies invokedBy
    isAutoModAction autoModCheckType w
  = Ban.execute (withKickError host (fun _ => None)) player args dependencies invokedBy
      isAutoModAction autoModCheckType w.
Proof.
  intros Hconfig Hquiet. unfold Ban.execute, Ban.hierarchyDenies.
  cbn [withKickError getString permissionLevels addBan].
  destruct args as [|targetPlayerName rest]; [reflexivity|].
  apply bind_ext; [reflexivity|]. intros find w1.
  destruct (find targetPlayerName) as [foundPlayer|]; [|reflexivity].
  match goal with
  | |- match ?x with _ => _ end _ = _ => destruct x; [reflexivity|]
  end.
  apply bind_ext; [reflexivity|]. intros [|] w2; [reflexivity|].
  apply bind_ext; [reflexivity|]. intros parse w3.
  match goal with
  | |- match ?x with _ => _ end _ = _ => destruct x; [|reflexivity]
  end.
  apply bind_ext; [reflexivity|]. intros _ w4.
  apply bind_ext; [reflexivity|]. intros _ w5.
  match goal with
  | |- (if ?b then _ else _) _ = _ => destruct b; [|reflexivity]
  end.
  now apply (afterBanAdded_ignores_kick_failure host answer) with (config := config).
Qed.

(** Witness for X14: Alice has already left when the automation bans her. *)
Lemma execute_ignores_kick_failure_witness :
  Ban.execute
    (withKickError (sampleHost []) (fun _ => Some (ErrorObject "Error" "Player left" None)))
    None ["Alice"] (banDependencies (sampleHost [])) (Some "AutoMod") (Some true)
    (Some "fly_hover") emptyWorld
  = Ban.execute (withKickError (sampleHost []) (fun _ => None)) None ["Alice"]
      (banDependencies (sampleHost [])) (Some "AutoMod") (Some true) (Some "fly_hover")
      emptyWorld.
Proof.
  apply (execute_ignores_kick_failure (sampleHost [])
           (fun _ => Some (ErrorObject "Error" "Player left" None)) None ["Alice"]
           (banDependencies (sampleHost [])) sampleConfig (Some "AutoMod") (Some true)
           (Some "fly_hover") emptyWorld); reflexivity.
Defined.

(** X15: the reason of a ban is never empty: it is the text given after
    the duration whenever there is such a text, whoever invoked the command;
    else the automation's reason when invoked by "AutoMod", else
    "Banned by an administrator.". *)
Theorem banReason_never_empty (args : list string) (invokedBy : string)
    (autoModCheckType : option string) :
  Ban.banReason args invokedBy autoModCheckType <> ""
  /\ (String.concat " " (drop 2 args) <> "" ->
      Ban.banReason args invokedBy autoModCheckType = String.concat " " (drop 2 args))
  /\ (String.concat " " (drop 2 args) = "" ->
      Ban.banReason args invokedBy autoModCheckType
      = if String.eqb invokedBy "AutoMod"
        then "AutoMod action for " +:+ or_default autoModCheckType "violations" +:+ "."
        else "Banned by an administrator.").
Proof.
  unfold Ban.banReason, Ban.autoModReason.
  split; [|split].
  - destruct (String.eqb invokedBy "AutoMod" && (List.length args <=? 2)%nat);
      [discriminate|].
    destruct (String.eqb (String.concat " " (drop 2 args)) "") eqn:E.
    + destruct (String.eqb invokedBy "AutoMod"); discriminate.
    + now apply String.eqb_neq.
  - intros Hgiven.
    destruct (List.length args <=? 2)%nat eqn:Hshort.
    + apply Nat.leb_le in Hshort. rewrite (drop_ge args 2) in Hgiven by exact Hshort.
      now contradiction Hgiven.
    + apply String.eqb_neq in Hgiven. now rewrite andb_false_r, Hgiven.
  - intros Hnone. rewrite Hnone. cbn [String.eqb].
    destruct (String.eqb invokedBy "AutoMod"); [|reflexivity].
    now destruct (List.length args <=? 2)%nat.
Qed.

(** Witness for X15: a reason given in several words, by the automation. *)
Lemma banReason_never_empty_witness :
  Ban.banReason ["Alice"; "7d"; "bad"; "behaviour"] "AutoMod" (Some "fly_hover")
  = "bad behaviour".
Proof.
  apply (proj1 (proj2 (banReason_never_empty ["Alice"; "7d"; "bad"; "behaviour"]
                         "AutoMod" (Some "fly_hover")))); discriminate.
Defined.

(** ** commandManager.js: registration and the paths of the gateway *)

Lemma lower_ascii_idempotent (a : ascii) : lower_ascii (lower_ascii a) = lower_ascii a.
Proof. destruct a as [[] [] [] [] [] [] [] []]; reflexivity. Qed.

Lemma toLowerCase_idempotent (s : string) : toLowerCase (toLowerCase s) = toLowerCase s.
Proof.
  induction s as [|a s IH]; simpl; [reflexivity|].
  now rewrite lower_ascii_idempotent, IH.
Qed.

Lemma set_prop_keys {A : Type} (k : string) (v : A) (l : list (string * A)) :
  map fst (set_prop k v l)
  = if existsb (String.eqb k) (map fst l) then map fst l else map fst l ++ [k].
Proof.
  induction l as [|[k' v'] l IH]; simpl; [reflexivity|].
  destruct (String.eqb k k') eqn:E; simpl.
  - apply String.eqb_eq in E. now subst.
  - rewrite IH. now destruct (existsb (String.eqb k) (map fst l)).
Qed.

Lemma get_prop_keys {A : Type} (k : string) (l : list (string * A)) :
  get_prop k l = None <-> existsb (String.eqb k) (map fst l) = false.
Proof.
  induction l as [|[k' v'] l IH]; simpl; [tauto|].
  destruct (String.eqb k k'); simpl; [split; discriminate|exact IH].
Qed.

(** What the registration loop keeps true of the two tables. *)
Definition tablesAgree (r : Registry) : Prop :=
  map fst (commandDefinitionMap r) = map fst (commandExecutionMap r)
  /\ Forall (fun k => toLowerCase k = k) (map fst (commandDefinitionMap r)).

Lemma registerModule_tablesAgree (r : Registry) (cmdModule : option CommandModule) :
  tablesAgree r -> tablesAgree (registerModule r cmdModule).
Proof.
  intros [Hkeys Hlower]. unfold registerModule.
  destruct cmdModule as [[[definition|] [execute|]]|]; try (split; assumption).
  unfold tablesAgree. cbn [commandDefinitionMap commandExecutionMap].
  rewrite !set_prop_keys, <- Hkeys. split; [reflexivity|].
  destruct (existsb _ _); [exact Hlower|].
  apply Forall_app. split; [exact Hlower|].
  constructor; [apply toLowerCase_idempotent|constructor].
Qed.

Lemma fold_registerModule_tablesAgree (modules : list (option CommandModule)) (r : Registry) :
  tablesAgree r -> tablesAgree (fold_left registerModule modules r).
Proof.
  revert r. induction modules as [|m modules IH]; intros r Hr; simpl; [exact Hr|].
  apply IH. now apply registerModule_tablesAgree.
Qed.

(** X16: after module initialisation the two lookup tables have the same
    names in the same order, so a name has a definition exactly when it has
    an executor, and every name in them is in lower case, whatever the list
    of command modules was (entries that are null or lack a definition or an
    [execute] included). *)
Theorem loadCommands_tables_agree (commandModules : option (list (option CommandModule)))
    (name : string) :
  let r := loadCommands commandModules in
  map fst (commandDefinitionMap r) = map fst (commandExecutionMap r)
  /\ (get_prop name (commandDefinitionMap r) = None
      <-> get_prop name (commandExecutionMap r) = None)
  /\ Forall (fun k => toLowerCase k = k) (map fst (commandDefinitionMap r)).
Proof.
  assert (H : tablesAgree (loadCommands commandModules)).
  { unfold loadCommands. destruct commandModules as [modules|].
    - destruct (fold_registerModule_tablesAgree modules emptyRegistry) as [Hk Hl].
      + split; [reflexivity|constructor].
      + split; assumption.
    - split; [reflexivity|constructor]. }
  destruct H as [Hkeys Hlower]. cbv zeta.
  split; [exact Hkeys|]. split; [|exact Hlower].
  rewrite !get_prop_keys, Hkeys. reflexivity.
Qed.

Lemma fold_left_snoc {A B : Type} (f : A -> B -> A) (l : list B) (b : B) (a : A) :
  fold_left f (l ++ [b]) a = f (fold_left f l a) b.
Proof. now rewrite fold_left_app. Qed.

(** X17: the module registered last under a name wins.  After
    initialisation with a list that ends with a module carrying a definition
    and an [execute], the lower-cased name of that definition is bound to
    that definition and that executor; every other name is bound as it was
    by the modules before; and when the modules before had already bound the
    name, a duplicate warning is in the load log. *)
Theorem loadCommands_last_registration_wins (modules : list (option CommandModule))
    (definition : CommandDefinition) (execute : Executor) :
  let name := toLowerCase (cmd_name definition) in
  let before := loadCommands (Some modules) in
  let r := loadCommands (Some (modules ++ [Some (mkCommandModule (Some definition)
                                                   (Some execute))])) in
  get_prop name (commandDefinitionMap r) = Some definition
  /\ get_prop name (commandExecutionMap r) = Some execute
  /\ (forall other, other <> name ->
        get_prop other (commandDefinitionMap r) = get_prop other (commandDefinitionMap before)
        /\ get_prop other (commandExecutionMap r)
           = get_prop other (commandExecutionMap before))
  /\ (get_prop name (commandDefinitionMap before) <> None ->
      In (EvConsole ConsoleWarn
            ("[CommandManager] Duplicate command name detected and overwritten: " +:+ name))
         (loadLog r)).
Proof.
  intros name before r. subst before r. unfold loadCommands.
  rewrite fold_left_snoc.
  set (r0 := fold_left registerModule modules emptyRegistry).
  cbn [registerModule mod_definition mod_execute commandDefinitionMap commandExecutionMap
       loadLog].
  fold name.
  split; [apply get_prop_set_prop_same|]. split; [apply get_prop_set_prop_same|].
  split.
  - intros other Hother. split; now apply get_prop_set_prop_other.
  - intros Hbound. destruct (get_prop name (commandDefinitionMap r0)); [|contradiction].
    apply in_or_app. left. apply in_or_app. right. now left.
Qed.

(** Witness for X16: the tables built from the ban module, a null entry and
    a module without [execute]. *)
Lemma loadCommands_tables_agree_witness :
  let r := loadCommands (Some [Some (banModule (sampleHost [])); None;
                               Some (mkCommandModule (Some shoutedBanDefinition) None)]) in
  map fst (commandDefinitionMap r) = ["ban"]
  /\ map fst (commandExecutionMap r) = ["ban"]
  /\ get_prop "BAN" (commandExecutionMap r) = None.
Proof.
  destruct (loadCommands_tables_agree
              (Some [Some (banModule (sampleHost [])); None;
                     Some (mkCommandModule (Some shoutedBanDefinition) None)]) "BAN")
    as (Hkeys & Hiff & _).
  cbv zeta. split; [reflexivity|]. split; [rewrite <- Hkeys; reflexivity|].
  apply Hiff. reflexivity.
Defined.

(** Witness for X17: a module named "BAN" registered after the ban module. *)
Lemma loadCommands_last_registration_wins_witness :
  let r := loadCommands (Some ([Some (banModule (sampleHost []))] ++ [Some shoutedBanModule])) in
  get_prop "ban" (commandDefinitionMap r) = Some shoutedBanDefinition
  /\ In (EvConsole ConsoleWarn
           "[CommandManager] Duplicate command name detected and overwritten: ban")
        (loadLog r).
Proof.
  destruct (loadCommands_last_registration_wins [Some (banModule (sampleHost []))]
              shoutedBanDefinition (fun _ _ _ => ret tt))
    as (Hdef & _ & _ & Hwarn).
  cbv zeta. split; [exact Hdef|]. apply Hwarn. discriminate.
Defined.

(** X18: a message that holds nothing but the prefix (and white space) is
    answered with the hint to enter a command and is cancelled; the tables
    are not consulted, so no command runs. *)
Theorem handleChatCommand_no_command_name (host : Host) (registry : Registry)
    (eventData : ChatSendBeforeEvent) (playerDataManager : PlayerDataManagerCaps)
    (uiManager : Opaque) (config : Config) (playerUtils : PlayerUtilsCaps) (w : World) :
  has_getPlayerData playerDataManager = true ->
  trim (substring_from (String.length (prefix config)) (message eventData)) = "" ->
  handleChatCommand host registry eventData playerDataManager uiManager config playerUtils w
  = (Return tt,
     mkWorld
       (trace w ++
        (if has_debugLog playerUtils
         then [attemptLine (sender eventData) "" []
                 (get_prop (player_id (sender eventData)) (pdata w))]
         else []) ++
        [EvSendMessage (sender eventData)
           ("§cPlease enter a command after the prefix. Type " +:+ prefix config
            +:+ "help for a list of commands.")])
       (pdata w) true).
Proof.
  intros Hpdm Hempty.
  unfold handleChatCommand, getPlayerData, commandNameInput, commandArgs, parseArgs.
  rewrite Hpdm, Hempty. cbn [split_spaces split_go shiftCommandName toLowerCase fst snd
                             or_default String.eqb].
  unfold bind, when, emit, ret, set_cancel, read_pdata.
  destruct (has_debugLog playerUtils); cbn [trace pdata cancel];
    now rewrite <- ?app_assoc.
Qed.

(** Witness for X18: Bob sends the prefix followed by blanks. *)
Lemma handleChatCommand_no_command_name_witness :
  handleChatCommand (sampleHost []) (sampleRegistry (sampleHost []))
    (mkChatEvent bob "!   ") samplePlayerDataManager sampleUiManager sampleConfig
    samplePlayerUtils emptyWorld
  = (Return tt,
     mkWorld
       [attemptLine bob "" [] None;
        EvSendMessage bob
          "§cPlease enter a command after the prefix. Type !help for a list of commands."]
       [] true).
Proof.
  apply (handleChatCommand_no_command_name (sampleHost []) (sampleRegistry (sampleHost []))
           (mkChatEvent bob "!   ") samplePlayerDataManager sampleUiManager sampleConfig
           samplePlayerUtils emptyWorld); reflexivity.
Defined.

(** X19: a command whose name resolves, that is registered and enabled, and
    whose required level is numerically below the sender's level is refused:
    the sender is warned, the message is cancelled, and apart from
    [debugLog] lines nothing else is called; the outcome is the same
    whatever executor the table holds, so it is not run, and the dependency
    object is never built. *)
Theorem handleChatCommand_permission_denied (host : Host) (eventData : ChatSendBeforeEvent)
    (playerDataManager : PlayerDataManagerCaps) (uiManager : Opaque) (config : Config)
    (playerUtils : PlayerUtilsCaps) (name : string) (commandDef : CommandDefinition)
    (w : World) :
  has_getPlayerData playerDataManager = true ->
  commandNameInput config (message eventData) <> "" ->
  finalCommandName config (commandNameInput config (message eventData)) = Return name ->
  isEffectivelyEnabled config name commandDef = true ->
  (cmd_permissionLevel commandDef < getPlayerPermissionLevel host (sender eventData))%Z ->
  exists before after,
    forallb isDiagnostic before = true
    /\ forallb isDiagnostic after = true
    /\ forall registry commandExecute,
         get_prop name (commandDefinitionMap registry) = Some commandDef ->
         get_prop name (commandExecutionMap registry) = Some commandExecute ->
         handleChatCommand host registry eventData playerDataManager uiManager config
           playerUtils w
         = (Return tt,
            mkWorld
              (trace w ++ before ++
               EvWarnPlayer (sender eventData)
                 "You do not have permission to use this command." :: after)
              (pdata w) true).
Proof.
  intros Hpdm Hname Hfinal Henabled Hlevel.
  apply String.eqb_neq in Hname. apply Z.ltb_lt in Hlevel.
  set (player := sender eventData) in *.
  set (input := commandNameInput config (message eventData)) in *.
  set (attempt := attemptLine player input (commandArgs config (message eventData))
                    (get_prop (player_id player) (pdata w))).
  exists ((if has_debugLog playerUtils then [attempt] else [])
          ++ (if aliasTruthy (aliasTarget config input) && has_debugLog playerUtils
              then [aliasLine player input name] else [])).
  exists (if has_debugLog playerUtils
          then [EvDebugLog ("Command '" +:+ cmd_name commandDef +:+ "' denied for "
                            +:+ player_nameTag player
                            +:+ " due to insufficient permissions. Required: "
                            +:+ pretty (cmd_permissionLevel commandDef)
                            +:+ ", Player has: "
                            +:+ pretty (getPlayerPermissionLevel host player))
                  (Some (player_nameTag player))]
          else []).
  split; [|split].
  - destruct (has_debugLog playerUtils), (aliasTruthy (aliasTarget config input));
      reflexivity.
  - destruct (has_debugLog playerUtils); reflexivity.
  - intros registry commandExecute Hdef Hexec.
    unfold handleChatCommand, getPlayerData.
    fold player. fold input. rewrite Hpdm, Hname, Hfinal.
    unfold liftOutcome. cbv beta iota zeta delta [bind].
    rewrite Hdef, Hexec, Henabled. cbn [negb]. rewrite Hlevel.
    unfold when, emit, ret, set_cancel, read_pdata. cbn [trace pdata cancel].
    fold attempt.
    destruct (has_debugLog playerUtils), (aliasTruthy (aliasTarget config input));
      cbn [andb trace pdata cancel]; rewrite <- ?app_assoc; reflexivity.
Qed.

(** Witness for X19: the member Alice tries the ban command, under its
    alias, in an installation whose alias table is an ordinary object. *)
Lemma handleChatCommand_permission_denied_witness :
  exists before after,
    handleChatCommand (sampleHost []) (sampleRegistry (sampleHost []))
      (mkChatEvent alice "!b Bob") samplePlayerDataManager sampleUiManager
      aliasEnabledConfig samplePlayerUtils emptyWorld
    = (Return tt,
       mkWorld
         (before ++
          EvWarnPlayer alice "You do not have permission to use this command." :: after)
         [] true).
Proof.
  destruct (handleChatCommand_permission_denied (sampleHost []) (mkChatEvent alice "!b Bob")
              samplePlayerDataManager sampleUiManager aliasEnabledConfig samplePlayerUtils
              "ban" (Ban.definition (sampleHost [])) emptyWorld eq_refl
              ltac:(vm_compute; discriminate) eq_refl eq_refl eq_refl)
    as (before & after & _ & _ & Hrun).
  exists before, after.
  apply (Hrun (sampleRegistry (sampleHost []))
           (fun player args deps =>
              Ban.execute (sampleHost []) (Some player) args deps None None None));
    reflexivity.
Defined.

(** The calls that [handleChatCommand] makes before it builds the dependency
    object, for a command that is dispatched under the name [name]: the
    [debugLog] line of the attempt, the one of the alias, the console line
    for an admin's command and the [debugLog] line for a watched admin. *)
Definition callsBeforeDispatch (host : Host) (eventData : ChatSendBeforeEvent)
    (config : Config) (name : string) (w : World) : list Event :=
  let player := sender eventData in
  let input := commandNameInput config (message eventData) in
  [attemptLine player input (commandArgs config (message eventData))
     (get_prop (player_id player) (pdata w))] ++
  (if aliasTruthy (aliasTarget config input)
   then [aliasLine player input name] else []) ++
  (if (getPlayerPermissionLevel host player <=? admin (permissionLevels host))%Z
   then [EvConsole ConsoleWarn
           ("[AdminCommandLog] " +:+ Date_toISOString host +:+ " - Player: "
            +:+ player_name player +:+ " - Command: " +:+ message eventData)]
   else []) ++
  (match get_prop (player_id player) (pdata w) with
   | Some d =>
       if isWatched d && isAdmin host player
       then [EvDebugLog ("Watched admin " +:+ player_nameTag player
                         +:+ " is executing command: " +:+ message eventData)
               (Some (player_nameTag player))]
       else []
   | None => []
   end).

(** Up to the point where the dependency object is built, a command that
    resolves, is registered, enabled and permitted goes through
    [handleChatCommand] with the calls of [callsBeforeDispatch] and with
    [cancel] set; what follows is the object literal and the [try] block. *)
Lemma handleChatCommand_reaches_dispatch (host : Host) (registry : Registry)
    (eventData : ChatSendBeforeEvent) (playerDataManager : PlayerDataManagerCaps)
    (uiManager : Opaque) (config : Config) (playerUtils : PlayerUtilsCaps)
    (name : string) (commandDef : CommandDefinition) (commandExecute : Executor)
    (w : World) :
  let args := commandArgs config (message eventData) in
  let player := sender eventData in
  has_getPlayerData playerDataManager = true ->
  has_debugLog playerUtils = true ->
  commandNameInput config (message eventData) <> "" ->
  finalCommandName config (commandNameInput config (message eventData)) = Return name ->
  get_prop name (commandDefinitionMap registry) = Some commandDef ->
  get_prop name (commandExecutionMap registry) = Some commandExecute ->
  isEffectivelyEnabled config name commandDef = true ->
  (getPlayerPermissionLevel host player <= cmd_permissionLevel commandDef)%Z ->
  handleChatCommand host registry eventData playerDataManager uiManager config playerUtils w
  = (deps <- dependencies host registry playerDataManager uiManager config playerUtils ;;
     try_catch
       (commandExecute player args deps ;;
        emit (EvDebugLog ("Successfully executed command '" +:+ name
                          +:+ "' for " +:+ player_nameTag player +:+ ".")
                (watchedName (get_prop (player_id player) (pdata w)) player)))
       (commandErrorHandler player name args playerUtils))
      (mkWorld (trace w ++ callsBeforeDispatch host eventData config name w) (pdata w) true).
Proof.
  intros args player Hpdm Hdebug Hname Hfinal Hdef Hexec Henabled Hlevel.
  apply String.eqb_neq in Hname. apply Z.ltb_ge in Hlevel.
  unfold callsBeforeDispatch. fold player.
  set (input := commandNameInput config (message eventData)) in *.
  unfold handleChatCommand, getPlayerData.
  fold player. fold input. rewrite Hpdm, Hdebug, Hname, Hfinal.
  unfold liftOutcome. cbv beta iota zeta delta [bind].
  rewrite Hdef, Hexec, Henabled. cbn [negb]. rewrite Hlevel.
  unfold dispatch, getPlayerData, debugLog.
  fold player. fold args. rewrite Hpdm, Hdebug.
  unfold bind, when, emit, ret, set_cancel, read_pdata. cbn [trace pdata cancel].
  destruct (aliasTruthy (aliasTarget config input)),
           (getPlayerPermissionLevel host player <=? admin (permissionLevels host))%Z;
    cbn [andb trace pdata cancel];
    (destruct (get_prop (player_id player) (pdata w)) as [d|];
     [destruct (isWatched d && isAdmin host player)|]);
    cbn [trace pdata cancel app]; rewrite <- ?app_assoc; reflexivity.
Qed.

(** X20: in a host whose global object does not bind [logManager], no
    command is ever dispatched.  For every message whose command resolves
    and is registered, enabled and permitted to the sender,
    [handleChatCommand] cancels the message and then ends with the
    [ReferenceError] raised while the dependency object is built; the
    outcome is the same whatever executor the table holds, so the executor
    is not run. *)
Theorem handleChatCommand_without_logManager (host : Host) (eventData : ChatSendBeforeEvent)
    (playerDataManager : PlayerDataManagerCaps) (uiManager : Opaque) (config : Config)
    (playerUtils : PlayerUtilsCaps) (name : string) (commandDef : CommandDefinition)
    (w : World) :
  has_getPlayerData playerDataManager = true ->
  has_debugLog playerUtils = true ->
  commandNameInput config (message eventData) <> "" ->
  finalCommandName config (commandNameInput config (message eventData)) = Return name ->
  isEffectivelyEnabled config name commandDef = true ->
  (getPlayerPermissionLevel host (sender eventData) <= cmd_permissionLevel commandDef)%Z ->
  existsb (String.eqb "logManager") (global_scope host) = false ->
  exists w',
    cancel w' = true
    /\ pdata w' = pdata w
    /\ forall registry commandExecute,
         get_prop name (commandDefinitionMap registry) = Some commandDef ->
         get_prop name (commandExecutionMap registry) = Some commandExecute ->
         handleChatCommand host registry eventData playerDataManager uiManager config
           playerUtils w
         = (Throw (ReferenceError "logManager"), w').
Proof.
  intros Hpdm Hdebug Hname Hfinal Henabled Hlevel Hunbound.
  exists (mkWorld (trace w ++ callsBeforeDispatch host eventData config name w) (pdata w)
            true).
  split; [reflexivity|]. split; [reflexivity|].
  intros registry commandExecute Hdef Hexec.
  rewrite (handleChatCommand_reaches_dispatch host registry eventData playerDataManager
             uiManager config playerUtils name commandDef commandExecute w
             Hpdm Hdebug Hname Hfinal Hdef Hexec Henabled Hlevel).
  unfold dependencies, resolve_global. rewrite Hunbound. reflexivity.
Qed.

(** Witness for X20: the admin Bob's ban command in such a host. *)
Lemma handleChatCommand_without_logManager_witness :
  exists w',
    cancel w' = true
    /\ handleChatCommand (sampleHost []) (sampleRegistry (sampleHost [])) banAliceEvent
         samplePlayerDataManager sampleUiManager aliasEnabledConfig samplePlayerUtils
         emptyWorld
       = (Throw (ReferenceError "logManager"), w').
Proof.
  destruct (handleChatCommand_without_logManager (sampleHost []) banAliceEvent
              samplePlayerDataManager sampleUiManager aliasEnabledConfig samplePlayerUtils
              "ban" (Ban.definition (sampleHost [])) emptyWorld eq_refl eq_refl
              ltac:(vm_compute; discriminate) eq_refl eq_refl
              ltac:(apply Z.leb_le; reflexivity) eq_refl)
    as (w' & Hcancel & _ & Hrun).
  exists w'. split; [exact Hcancel|].
  apply (Hrun (sampleRegistry (sampleHost []))
           (fun player args deps =>
              Ban.execute (sampleHost []) (Some player) args deps None None None));
    reflexivity.
Defined.

(** X21: where [logManager] is bound, a command that resolves and is
    registered, enabled and permitted is run: its executor is called with
    the sender, the arguments that follow the command name and the
    dependency object, in the world that the gateway's calls so far have
    left, with [cancel] set.  When that call throws an error object with a
    stack, the gateway returns normally, and the world it leaves is the one
    the executor left, followed by: the message to the sender that an error
    occurred, the stack on the console, the trace of the error, and a
    [command_error] log entry with the command name, the sender, the
    arguments and the error's message. *)
Theorem handleChatCommand_reports_error_object (host : Host) (registry : Registry)
    (eventData : ChatSendBeforeEvent) (playerDataManager : PlayerDataManagerCaps)
    (uiManager : Opaque) (config : Config) (playerUtils : PlayerUtilsCaps)
    (name : string) (commandDef : CommandDefinition) (commandExecute : Executor)
    (errName errMessage stack : string) (w : World) :
  let args := commandArgs config (message eventData) in
  let player := sender eventData in
  has_getPlayerData playerDataManager = true ->
  has_debugLog playerUtils = true ->
  commandNameInput config (message eventData) <> "" ->
  finalCommandName config (commandNameInput config (message eventData)) = Return name ->
  get_prop name (commandDefinitionMap registry) = Some commandDef ->
  get_prop name (commandExecutionMap registry) = Some commandExecute ->
  isEffectivelyEnabled config name commandDef = true ->
  (getPlayerPermissionLevel host player <= cmd_permissionLevel commandDef)%Z ->
  existsb (String.eqb "logManager") (global_scope host) = true ->
  stack <> "" ->
  exists deps,
    (forall w0,
        dependencies host registry playerDataManager uiManager config playerUtils w0
        = (Return deps, w0))
    /\ forall w2,
        commandExecute player args deps
          (mkWorld (trace w ++ callsBeforeDispatch host eventData config name w) (pdata w)
             true)
        = (Throw (ErrorObject errName errMessage (Some stack)), w2) ->
        handleChatCommand host registry eventData playerDataManager uiManager config
          playerUtils w
        = (Return tt,
           mkWorld
             (trace w2 ++
              [EvSendMessage player
                 ("§cAn error occurred while executing command '" +:+ name
                  +:+ "'. Please report this.");
               EvConsole ConsoleError
                 ("[CommandManager] Error executing command " +:+ name +:+ " for player "
                  +:+ player_nameTag player +:+ ": " +:+ stack);
               EvDebugLog
                 ("Error executing command " +:+ name +:+ " for " +:+ player_nameTag player
                  +:+ ": " +:+ Thrown_toString (ErrorObject errName errMessage (Some stack)))
                 None;
               EvAddLog
                 (LogText "command_error"
                    ("Cmd: " +:+ name +:+ ", Player: " +:+ player_nameTag player
                     +:+ ", Args: [" +:+ String.concat ", " args +:+ "], Error: "
                     +:+ errMessage))])
             (pdata w2) (cancel w2)).
Proof.
  intros args player Hpdm Hdebug Hname Hfinal Hdef Hexec Henabled Hlevel Hbound Hstack.
  assert (Hdeps : exists deps, forall w0,
             dependencies host registry playerDataManager uiManager config playerUtils w0
             = (Return deps, w0)).
  { eexists. intros w0. unfold dependencies, resolve_global. rewrite Hbound. reflexivity. }
  destruct Hdeps as [deps Hdeps]. exists deps. split; [exact Hdeps|].
  intros w2 Hrun.
  rewrite (handleChatCommand_reaches_dispatch host registry eventData playerDataManager
             uiManager config playerUtils name commandDef commandExecute w
             Hpdm Hdebug Hname Hfinal Hdef Hexec Henabled Hlevel).
  apply String.eqb_neq in Hstack. subst args player.
  unfold bind at 1. rewrite Hdeps.
  unfold try_catch. unfold bind at 1. rewrite Hrun.
  unfold commandErrorHandler, error_stack_or_error, error_message, liftOutcome.
  rewrite Hstack, Hdebug.
  unfold bind, when, emit, ret. cbn [trace pdata cancel].
  rewrite <- ?app_assoc. reflexivity.
Qed.

(** Witness for X21: Alice runs a command whose executor sends her a line
    and then throws a [RangeError]; the line is in the world the gateway
    leaves, before the report of the error. *)
Lemma handleChatCommand_reports_error_object_witness :
  handleChatCommand (sampleHost ["logManager"]) (loadCommands (Some [Some failingModule]))
    (mkChatEvent alice "!fail now") samplePlayerDataManager sampleUiManager
    aliasEnabledConfig samplePlayerUtils emptyWorld
  = (Return tt,
     mkWorld
       [attemptLine alice "fail" ["now"] None;
        EvSendMessage alice "Working on now";
        EvSendMessage alice
          "§cAn error occurred while executing command 'fail'. Please report this.";
        EvConsole ConsoleError
          "[CommandManager] Error executing command fail for player Alice: RangeError: out of range at execute";
        EvDebugLog "Error executing command fail for Alice: RangeError: out of range" None;
        EvAddLog
          (LogText "command_error"
             "Cmd: fail, Player: Alice, Args: [now], Error: out of range")]
       [] true).
Proof.
  destruct (handleChatCommand_reports_error_object (sampleHost ["logManager"])
              (loadCommands (Some [Some failingModule])) (mkChatEvent alice "!fail now")
              samplePlayerDataManager sampleUiManager aliasEnabledConfig samplePlayerUtils
              "fail" (mkCommandDefinition "fail" "!fail" "Fails." 1024 true)
              (fun player args _ =>
                 emit (EvSendMessage player ("Working on " +:+ String.concat " " args)) ;;
                 throw failingError)
              "RangeError" "out of range" "RangeError: out of range at execute" emptyWorld
              eq_refl eq_refl ltac:(vm_compute; discriminate) eq_refl eq_refl eq_refl eq_refl
              ltac:(apply Z.leb_le; reflexivity) eq_refl ltac:(discriminate))
    as (deps & _ & Hrun).
  apply (Hrun (mkWorld [attemptLine alice "fail" ["now"] None;
                        EvSendMessage alice "Working on now"] [] true)).
  reflexivity.
Defined.

(** ** actionManager.js: the consequences of an enabled profile *)

(** The [addFlag] calls of step 1: as many as the increment says, and none
    without a player, a flag profile or an [addFlag] to call. *)
Definition flagCalls (player : option Player) (checkType : string) (violationDetails : jsval)
    (dependencies : ActionManagerDependencies) (profile : ActionProfile)
    (flagReasonMessage : string) : list Event :=
  match player, flag profile, am_playerDataManager dependencies with
  | Some p, Some f, Some m =>
      if has_addFlag m then
        repeat (EvAddFlag p (or_default (flag_type f) checkType) flagReasonMessage
                  (formatViolationDetails violationDetails))
          (Z.to_nat (match flag_increment f with Some n => n | None => 1%Z end))
      else []
  | _, _, _ => []
  end.

(** The [addLog] call of step 2. *)
Definition logCalls (player : option Player) (checkType : string) (violationDetails : jsval)
    (dependencies : ActionManagerDependencies) (profile : ActionProfile)
    (flagReasonMessage : string) : list Event :=
  match log profile, am_logManager dependencies with
  | Some l, Some m =>
      if has_addLog m then
        [EvAddLog
           (LogDetection "System"
              (or_default (log_actionType l) ("detected_" +:+ checkType))
              (playerNameForLog player)
              (trim (match log_includeViolationDetails l with
                     | Some false => or_default (log_detailsPrefix l) ""
                     | _ => or_default (log_detailsPrefix l) ""
                            +:+ formatViolationDetails violationDetails
                     end))
              flagReasonMessage)]
      else []
  | _, _ => []
  end.

(** The [notifyAdmins] call of step 3, given the player-data objects. *)
Definition notifyCalls (player : option Player) (checkType : string)
    (violationDetails : jsval) (dependencies : ActionManagerDependencies)
    (profile : ActionProfile) (objects : list (string * PData)) : list Event :=
  match notifyAdmins profile, am_playerUtils dependencies with
  | Some {| notify_message := Some template |}, Some u =>
      if negb (String.eqb template "") && has_notifyAdmins u then
        [EvNotifyAdmins
           (formatActionMessage template (playerNameForLog player) checkType violationDetails)
           player
           (match player, am_playerDataManager dependencies with
            | Some p, Some m =>
                if has_getPlayerData m then get_prop (player_id p) objects else None
            | _, _ => None
            end)]
      else []
  | _, _ => []
  end.

(** The player-data objects after the item-context step. *)
Definition storedPData (host : Host) (player : option Player) (checkType : string)
    (violationDetails : jsval) (dependencies : ActionManagerDependencies)
    (objects : list (string * PData)) : list (string * PData) :=
  match player, am_playerDataManager dependencies with
  | Some p, Some m =>
      if truthy_prim (details_itemTypeId violationDetails) && has_getPlayerData m then
        match get_prop (player_id p) objects with
        | Some d =>
            set_prop (player_id p)
              (mkPData (isWatched d)
                 (Some (set_prop checkType
                          (mkLastViolation (details_itemTypeId violationDetails)
                             (Date_now host))
                          (match lastViolationDetailsMap d with
                           | Some lm => lm
                           | None => []
                           end)))
                 true)
              objects
        | None => objects
        end
      else objects
  | _, _ => objects
  end.

(** The reason text of line 98-104. *)
Definition flagReasonOf (player : option Player) (checkType : string)
    (violationDetails : jsval) (profile : ActionProfile) : string :=
  formatActionMessage
    (or_default (match flag profile with Some f => flag_reason f | None => None end)
       ("Triggered " +:+ checkType))
    (playerNameForLog player) checkType violationDetails.

Lemma repeatM_emit (n : nat) (e : Event) (w : World) :
  repeatM n (emit e) w = (Return tt, mkWorld (trace w ++ repeat e n) (pdata w) (cancel w)).
Proof.
  revert w. induction n as [|n IH]; intros w; simpl.
  - unfold ret. now rewrite app_nil_r, world_eta.
  - unfold bind, emit. rewrite IH. cbn [trace pdata cancel]. now rewrite <- app_assoc.
Qed.

Lemma debugLog_opt_line (pu : option PlayerUtilsCaps) (msg : string) (w : World) :
  debugLog_opt pu msg w
  = (Return tt,
     mkWorld (trace w ++ if offersDebugLog pu then [EvDebugLog msg None] else [])
       (pdata w) (cancel w)).
Proof.
  unfold debugLog_opt, when, offersDebugLog.
  destruct pu as [u|]; [destruct (has_debugLog u)|]; try reflexivity;
    unfold ret; now rewrite app_nil_r, world_eta.
Qed.

Lemma handleFlagging_run (player : option Player) (checkType : string)
    (violationDetails : jsval) (dependencies : ActionManagerDependencies)
    (profile : ActionProfile) (reason : string) (w : World) :
  exists diag,
    forallb isDiagnostic diag = true
    /\ handleFlagging player checkType violationDetails dependencies profile reason w
       = (Return tt,
          mkWorld
            (trace w ++
             flagCalls player checkType violationDetails dependencies profile reason ++ diag)
            (pdata w) (cancel w)).
Proof.
  unfold handleFlagging, flagCalls.
  destruct player as [p|], (flag profile) as [f|],
           (am_playerDataManager dependencies) as [m|];
    try destruct (has_addFlag m).
  all: try (exists []; split; [reflexivity|];
            unfold ret; cbn [app]; now rewrite app_nil_r, world_eta).
  - unfold bind. rewrite repeatM_emit, debugLog_opt_line. cbn [trace pdata cancel].
    eexists. split; [|now rewrite <- app_assoc].
    now destruct (offersDebugLog (am_playerUtils dependencies)).
  - rewrite debugLog_opt_line. eexists. split; [|reflexivity].
    now destruct (offersDebugLog (am_playerUtils dependencies)).
  - rewrite debugLog_opt_line. eexists. split; [|reflexivity].
    now destruct (offersDebugLog (am_playerUtils dependencies)).
  - rewrite debugLog_opt_line. eexists. split; [|reflexivity].
    now destruct (offersDebugLog (am_playerUtils dependencies)).
Qed.

Lemma handleLogging_run (player : option Player) (checkType : string)
    (violationDetails : jsval) (dependencies : ActionManagerDependencies)
    (profile : ActionProfile) (reason : string) (w : World) :
  handleLogging player checkType violationDetails dependencies profile reason w
  = (Return tt,
     mkWorld
       (trace w ++ logCalls player checkType violationDetails dependencies profile reason)
       (pdata w) (cancel w)).
Proof.
  unfold handleLogging, logCalls.
  destruct (log profile) as [l|], (am_logManager dependencies) as [m|];
    try destruct (has_addLog m).
  all: try (unfold ret; now rewrite app_nil_r, world_eta).
  reflexivity.
Qed.

Lemma handleNotification_run (player : option Player) (checkType : string)
    (violationDetails : jsval) (dependencies : ActionManagerDependencies)
    (profile : ActionProfile) (w : World) :
  handleNotification player checkType violationDetails dependencies profile w
  = (Return tt,
     mkWorld
       (trace w ++
        notifyCalls player checkType violationDetails dependencies profile (pdata w))
       (pdata w) (cancel w)).
Proof.
  unfold handleNotification, notifyCalls.
  destruct (notifyAdmins profile) as [[[template|]]|];
    cbn [notify_message or_default String.eqb negb andb].
  2,3: destruct (am_playerUtils dependencies) as [u|];
    unfold ret; now rewrite app_nil_r, world_eta.
  destruct (String.eqb template "") eqn:E; cbn [String.eqb negb andb].
  - destruct (am_playerUtils dependencies); unfold ret; now rewrite app_nil_r, world_eta.
  - rewrite E. cbn [negb andb].
    destruct (am_playerUtils dependencies) as [u|];
      [destruct (has_notifyAdmins u)|];
      try (unfold ret; now rewrite app_nil_r, world_eta).
    unfold bind, emit, read_pdata, ret.
    destruct player as [p|], (am_playerDataManager dependencies) as [m|];
      try destruct (has_getPlayerData m); reflexivity.
Qed.

Lemma storeItemContext_run (host : Host) (player : option Player) (checkType : string)
    (violationDetails : jsval) (dependencies : ActionManagerDependencies) (w : World) :
  exists diag,
    forallb isDiagnostic diag = true
    /\ storeItemContext host player checkType violationDetails dependencies w
       = (Return tt,
          mkWorld (trace w ++ diag)
            (storedPData host player checkType violationDetails dependencies (pdata w))
            (cancel w)).
Proof.
  unfold storeItemContext, storedPData.
  destruct player as [p|], (am_playerDataManager dependencies) as [m|];
    try destruct (truthy_prim (details_itemTypeId violationDetails));
    cbn [andb].
  all: try (exists []; split; [reflexivity|];
            unfold ret; now rewrite app_nil_r, world_eta).
  - destruct (has_getPlayerData m); unfold bind, read_pdata, ret.
    + destruct (get_prop (player_id p) (pdata w)) as [d|].
      * unfold write_pdata. rewrite debugLog_opt_line. cbn [trace pdata cancel].
        eexists. split; [|reflexivity].
        now destruct (offersDebugLog (am_playerUtils dependencies)).
      * rewrite debugLog_opt_line. eexists. split; [|reflexivity].
        now destruct (offersDebugLog (am_playerUtils dependencies)).
    + rewrite debugLog_opt_line. eexists. split; [|reflexivity].
      now destruct (offersDebugLog (am_playerUtils dependencies)).
  - rewrite debugLog_opt_line. eexists. split; [|reflexivity].
    now destruct (offersDebugLog (am_playerUtils dependencies)).
  - rewrite debugLog_opt_line. eexists. split; [|reflexivity].
    now destruct (offersDebugLog (am_playerUtils dependencies)).
Qed.

Lemma executeCheckAction_enabled_run (host : Host) (player : option Player)
    (checkType : string) (violationDetails : jsval) (dependencies : ActionManagerDependencies)
    (profile : ActionProfile) (w : World) :
  configuredProfile dependencies checkType = Some profile ->
  enabled profile = true ->
  let reason := flagReasonOf player checkType violationDetails profile in
  exists flagged stored,
    forallb isDiagnostic flagged = true
    /\ forallb isDiagnostic stored = true
    /\ executeCheckAction host player checkType violationDetails dependencies w
       = (Return tt,
          mkWorld
            (trace w
             ++ flagCalls player checkType violationDetails dependencies profile reason
             ++ flagged
             ++ logCalls player checkType violationDetails dependencies profile reason
             ++ notifyCalls player checkType violationDetails dependencies profile (pdata w)
             ++ stored)
            (storedPData host player checkType violationDetails dependencies (pdata w))
            (cancel w)).
Proof.
  unfold configuredProfile, executeCheckAction.
  destruct (am_config dependencies) as [[[profiles|]]|]; try discriminate.
  intros Hprofile Henabled. rewrite Hprofile, Henabled. cbn [negb].
  fold (flagReasonOf player checkType violationDetails profile).
  set (reason := flagReasonOf player checkType violationDetails profile).
  destruct (handleFlagging_run player checkType violationDetails dependencies profile
              reason w) as (flagged & Hflagged & Hrun1).
  unfold bind at 1. rewrite Hrun1.
  unfold bind at 1. rewrite handleLogging_run. cbn [trace pdata cancel].
  unfold bind at 1. rewrite handleNotification_run. cbn [trace pdata cancel].
  match goal with
  | |- context [storeItemContext host player checkType violationDetails dependencies ?w3] =>
      destruct (storeItemContext_run host player checkType violationDetails dependencies w3)
        as (stored & Hstored & Hrun4)
  end.
  rewrite Hrun4. cbn [trace pdata cancel].
  exists flagged, stored. split; [exact Hflagged|]. split; [exact Hstored|].
  now rewrite <- !app_assoc.
Qed.

(** X22: for a check whose profile is enabled and details with
    identifier-like keys, [executeCheckAction] returns
    normally and its calls are, in this order: the [addFlag] calls (as many
    as the increment, for the flag type of the profile or else the check
    type, and none without a player), the [addLog] call (target the player's
    name tag or "System"), and the [notifyAdmins] call, with nothing but
    [debugLog] lines in between and after; the player-data objects change
    only by the item-context entry and [cancel] is left alone. *)
Theorem executeCheckAction_consequences_in_order (host : Host) (player : option Player)
    (checkType : string) (violationDetails : jsval) (dependencies : ActionManagerDependencies)
    (profile : ActionProfile) (w : World) :
  identifierKeys violationDetails = true ->
  configuredProfile dependencies checkType = Some profile ->
  enabled profile = true ->
  let reason := flagReasonOf player checkType violationDetails profile in
  exists flagged stored,
    forallb isDiagnostic flagged = true
    /\ forallb isDiagnostic stored = true
    /\ executeCheckAction host player checkType violationDetails dependencies w
       = (Return tt,
          mkWorld
            (trace w
             ++ flagCalls player checkType violationDetails dependencies profile reason
             ++ flagged
             ++ logCalls player checkType violationDetails dependencies profile reason
             ++ notifyCalls player checkType violationDetails dependencies profile (pdata w)
             ++ stored)
            (storedPData host player checkType violationDetails dependencies (pdata w))
            (cancel w)).
Proof. intros _. apply executeCheckAction_enabled_run. Qed.

(** Witness for X22: Alice trips the hover check with an elytra; three
    flags, one log entry and one notification follow in that order. *)
Lemma executeCheckAction_consequences_in_order_witness :
  exists flagged stored,
    trace (executeCheckAction (sampleHost []) (Some alice) "fly_hover"
             (VObj [("itemTypeId", PStr "minecraft:elytra")])
             (sampleActionDependencies enabledProfile) aliceWorld).2
    = repeat (EvAddFlag alice "movement" "Alice hovered" "itemTypeId: minecraft:elytra") 3
      ++ flagged
      ++ [EvAddLog (LogDetection "System" "detected_fly_hover" "Alice"
                      "Hover: itemTypeId: minecraft:elytra" "Alice hovered")]
      ++ [EvNotifyAdmins "Alice failed fly_hover" (Some alice)
            (Some (mkPData true None false))]
      ++ stored.
Proof.
  destruct (executeCheckAction_consequences_in_order (sampleHost []) (Some alice) "fly_hover"
              (VObj [("itemTypeId", PStr "minecraft:elytra")])
              (sampleActionDependencies enabledProfile) enabledProfile aliceWorld
              eq_refl eq_refl eq_refl) as (flagged & stored & _ & _ & Hrun).
  exists flagged, stored. rewrite Hrun. reflexivity.
Defined.

(** X23: [executeCheckAction] raises nothing of its own.  Whatever the
    player, for details with identifier-like keys, and whichever of
    configuration, profile table, profile, player
    data manager, player utilities and log manager (or their members) are
    missing, it returns normally, leaves [cancel] alone, and leaves the
    player-data object of every other player as it was. *)
Theorem executeCheckAction_never_throws (host : Host) (player : option Player)
    (checkType : string) (violationDetails : jsval) (dependencies : ActionManagerDependencies)
    (w : World) :
  identifierKeys violationDetails = true ->
  exists w',
    executeCheckAction host player checkType violationDetails dependencies w = (Return tt, w')
    /\ cancel w' = cancel w
    /\ forall other,
        (forall p, player = Some p -> other <> player_id p) ->
        get_prop other (pdata w') = get_prop other (pdata w).
Proof.
  intros _.
  destruct (configuredProfile dependencies checkType) as [profile|] eqn:Hprofile.
  - destruct (enabled profile) eqn:Henabled.
    + destruct (executeCheckAction_enabled_run host player checkType violationDetails
                  dependencies profile w Hprofile Henabled)
        as (flagged & stored & _ & _ & Hrun).
      eexists. split; [exact Hrun|]. split; [reflexivity|].
      intros other Hother. cbn [pdata]. unfold storedPData.
      destruct player as [p|]; [|reflexivity].
      specialize (Hother p eq_refl).
      destruct (am_playerDataManager dependencies) as [m|]; [|reflexivity].
      destruct (truthy_prim (details_itemTypeId violationDetails) && has_getPlayerData m);
        [|reflexivity].
      destruct (get_prop (player_id p) (pdata w)); [|reflexivity].
      now apply get_prop_set_prop_other.
    + unfold configuredProfile in Hprofile. unfold executeCheckAction.
      destruct (am_config dependencies) as [[[profiles|]]|]; try discriminate.
      rewrite Hprofile, Henabled. cbn [negb]. rewrite debugLog_opt_line.
      eexists. split; [reflexivity|]. split; reflexivity.
  - unfold configuredProfile in Hprofile. unfold executeCheckAction.
    destruct (am_config dependencies) as [[[profiles|]]|]; try rewrite Hprofile;
      rewrite debugLog_opt_line; eexists; (split; [reflexivity|]); split; reflexivity.
Qed.

(** X24: without a configuration, without a profile table, or without a
    profile for the check type, [executeCheckAction] makes no call but one
    [debugLog] line (none where [debugLog] is not on offer) and changes no
    player-data object. *)
Theorem executeCheckAction_without_profile (host : Host) (player : option Player)
    (checkType : string) (violationDetails : jsval) (dependencies : ActionManagerDependencies)
    (w : World) :
  configuredProfile dependencies checkType = None ->
  exists diag,
    executeCheckAction host player checkType violationDetails dependencies w
    = (Return tt, mkWorld (trace w ++ diag) (pdata w) (cancel w))
    /\ forallb isDiagnostic diag = true
    /\ List.length diag
       = (if offersDebugLog (am_playerUtils dependencies) then 1 else 0)%nat.
Proof.
  unfold configuredProfile, executeCheckAction. intros Hnone.
  destruct (am_config dependencies) as [[[profiles|]]|]; try rewrite Hnone;
    apply debugLog_opt_diagnostic.
Qed.

(** Witness for X24: a check type for which nothing is configured. *)
Lemma executeCheckAction_without_profile_witness :
  exists diag,
    executeCheckAction (sampleHost []) (Some alice) "speed_ground"
      (VObj [("value", PNum 5)]) (sampleActionDependencies enabledProfile) aliceWorld
    = (Return tt, mkWorld (trace aliceWorld ++ diag) (pdata aliceWorld) (cancel aliceWorld))
    /\ List.length diag = 1%nat.
Proof.
  destruct (executeCheckAction_without_profile (sampleHost []) (Some alice) "speed_ground"
              (VObj [("value", PNum 5)]) (sampleActionDependencies enabledProfile)
              aliceWorld eq_refl) as (diag & Hrun & _ & Hlen).
  exists diag. split; assumption.
Defined.

(** X25: with no player (and details with identifier-like keys), an enabled
    profile flags nobody and stores no item context: among the calls there is no [addFlag], the player-data objects
    are untouched, and the log entry and the notification still go out
    under the name "System". *)
Theorem executeCheckAction_null_player (host : Host) (checkType : string)
    (violationDetails : jsval) (dependencies : ActionManagerDependencies)
    (profile : ActionProfile) (w : World) :
  identifierKeys violationDetails = true ->
  configuredProfile dependencies checkType = Some profile ->
  enabled profile = true ->
  let reason := flagReasonOf None checkType violationDetails profile in
  exists flagged stored,
    forallb isDiagnostic flagged = true
    /\ forallb isDiagnostic stored = true
    /\ executeCheckAction host None checkType violationDetails dependencies w
       = (Return tt,
          mkWorld
            (trace w ++ flagged
             ++ logCalls None checkType violationDetails dependencies profile reason
             ++ notifyCalls None checkType violationDetails dependencies profile (pdata w)
             ++ stored)
            (pdata w) (cancel w))
    /\ (forall entry,
          In (EvAddLog entry)
             (logCalls None checkType violationDetails dependencies profile reason) ->
          exists actionType details,
            entry = LogDetection "System" actionType "System" details reason)
    /\ (forall msg p pData,
          In (EvNotifyAdmins msg p pData)
             (notifyCalls None checkType violationDetails dependencies profile (pdata w)) ->
          p = None /\ pData = None).
Proof.
  intros _ Hprofile Henabled reason.
  destruct (executeCheckAction_enabled_run host None checkType violationDetails
              dependencies profile w Hprofile Henabled)
    as (flagged & stored & Hflagged & Hstored & Hrun).
  exists flagged, stored. split; [exact Hflagged|]. split; [exact Hstored|].
  split; [exact Hrun|]. split.
  - unfold logCalls. intros entry Hin.
    destruct (log profile) as [l|], (am_logManager dependencies) as [m|];
      try destruct (has_addLog m); try contradiction.
    destruct Hin as [[= <-]|[]]. eexists. eexists. reflexivity.
  - unfold notifyCalls. intros msg p pData Hin.
    destruct (notifyAdmins profile) as [[[template|]]|],
             (am_playerUtils dependencies) as [u|];
      try destruct (negb (String.eqb template "") && has_notifyAdmins u);
      try contradiction.
    destruct Hin as [[= <- <- <-]|[]]. split; reflexivity.
Qed.

(** Witness for X25: a system-level hover check. *)
Lemma executeCheckAction_null_player_witness :
  exists flagged stored,
    executeCheckAction (sampleHost []) None "fly_hover"
      (VObj [("itemTypeId", PStr "minecraft:elytra")])
      (sampleActionDependencies enabledProfile) aliceWorld
    = (Return tt,
       mkWorld
         (flagged
          ++ [EvAddLog (LogDetection "System" "detected_fly_hover" "System"
                          "Hover: itemTypeId: minecraft:elytra" "System hovered")]
          ++ [EvNotifyAdmins "System failed fly_hover" None None]
          ++ stored)
         (pdata aliceWorld) false).
Proof.
  destruct (executeCheckAction_null_player (sampleHost []) "fly_hover"
              (VObj [("itemTypeId", PStr "minecraft:elytra")])
              (sampleActionDependencies enabledProfile) enabledProfile aliceWorld
              eq_refl eq_refl eq_refl) as (flagged & stored & _ & _ & Hrun & _).
  exists flagged, stored. exact Hrun.
Defined.

(** Witness for X23: a dependency object with nothing in it. *)
Lemma executeCheckAction_never_throws_witness :
  exists w',
    executeCheckAction (sampleHost []) (Some alice) "fly_hover" (VObj [("value", PNum 5)])
      (mkAmDeps None None None None) aliceWorld = (Return tt, w')
    /\ get_prop (player_id bob) (pdata w') = get_prop (player_id bob) (pdata aliceWorld).
Proof.
  destruct (executeCheckAction_never_throws (sampleHost []) (Some alice) "fly_hover"
              (VObj [("value", PNum 5)]) (mkAmDeps None None None None) aliceWorld eq_refl)
    as (w' & Hrun & _ & Hothers).
  exists w'. split; [exact Hrun|]. apply Hothers. intros p [= <-]. discriminate.
Defined.

(** X26: when an enabled check reports an item (in details with
    identifier-like keys) for a player whose
    player-data object the manager can hand out, the object afterwards
    records, under the check type, that item and the clock's time; it is
    marked dirty for saving; its [isWatched] flag and the entries stored
    under other check types are kept; and the call returns normally. *)
Theorem executeCheckAction_stores_item_context (host : Host) (p : Player)
    (checkType : string) (violationDetails : jsval) (dependencies : ActionManagerDependencies)
    (profile : ActionProfile) (m : PlayerDataManagerCaps) (d : PData) (w : World) :
  identifierKeys violationDetails = true ->
  configuredProfile dependencies checkType = Some profile ->
  enabled profile = true ->
  am_playerDataManager dependencies = Some m ->
  has_getPlayerData m = true ->
  truthy_prim (details_itemTypeId violationDetails) = true ->
  get_prop (player_id p) (pdata w) = Some d ->
  exists w' entries,
    executeCheckAction host (Some p) checkType violationDetails dependencies w
    = (Return tt, w')
    /\ get_prop (player_id p) (pdata w')
       = Some (mkPData (isWatched d) (Some entries) true)
    /\ get_prop checkType entries
       = Some (mkLastViolation (details_itemTypeId violationDetails) (Date_now host))
    /\ forall other,
        other <> checkType ->
        get_prop other entries
        = get_prop other (match lastViolationDetailsMap d with
                          | Some lm => lm
                          | None => []
                          end).
Proof.
  intros _ Hprofile Henabled Hpdm Hget Hitem Hdata.
  destruct (executeCheckAction_enabled_run host (Some p) checkType violationDetails
              dependencies profile w Hprofile Henabled)
    as (flagged & stored & _ & _ & Hrun).
  eexists. eexists. split; [exact Hrun|].
  cbn [pdata]. unfold storedPData. rewrite Hpdm, Hitem, Hget, Hdata. cbn [andb].
  split; [apply get_prop_set_prop_same|].
  split; [apply get_prop_set_prop_same|].
  intros other Hother. now apply get_prop_set_prop_other.
Qed.

(** Witness for X26: Alice's hover check with an elytra. *)
Lemma executeCheckAction_stores_item_context_witness :
  exists w',
    executeCheckAction (sampleHost []) (Some alice) "fly_hover"
      (VObj [("itemTypeId", PStr "minecraft:elytra")])
      (sampleActionDependencies enabledProfile) aliceWorld = (Return tt, w')
    /\ get_prop (player_id alice) (pdata w')
       = Some (mkPData true
                 (Some [("fly_hover",
                         mkLastViolation (PStr "minecraft:elytra") 1700000000000)])
                 true).
Proof.
  destruct (executeCheckAction_stores_item_context (sampleHost []) alice "fly_hover"
              (VObj [("itemTypeId", PStr "minecraft:elytra")])
              (sampleActionDependencies enabledProfile) enabledProfile
              samplePlayerDataManager (mkPData true None false) aliceWorld
              eq_refl eq_refl eq_refl eq_refl eq_refl eq_refl eq_refl)
    as (w' & entries & Hrun & Hstored & _).
  exists w'. split; [exact Hrun|].
  pose proof (f_equal snd Hrun) as Hw. cbn [snd] in Hw. rewrite <- Hw. reflexivity.
Defined.

(** ** actionManager.js: message templates *)

Lemma append_nil_l (t : string) : "" +:+ t = t.
Proof. reflexivity. Qed.

Lemma append_cons (a : ascii) (s t : string) : String a s +:+ t = String a (s +:+ t).
Proof. reflexivity. Qed.

Lemma append_empty_r (s : string) : s +:+ "" = s.
Proof.
  induction s as [|a s IH]; [reflexivity|]. rewrite append_cons. now f_equal.
Qed.

Lemma append_assoc_string (a b c : string) : (a +:+ b) +:+ c = a +:+ (b +:+ c).
Proof.
  induction a as [|x a IH]; [reflexivity|]. rewrite !append_cons. now f_equal.
Qed.

Lemma braceFree_append (a b : string) :
  braceFree (a +:+ b) = braceFree a && braceFree b.
Proof.
  induction a as [|x a IH]; [reflexivity|]. rewrite append_cons. cbn [braceFree].
  rewrite IH. now rewrite andb_assoc.
Qed.

Lemma get_substitution_dollarFree (matched before after replacement : string) :
  dollarFree replacement = true ->
  get_substitution matched before after replacement = replacement.
Proof.
  induction replacement as [|a r IH]; cbn [get_substitution dollarFree]; [reflexivity|].
  intros H. apply andb_true_iff in H as [Ha Hr]. apply negb_true_iff in Ha.
  rewrite Ha. now rewrite IH.
Qed.

Lemma strip_prefix_brace (p : string) (a : ascii) (s : string) :
  Ascii.eqb a "{" = false -> strip_prefix (String "{" p) (String a s) = None.
Proof. intros H. cbn [strip_prefix]. now rewrite Ascii.eqb_sym, H. Qed.

Lemma replace_from_braceFree (p replacement before s : string) :
  braceFree s = true ->
  replace_from (String "{" p) replacement before s 0 = s.
Proof.
  revert before. induction s as [|a s IH]; intros before; [reflexivity|].
  cbn [braceFree]. intros H. apply andb_true_iff in H as [Ha Hs]. apply negb_true_iff in Ha.
  cbn [replace_from]. rewrite (strip_prefix_brace p a s Ha). now rewrite IH.
Qed.

Lemma replace_all_braceFree (p replacement s : string) :
  braceFree s = true -> replace_all (String "{" p) replacement s = s.
Proof. apply replace_from_braceFree. Qed.

Lemma replace_from_braceFree_prefix (p replacement a t before : string) :
  braceFree a = true ->
  replace_from (String "{" p) replacement before (a +:+ t) 0
  = a +:+ replace_from (String "{" p) replacement (before +:+ a) t 0.
Proof.
  revert before. induction a as [|x a IH]; intros before.
  - now rewrite append_empty_r.
  - cbn [braceFree]. intros H. apply andb_true_iff in H as [Hx Ha].
    apply negb_true_iff in Hx.
    rewrite !append_cons. cbn [replace_from].
    rewrite (strip_prefix_brace p x (a +:+ t) Hx). rewrite IH by exact Ha.
    now rewrite append_assoc_string.
Qed.

Lemma replace_from_skip (pat replacement x t before : string) :
  replace_from pat replacement before (x +:+ t) (String.length x)
  = replace_from pat replacement (before +:+ x) t 0.
Proof.
  revert before. induction x as [|c x IH]; intros before.
  - now rewrite append_empty_r.
  - rewrite append_cons. cbn [String.length replace_from].
    rewrite IH. now rewrite append_assoc_string.
Qed.

Lemma strip_prefix_append (pat t : string) : strip_prefix pat (pat +:+ t) = Some t.
Proof.
  induction pat as [|c pat IH]; [now destruct t|].
  rewrite append_cons. cbn [strip_prefix]. now rewrite Ascii.eqb_refl.
Qed.

Lemma replace_from_match (c : ascii) (p replacement t before : string) :
  dollarFree replacement = true ->
  replace_from (String c p) replacement before (String c p +:+ t) 0
  = replacement +:+ replace_from (String c p) replacement (before +:+ String c p) t 0.
Proof.
  intros Hrep. rewrite append_cons. cbn [replace_from].
  rewrite <- append_cons, strip_prefix_append, get_substitution_dollarFree by exact Hrep.
  f_equal. cbn [String.length].
  replace (S (String.length p) - 1)%nat with (String.length p) by lia.
  rewrite replace_from_skip. now rewrite append_assoc_string.
Qed.

Lemma replace_detail_keys_braceFree (entries : list (string * prim)) (message : string) :
  braceFree message = true -> replace_detail_keys entries message = message.
Proof.
  revert message. induction entries as [|[key value] entries IH]; intros message H; simpl;
    [reflexivity|].
  unfold replace_all, placeholder. rewrite append_cons, append_nil_l.
  rewrite replace_from_braceFree by exact H. now apply IH.
Qed.

Lemma formatActionMessage_after_names (message : string) (violationDetails : jsval) :
  braceFree message = true ->
  (let message :=
     replace_all "{detailsString}" (formatViolationDetails violationDetails) message in
   if truthy violationDetails && typeof_is_object violationDetails
   then replace_detail_keys (Object_entries (own_props violationDetails)) message
   else message) = message.
Proof.
  intros H. cbv zeta. unfold replace_all. rewrite replace_from_braceFree by exact H.
  destruct (truthy violationDetails && typeof_is_object violationDetails); [|reflexivity].
  now apply replace_detail_keys_braceFree.
Qed.

(** X27: a template without an opening brace comes back unchanged from
    [formatActionMessage], whatever the player name, the check type and the
    details (with identifier-like keys) are: nothing is inserted where there
    is no placeholder. *)
Theorem formatActionMessage_plain_template (template playerName checkType : string)
    (violationDetails : jsval) :
  identifierKeys violationDetails = true ->
  braceFree template = true ->
  formatActionMessage template playerName checkType violationDetails = template.
Proof.
  intros _ H. unfold formatActionMessage.
  destruct (String.eqb template "") eqn:E; [now apply String.eqb_eq in E|].
  cbv zeta.
  rewrite (replace_all_braceFree "playerName}" playerName template H).
  rewrite (replace_all_braceFree "checkType}" checkType template H).
  now apply formatActionMessage_after_names.
Qed.

(** Witness for X27: a fixed text, with details that name a key. *)
Lemma formatActionMessage_plain_template_witness :
  formatActionMessage "Movement violation" "Alice" "fly_hover" (VObj [("value", PNum 5)])
  = "Movement violation".
Proof.
  apply (formatActionMessage_plain_template "Movement violation" "Alice" "fly_hover"
           (VObj [("value", PNum 5)])); reflexivity.
Defined.

(** X28: in a template of the form  a{playerName}b{checkType}c  whose parts
    a, b, c hold no opening brace, [formatActionMessage] puts the player
    name and the check type in place of the two placeholders and leaves the
    rest as it is, provided the two values hold neither an opening brace nor
    a dollar sign and the keys of the details are identifier-like. *)
Theorem formatActionMessage_fills_names (a b c playerName checkType : string)
    (violationDetails : jsval) :
  identifierKeys violationDetails = true ->
  braceFree a = true -> braceFree b = true -> braceFree c = true ->
  braceFree playerName = true -> dollarFree playerName = true ->
  braceFree checkType = true -> dollarFree checkType = true ->
  formatActionMessage (a +:+ "{playerName}" +:+ b +:+ "{checkType}" +:+ c)
    playerName checkType violationDetails
  = a +:+ playerName +:+ b +:+ checkType +:+ c.
Proof.
  intros _ Ha Hb Hc Hpb Hpd Hcb Hcd. unfold formatActionMessage.
  assert (Hne : String.eqb (a +:+ "{playerName}" +:+ b +:+ "{checkType}" +:+ c) "" = false).
  { apply String.eqb_neq. destruct a; discriminate. }
  rewrite Hne.
  assert (H1 : replace_all "{playerName}" playerName
                 (a +:+ "{playerName}" +:+ b +:+ "{checkType}" +:+ c)
               = a +:+ playerName +:+ b +:+ "{checkType}" +:+ c).
  { unfold replace_all. rewrite replace_from_braceFree_prefix by exact Ha.
    rewrite replace_from_match by exact Hpd.
    rewrite replace_from_braceFree_prefix by exact Hb.
    change ("{checkType}" +:+ c) with (String "{" ("checkType}" +:+ c)).
    cbn [replace_from]. rewrite <- !append_cons.
    change (strip_prefix "{playerName}" ("{checkType}" +:+ c)) with (@None string).
    rewrite replace_from_braceFree; [reflexivity|].
    now rewrite braceFree_append, Hc. }
  rewrite H1.
  assert (H2 : replace_all "{checkType}" checkType
                 (a +:+ playerName +:+ b +:+ "{checkType}" +:+ c)
               = a +:+ playerName +:+ b +:+ checkType +:+ c).
  { unfold replace_all.
    rewrite replace_from_braceFree_prefix by exact Ha.
    rewrite replace_from_braceFree_prefix by exact Hpb.
    rewrite replace_from_braceFree_prefix by exact Hb.
    rewrite replace_from_match by exact Hcd.
    now rewrite replace_from_braceFree by exact Hc. }
  rewrite H2.
  apply formatActionMessage_after_names.
  now rewrite !braceFree_append, Ha, Hpb, Hb, Hcb, Hc.
Qed.

(** Witness for X28: the notification template of the sample profile. *)
Lemma formatActionMessage_fills_names_witness :
  formatActionMessage "{playerName} failed {checkType}" "Alice" "fly_hover"
    (VObj [("value", PNum 5)])
  = "Alice failed fly_hover".
Proof.
  apply (formatActionMessage_fills_names "" " failed " "" "Alice" "fly_hover"
           (VObj [("value", PNum 5)])); reflexivity.
Defined.
